(** * doc-extractor: the multi-engine PDF extraction pipeline of [src/extractor.py]

    A shallow embedding of [PDFAnalyzer.analyze_pdf], of the three engine
    adapters, of [MultiEngineExtractor._is_valid_result] and
    [MultiEngineExtractor.extract], and of [save_extraction_results],
    followed by the properties of the specification.

    Conventions of the embedding:
    - a Python [str] is the list of its Unicode code points ([pystr]);
    - a Python value of the kind the program builds and serialises is a
      [pyval] (None, bool, int, float, str, list, insertion-ordered dict);
      floats are IEEE binary64, Rocq's primitive floats;
    - a computation that may raise is an [outcome]; a computation that also
      calls the libraries (pdfplumber, docling, the clock, the file system)
      is an [M]: the calls it made, in order, and its outcome;
    - the libraries are a [World]: what each call answers, or raises;
    - [logging] calls only write to the log handlers and are left out. *)

From Stdlib Require Import ZArith NArith List String Ascii Bool Lia Floats.
From Stdlib Require DecimalPos DecimalN DecimalFacts.
From Stdlib Require Import Sorted.
From stdpp Require Import base list gmap.
Import ListNotations.

(* A decimal float literal denotes the nearest binary64 value, as in Python. *)
#[local] Set Warnings "-inexact-float".

#[local] Open Scope string_scope.
#[local] Open Scope list_scope.
#[local] Open Scope Z_scope.

(** ** Python strings *)

Definition codepoint := N.
Definition pystr := list codepoint.

(** A string literal of the source: its characters, as code points. *)
Definition u (s : string) : pystr := List.map N_of_ascii (list_ascii_of_string s).

Fixpoint str_eqb (a b : pystr) : bool :=
  match a, b with
  | [], [] => true
  | x :: a', y :: b' => N.eqb x y && str_eqb a' b'
  | _, _ => false
  end.

(** [str.isspace] on one character: what [str.strip()] removes. *)
Definition py_isspace (c : codepoint) : bool :=
  ((9 <=? c) && (c <=? 13) || (28 <=? c) && (c <=? 32)
   || (c =? 133) || (c =? 160) || (c =? 5760)
   || (8192 <=? c) && (c <=? 8202)
   || (c =? 8232) || (c =? 8233) || (c =? 8239) || (c =? 8287)
   || (c =? 12288))%N.

Fixpoint py_lstrip (s : pystr) : pystr :=
  match s with
  | c :: s' => if py_isspace c then py_lstrip s' else s
  | [] => []
  end.

Definition py_rstrip (s : pystr) : pystr := rev (py_lstrip (rev s)).

(** [s.strip()] *)
Definition py_strip (s : pystr) : pystr := py_rstrip (py_lstrip s).

(** ** Python values *)

#[local] Unset Elimination Schemes.
Inductive pyval : Type :=
| PNone : pyval
| PBool (b : bool) : pyval
| PInt (z : Z) : pyval
| PFloat (f : float) : pyval
| PStr (s : pystr) : pyval
| PList (l : list pyval) : pyval
| PDict (d : list (pystr * pyval)) : pyval.
#[local] Set Elimination Schemes.

(** [bool(v)] *)
Definition py_truthy (v : pyval) : bool :=
  match v with
  | PNone => false
  | PBool b => b
  | PInt z => negb (z =? 0)
  | PFloat f => negb (PrimFloat.eqb f 0%float)
  | PStr s => match s with [] => false | _ => true end
  | PList l => match l with [] => false | _ => true end
  | PDict d => match d with [] => false | _ => true end
  end.

(** [isinstance(v, dict)] *)
Definition is_dict (v : pyval) : bool :=
  match v with PDict _ => true | _ => false end.

(** [d[k]] on the items of a dict, [None] when the key is absent. *)
Fixpoint dict_lookup (d : list (pystr * pyval)) (k : pystr) : option pyval :=
  match d with
  | [] => None
  | (k', v) :: d' => if str_eqb k k' then Some v else dict_lookup d' k
  end.

(** ** Exceptions and library calls *)

(** An instance of [Exception]: its class and its message. *)
Record exn : Type := Exn { exn_class : string; exn_msg : string }.

Inductive outcome (A : Type) : Type :=
| Ret (a : A)
| Raise (e : exn).
Arguments Ret {A} a.
Arguments Raise {A} e.

(** The calls that leave the program. *)
Inductive event : Type :=
| EvTime                       (* time.time() *)
| EvOpen (path : pystr)        (* pdfplumber.open(path) *)
| EvText (i : nat)             (* pdf.pages[i].extract_text() *)
| EvImages (i : nat)           (* pdf.pages[i].images *)
| EvTables (i : nat)           (* pdf.pages[i].extract_tables() *)
| EvStat (path : pystr)        (* Path(path).stat() *)
| EvConvert (path : pystr)     (* DocumentConverter().convert(path) *)
| EvEngine (name : pystr).     (* extractor(pdf_path, analysis) of the engine [name] *)

(** The calls made, oldest first, and the outcome. *)
Definition M (A : Type) : Type := (list event * outcome A)%type.

Definition ret {A} (a : A) : M A := ([], Ret a).
Definition raise {A} (e : exn) : M A := ([], Raise e).

Definition bind {A B} (m : M A) (k : A -> M B) : M B :=
  match m with
  | (t, Ret a) => let '(t', r) := k a in (t ++ t', r)
  | (t, Raise e) => (t, Raise e)
  end.

(** [try: m  except Exception as e: h e] *)
Definition try_except {A} (m : M A) (h : exn -> M A) : M A :=
  match m with
  | (t, Ret a) => (t, Ret a)
  | (t, Raise e) => let '(t', r) := h e in (t ++ t', r)
  end.

(** A computation that calls no library. *)
Definition pure {A} (o : outcome A) : M A := ([], o).

(** One library call: the event, and what the library answered. *)
Definition call {A} (ev : event) (o : outcome A) : M A := ([ev], o).

Definition trace {A} (m : M A) : list event := fst m.
Definition outcome_of {A} (m : M A) : outcome A := snd m.

Declare Scope py_scope.
Delimit Scope py_scope with py.
Notation "'let*' x ':=' m 'in' k" := (bind m (fun x => k))
  (at level 10, x name, m at level 100, k at level 200) : py_scope.
#[local] Open Scope py_scope.

(** [o.get(k, default)]: only a dict has [get]. *)
Definition py_get (o : pyval) (k : pystr) (default : pyval) : outcome pyval :=
  match o with
  | PDict d => Ret (match dict_lookup d k with Some v => v | None => default end)
  | _ => Raise (Exn "AttributeError" "object has no attribute 'get'")
  end.

(** [o.strip()]: only a str has [strip]. *)
Definition py_strip_method (o : pyval) : outcome pyval :=
  match o with
  | PStr s => Ret (PStr (py_strip s))
  | _ => Raise (Exn "AttributeError" "object has no attribute 'strip'")
  end.

(** ** Numbers as text *)

Fixpoint uint_chars (d : Decimal.uint) : pystr :=
  match d with
  | Decimal.Nil => []
  | Decimal.D0 d' => 48%N :: uint_chars d'
  | Decimal.D1 d' => 49%N :: uint_chars d'
  | Decimal.D2 d' => 50%N :: uint_chars d'
  | Decimal.D3 d' => 51%N :: uint_chars d'
  | Decimal.D4 d' => 52%N :: uint_chars d'
  | Decimal.D5 d' => 53%N :: uint_chars d'
  | Decimal.D6 d' => 54%N :: uint_chars d'
  | Decimal.D7 d' => 55%N :: uint_chars d'
  | Decimal.D8 d' => 56%N :: uint_chars d'
  | Decimal.D9 d' => 57%N :: uint_chars d'
  end.

(** [str(n)] for a natural number: its decimal digits. *)
Definition str_of_N (n : N) : pystr := uint_chars (N.to_uint n).

(** [str(z)] for an int. *)
Definition str_of_int (z : Z) : pystr :=
  if z <? 0 then 45%N :: str_of_N (Z.abs_N z) else str_of_N (Z.abs_N z).

(** The integer nearest to [n / d], ties to the even one ([0 <= n], [0 < d]). *)
Definition round_half_even (n d : Z) : Z :=
  let q := n / d in
  match 2 * (n mod d) ?= d with
  | Lt => q
  | Gt => q + 1
  | Eq => if Z.even q then q else q + 1
  end.

(** [m * 2^e] in hundredths, correctly rounded. *)
Definition hundredths (m : positive) (e : Z) : Z :=
  if 0 <=? e then Z.pos m * 100 * 2 ^ e
  else round_half_even (Z.pos m * 100) (2 ^ (- e)).

Definition sign_chars (s : bool) : pystr := if s then [45%N] else [].

(** The two digits of [c], [0 <= c < 100]. *)
Definition two_digits (c : Z) : pystr :=
  [(48 + Z.to_N (c / 10))%N; (48 + Z.to_N (c mod 10))%N].

(** [f"{x:.2f}"]: the exact value of the float, rounded to two decimals. *)
Definition format_2f (x : float) : pystr :=
  match Prim2SF x with
  | S754_nan => u "nan"
  | S754_infinity s => sign_chars s ++ u "inf"
  | S754_zero s => sign_chars s ++ u "0.00"
  | S754_finite s m e =>
      let c := hundredths m e in
      sign_chars s ++ str_of_N (Z.to_N (c / 100)) ++ u "." ++ two_digits (c mod 100)
  end.

(** ** Paths *)

(** [s.split("/")], the current component accumulated in reverse in [cur]. *)
Fixpoint split_slash (s cur : pystr) : list pystr :=
  match s with
  | [] => [rev cur]
  | c :: s' =>
      if (c =? 47)%N then rev cur :: split_slash s' [] else split_slash s' (c :: cur)
  end.

(** The components of a POSIX path below its root: empty components and
    [.] are dropped when [Path] parses the string. *)
Definition path_parts (p : pystr) : list pystr :=
  List.filter (fun c => negb (str_eqb c [] || str_eqb c (u "."))) (split_slash p []).

(** [Path(p).name]: the last component, the empty string when there is none. *)
Definition path_name (p : pystr) : pystr := List.last (path_parts p) [].

(** ** The libraries *)

(** One page of an opened document, as pdfplumber answers for it. *)
Record Page : Type := {
  page_extract_text : outcome (option pystr);   (* page.extract_text() *)
  page_images : outcome (list pyval);           (* page.images *)
  page_extract_tables : outcome (list pyval)    (* page.extract_tables() *)
}.

Record World : Type := {
  DOCLING_AVAILABLE : bool;
  TESSERACT_AVAILABLE : bool;
  (* pdfplumber.open(path): the pages of the document *)
  pdfplumber_open : pystr -> outcome (list Page);
  (* Path(path).stat().st_size *)
  stat_st_size : pystr -> outcome Z;
  (* DocumentConverter().convert(path).document.export_to_text() *)
  docling_export_to_text : pystr -> outcome pyval;
  (* the value of the n-th call of time.time() *)
  clock : nat -> float;
  (* repr(x) of a finite float, and float(s) *)
  float_repr : float -> pystr;
  float_of_str : pystr -> option float;
  (* open(path, 'w', encoding='utf-8'): whether the file can be opened *)
  open_for_writing : pystr -> outcome unit
}.

(** ** PDFAnalyzer.analyze_pdf *)

Record scan : Type := {
  has_text : bool;
  has_images : bool;
  estimated_scan_pages : list nat
}.

(** One iteration of the sampling loop, on page [i]. *)
Definition sample_page (i : nat) (page : Page) (st : scan) : M scan :=
  let* text := call (EvText i) (page_extract_text page) in
  let nonblank :=
    match text with
    | Some ((_ :: _) as s) => match py_strip s with [] => false | _ => true end
    | _ => false
    end in
  let has_text' := if nonblank then true else has_text st in
  let* images := call (EvImages i) (page_images page) in
  let has_images' := if py_truthy (PList images) then true else has_images st in
  let low :=
    match text with
    | Some ((_ :: _) as s) => Z.of_nat (length (py_strip s)) <? 50
    | _ => true
    end in
  ret {| has_text := has_text';
         has_images := has_images';
         estimated_scan_pages :=
           if low then estimated_scan_pages st ++ [i] else estimated_scan_pages st |}.

(** [for i, page in enumerate(pages): ...], [i] counting from its first argument. *)
Fixpoint sample_loop (i : nat) (pages : list Page) (st : scan) : M scan :=
  match pages with
  | [] => ret st
  | page :: rest =>
      let* st' := sample_page i page st in
      sample_loop (S i) rest st'
  end.

Definition strategy_of (has_text has_images : bool) : pystr :=
  if negb has_text && has_images then u "ocr_heavy"
  else if has_text && negb has_images then u "text_extraction"
  else u "hybrid".

Definition analysis_record (pages : Z) (has_text has_images : bool)
    (scan_pages : list nat) (file_size : Z) (strategy : pystr) : pyval :=
  PDict [ (u "pages", PInt pages);
          (u "has_text", PBool has_text);
          (u "has_images", PBool has_images);
          (u "estimated_scan_pages", PList (List.map (fun i => PInt (Z.of_nat i)) scan_pages));
          (u "file_size", PInt file_size);
          (u "processing_strategy", PStr strategy) ].

(** The body of the [try]. *)
Definition analyze_body (w : World) (file_path : pystr) : M pyval :=
  let* pdf_pages := call (EvOpen file_path) (pdfplumber_open w file_path) in
  let total_pages := length pdf_pages in
  let sample_pages := Nat.min 5 total_pages in
  let* st := sample_loop 0 (take sample_pages pdf_pages)
               {| has_text := false; has_images := false; estimated_scan_pages := [] |} in
  let strategy := strategy_of (has_text st) (has_images st) in
  let* file_size := call (EvStat file_path) (stat_st_size w file_path) in
  ret (analysis_record (Z.of_nat total_pages) (has_text st) (has_images st)
         (estimated_scan_pages st) file_size strategy).

(** The record of the [except] branch. *)
Definition degraded_analysis : pyval :=
  analysis_record 1 false false [0%nat] 0 (u "fallback").

Definition analyze_pdf (w : World) (file_path : pystr) : M pyval :=
  try_except (analyze_body w file_path) (fun _ => ret degraded_analysis).

(** ** The engine adapters *)

(** An adapter: [extractor(pdf_path, analysis)]. *)
Definition engine : Type := pystr -> pyval -> M pyval.

Definition _docling_extract (w : World) : engine := fun pdf_path analysis =>
  if negb (DOCLING_AVAILABLE w) then raise (Exn "ImportError" "docling not available")
  else
    let* raw_text := call (EvConvert pdf_path) (docling_export_to_text w pdf_path) in
    let* total_pages := pure (py_get analysis (u "pages") (PInt 0)) in
    ret (PDict [ (u "content",
                   PDict [ (u "raw_text", raw_text);
                           (u "pages", PList []);
                           (u "tables", PList []);
                           (u "images", PList []) ]);
                 (u "metadata",
                   PDict [ (u "total_pages", total_pages);
                           (u "text_extraction_method", PStr (u "native")) ]);
                 (u "confidence", PFloat 0.9) ]).

(** What the page loop of the pdfplumber adapter accumulates. *)
Record plumb : Type := {
  raw_text : pystr;
  pages_content : list pyval;
  tables : list pyval
}.

(** [for j, table in enumerate(page_tables): tables.append({...})] *)
Fixpoint table_records (page_no : Z) (j : nat) (page_tables : list pyval) : list pyval :=
  match page_tables with
  | [] => []
  | table :: rest =>
      PDict [ (u "page", PInt page_no);
              (u "table_id", PInt (Z.of_nat j));
              (u "data", table) ] :: table_records page_no (S j) rest
  end.

Definition plumb_page (i : nat) (page : Page) (st : plumb) : M plumb :=
  let* text := call (EvText i) (page_extract_text page) in
  let page_text := match text with Some ((_ :: _) as s) => s | _ => [] end in
  let raw_text' := raw_text st ++ (page_text ++ [10%N]) in
  let pages_content' :=
    pages_content st ++
      [ PDict [ (u "page_num", PInt (Z.of_nat i + 1));
                (u "text", PStr page_text);
                (u "tables", PList []);
                (u "images", PList []) ] ] in
  let* page_tables := call (EvTables i) (page_extract_tables page) in
  ret {| raw_text := raw_text';
         pages_content := pages_content';
         tables := tables st ++ table_records (Z.of_nat i + 1) 0 page_tables |}.

Fixpoint plumb_loop (i : nat) (pages : list Page) (st : plumb) : M plumb :=
  match pages with
  | [] => ret st
  | page :: rest =>
      let* st' := plumb_page i page st in
      plumb_loop (S i) rest st'
  end.

Definition _pdfplumber_extract (w : World) : engine := fun pdf_path analysis =>
  let* pdf_pages := call (EvOpen pdf_path) (pdfplumber_open w pdf_path) in
  let* st := plumb_loop 0 pdf_pages {| raw_text := []; pages_content := []; tables := [] |} in
  ret (PDict [ (u "content",
                 PDict [ (u "raw_text", PStr (raw_text st));
                         (u "pages", PList (pages_content st));
                         (u "tables", PList (tables st));
                         (u "images", PList []) ]);
               (u "metadata",
                 PDict [ (u "total_pages", PInt (Z.of_nat (length pdf_pages)));
                         (u "text_extraction_method", PStr (u "native")) ]);
               (u "confidence",
                 PFloat (if py_truthy (PStr (py_strip (raw_text st))) then 0.8 else 0.3)) ]).

Definition ocr_placeholder : pystr :=
  u "OCR extraction placeholder - implementation needed".

Definition _tesseract_extract (w : World) : engine := fun pdf_path analysis =>
  if negb (TESSERACT_AVAILABLE w) then raise (Exn "ImportError" "pytesseract not available")
  else
    let raw_text := ocr_placeholder in
    let* total_pages := pure (py_get analysis (u "pages") (PInt 0)) in
    ret (PDict [ (u "content",
                   PDict [ (u "raw_text", PStr raw_text);
                           (u "pages", PList []);
                           (u "tables", PList []);
                           (u "images", PList []) ]);
                 (u "metadata",
                   PDict [ (u "total_pages", total_pages);
                           (u "text_extraction_method", PStr (u "ocr")) ]);
                 (u "confidence", PFloat 0.6) ]).

(** ** MultiEngineExtractor *)

Definition obind {A B} (o : outcome A) (k : A -> outcome B) : outcome B :=
  match o with
  | Ret a => k a
  | Raise e => Raise e
  end.

Definition _is_valid_result (result : pyval) : outcome bool :=
  if negb (py_truthy result) || negb (is_dict result) then Ret false
  else
    obind (py_get result (u "content") (PDict [])) (fun content =>
    obind (py_get content (u "raw_text") (PStr [])) (fun raw_text =>
    if py_truthy raw_text
    then obind (py_strip_method raw_text) (fun stripped => Ret (py_truthy stripped))
    else Ret false)).

Record ExtractionResult : Type := {
  extraction_info : pyval;
  content : pyval;
  metadata : pyval
}.

(** [self.engines], as [__init__] sets it. *)
Definition self_engines (w : World) : list (pystr * engine) :=
  [ (u "docling", _docling_extract w);
    (u "pdfplumber", _pdfplumber_extract w);
    (u "tesseract", _tesseract_extract w) ].

(** [f"{processing_time:.2f}s"] *)
Definition format_processing_time (processing_time : float) : pystr :=
  format_2f processing_time ++ u "s".

(** The [return ExtractionResult(...)] of a valid result. *)
Definition success_result (w : World) (pdf_path engine_name : pystr)
    (result : pyval) (start_time : float) : M ExtractionResult :=
  let* now := call EvTime (Ret (clock w 1)) in
  let processing_time := PrimFloat.sub now start_time in
  let* confidence := pure (py_get result (u "confidence") (PFloat 0.8)) in
  let* content := pure (py_get result (u "content") (PDict [])) in
  let* metadata := pure (py_get result (u "metadata") (PDict [])) in
  ret {| extraction_info :=
           PDict [ (u "file_name", PStr (path_name pdf_path));
                   (u "processing_time", PStr (format_processing_time processing_time));
                   (u "engine_used", PList [PStr engine_name]);
                   (u "status", PStr (u "success"));
                   (u "confidence", confidence) ];
         content := content;
         metadata := metadata |}.

(** One iteration of the engine loop: [Some] is the [return] inside the
    [try], [None] is falling through to the next iteration (an invalid
    result, or the [continue] of the [except]). *)
Definition attempt (w : World) (pdf_path : pystr) (analysis : pyval) (start_time : float)
    (engine_name : pystr) (extractor : engine) : M (option ExtractionResult) :=
  try_except
    (let* result := (let* _ := call (EvEngine engine_name) (Ret tt) in
                     extractor pdf_path analysis) in
     let* valid := pure (_is_valid_result result) in
     if valid
     then let* r := success_result w pdf_path engine_name result start_time in
          ret (Some r)
     else ret None)
    (fun _ => ret None).

Fixpoint engine_loop (w : World) (pdf_path : pystr) (analysis : pyval) (start_time : float)
    (engines : list (pystr * engine)) : M (option ExtractionResult) :=
  match engines with
  | [] => ret None
  | (engine_name, extractor) :: rest =>
      let* r := attempt w pdf_path analysis start_time engine_name extractor in
      match r with
      | Some res => ret (Some res)
      | None => engine_loop w pdf_path analysis start_time rest
      end
  end.

(** The last-resort [return ExtractionResult(...)]. *)
Definition fallback_result (w : World) (pdf_path : pystr) (analysis : pyval)
    (start_time : float) : M ExtractionResult :=
  let* now := call EvTime (Ret (clock w 1)) in
  let processing_time := PrimFloat.sub now start_time in
  let* total_pages := pure (py_get analysis (u "pages") (PInt 0)) in
  ret {| extraction_info :=
           PDict [ (u "file_name", PStr (path_name pdf_path));
                   (u "processing_time", PStr (format_processing_time processing_time));
                   (u "engine_used", PList [PStr (u "fallback")]);
                   (u "status", PStr (u "fallback"));
                   (u "confidence", PFloat 0.1) ];
         content :=
           PDict [ (u "raw_text", PStr (u "Failed to extract content from " ++ path_name pdf_path));
                   (u "pages", PList []);
                   (u "tables", PList []);
                   (u "images", PList []) ];
         metadata :=
           PDict [ (u "total_pages", total_pages);
                   (u "text_extraction_method", PStr (u "fallback")) ] |}.

(** [extract], on a given list of engines. *)
Definition extract_with (w : World) (engines : list (pystr * engine))
    (pdf_path : pystr) : M ExtractionResult :=
  let* start_time := call EvTime (Ret (clock w 0)) in
  let* analysis := analyze_pdf w pdf_path in
  let* r := engine_loop w pdf_path analysis start_time engines in
  match r with
  | Some res => ret res
  | None => fallback_result w pdf_path analysis start_time
  end.

(** [MultiEngineExtractor().extract(pdf_path)] *)
Definition extract (w : World) (pdf_path : pystr) : M ExtractionResult :=
  extract_with w (self_engines w) pdf_path.

(** [extract_pdf(pdf_path)]: the result as one dict. *)
Definition extract_pdf (w : World) (pdf_path : pystr) : M pyval :=
  let* result := extract w pdf_path in
  ret (PDict [ (u "extraction_info", extraction_info result);
               (u "content", content result);
               (u "metadata", metadata result) ]).

(** ** json.dump(result, f, indent=2, ensure_ascii=False) *)

Definition hex_digit (n : N) : codepoint :=
  if (n <? 10)%N then (48 + n)%N else (87 + n)%N.

(** One character inside a JSON string: the quote, the backslash and the
    control characters are escaped, every other character is written as it
    is ([ensure_ascii=False]). *)
Definition json_escape_char (c : codepoint) : pystr :=
  if (c =? 34)%N then [92; 34]%N
  else if (c =? 92)%N then [92; 92]%N
  else if (c =? 10)%N then [92; 110]%N
  else if (c =? 13)%N then [92; 114]%N
  else if (c =? 9)%N then [92; 116]%N
  else if (c =? 8)%N then [92; 98]%N
  else if (c =? 12)%N then [92; 102]%N
  else if (c <? 32)%N then [92; 117; 48; 48; hex_digit (c / 16); hex_digit (c mod 16)]%N
  else [c].

Definition json_string (s : pystr) : pystr :=
  34%N :: flat_map json_escape_char s ++ [34%N].

(** A float: [repr], or the names JSON has no syntax for. *)
Definition json_float (w : World) (x : float) : pystr :=
  match Prim2SF x with
  | S754_nan => u "NaN"
  | S754_infinity s => if s then u "-Infinity" else u "Infinity"
  | _ => float_repr w x
  end.

(** A newline and the indentation of nesting level [level]. *)
Definition newline_indent (level : nat) : pystr :=
  10%N :: repeat 32%N (2 * level).

(** [sep.join(items)] *)
Fixpoint join (sep : pystr) (items : list pystr) : pystr :=
  match items with
  | [] => []
  | [x] => x
  | x :: rest => x ++ sep ++ join sep rest
  end.

(** A non-empty container: the opening bracket, the items one per line at the
    next level, the closing bracket back at this level. *)
Definition json_block (level : nat) (open close : codepoint) (items : list pystr) : pystr :=
  match items with
  | [] => [open; close]
  | _ =>
      open :: newline_indent (S level)
        ++ join (44%N :: newline_indent (S level)) items
        ++ newline_indent level ++ [close]
  end.

(** The text of a value at nesting level [level]. An int is printed by
    [str]: where the interpreter limits the digits of that conversion
    (CPython 3.11 and later, 4300 digits unless configured otherwise),
    [json.dumps] raises ValueError on a longer int instead of returning this
    text; [ints_printable] says that a value has no such int. *)
Fixpoint json_dumps (w : World) (level : nat) (v : pyval) : pystr :=
  match v with
  | PNone => u "null"
  | PBool true => u "true"
  | PBool false => u "false"
  | PInt z => str_of_int z
  | PFloat x => json_float w x
  | PStr s => json_string s
  | PList l => json_block level 91%N 93%N (List.map (json_dumps w (S level)) l)
  | PDict d =>
      json_block level 123%N 125%N
        (List.map (fun kv => json_string (fst kv) ++ u ": " ++ json_dumps w (S level) (snd kv)) d)
  end.

(** ** json.load(f) *)

Definition is_json_space (c : codepoint) : bool :=
  ((c =? 32) || (c =? 9) || (c =? 10) || (c =? 13))%N.

Fixpoint skip_space (s : pystr) : pystr :=
  match s with
  | c :: rest => if is_json_space c then skip_space rest else s
  | [] => []
  end.

(** [s] without the prefix [p], when it starts with it. *)
Fixpoint strip_prefix (p s : pystr) : option pystr :=
  match p, s with
  | [], _ => Some s
  | a :: p', b :: s' => if (a =? b)%N then strip_prefix p' s' else None
  | _ :: _, [] => None
  end.

Definition hex_value (c : codepoint) : option N :=
  if ((48 <=? c) && (c <=? 57))%N then Some (c - 48)%N
  else if ((97 <=? c) && (c <=? 102))%N then Some (c - 87)%N
  else if ((65 <=? c) && (c <=? 70))%N then Some (c - 55)%N
  else None.

(** The value of four hexadecimal digits. *)
Definition hex4_value (a b c d : codepoint) : option N :=
  match hex_value a, hex_value b, hex_value c, hex_value d with
  | Some x, Some y, Some z, Some t => Some (((x * 16 + y) * 16 + z) * 16 + t)%N
  | _, _, _, _ => None
  end.

(** The character a one-letter escape stands for. *)
Definition unescape (e : codepoint) : option codepoint :=
  if (e =? 34)%N then Some 34%N
  else if (e =? 92)%N then Some 92%N
  else if (e =? 47)%N then Some 47%N
  else if (e =? 98)%N then Some 8%N
  else if (e =? 102)%N then Some 12%N
  else if (e =? 110)%N then Some 10%N
  else if (e =? 114)%N then Some 13%N
  else if (e =? 116)%N then Some 9%N
  else None.

Definition prepend (c : codepoint) (r : option (pystr * pystr)) : option (pystr * pystr) :=
  match r with
  | Some (s, rest) => Some (c :: s, rest)
  | None => None
  end.

(** The characters of a string up to its closing quote, and what follows the
    quote; a raw control character is refused, a pair of surrogate escapes is
    one character. *)
Fixpoint scan_string (s : pystr) : option (pystr * pystr) :=
  match s with
  | [] => None
  | c :: rest =>
      if (c =? 34)%N then Some ([], rest)
      else if (c =? 92)%N then
        match rest with
        | [] => None
        | e :: rest1 =>
            if (e =? 117)%N then
              match rest1 with
              | h1 :: h2 :: h3 :: h4 :: rest2 =>
                  match hex4_value h1 h2 h3 h4 with
                  | None => None
                  | Some hi =>
                      match rest2 with
                      | b :: x :: g1 :: g2 :: g3 :: g4 :: rest3 =>
                          match hex4_value g1 g2 g3 g4 with
                          | Some lo =>
                              if ((55296 <=? hi) && (hi <=? 56319) && (b =? 92) && (x =? 117)
                                  && (56320 <=? lo) && (lo <=? 57343))%N
                              then prepend (65536 + ((hi - 55296) * 1024 + (lo - 56320)))%N
                                     (scan_string rest3)
                              else prepend hi (scan_string rest2)
                          | None => prepend hi (scan_string rest2)
                          end
                      | _ => prepend hi (scan_string rest2)
                      end
                  end
              | _ => None
              end
            else
              match unescape e with
              | Some ch => prepend ch (scan_string rest1)
              | None => None
              end
        end
      else if (c <? 32)%N then None
      else prepend c (scan_string rest)
  end.

(** A decimal digit. *)
Definition is_digit (c : codepoint) : bool := ((48 <=? c) && (c <=? 57))%N.

Definition is_number_char (c : codepoint) : bool :=
  (is_digit c || (c =? 43) || (c =? 45) || (c =? 46) || (c =? 101) || (c =? 69))%N.

(** The longest prefix of [s] whose characters satisfy [p], and the rest. *)
Fixpoint span (p : codepoint -> bool) (s : pystr) : pystr * pystr :=
  match s with
  | c :: rest => if p c then let '(a, b) := span p rest in (c :: a, b) else ([], s)
  | [] => ([], [])
  end.

(** A zero, or digits that do not start with a zero. *)
Definition is_digits_literal (t : pystr) : bool :=
  match t with
  | [] => false
  | [c] => is_digit c
  | c :: _ => is_digit c && negb (c =? 48)%N && forallb is_digit t
  end.

(** An optional minus sign and such digits: the numbers [json] reads with [int]. *)
Definition is_int_literal (t : pystr) : bool :=
  match t with
  | c :: t' => if (c =? 45)%N then is_digits_literal t' else is_digits_literal t
  | [] => false
  end.

(** A non-empty run of digits. *)
Definition is_digit_run (t : pystr) : bool :=
  match t with [] => false | _ => forallb is_digit t end.

(** An exponent: e or E, an optional sign, digits; or nothing when [optional]. *)
Definition is_exponent (optional : bool) (t : pystr) : bool :=
  match t with
  | [] => optional
  | c :: t' =>
      ((c =? 101) || (c =? 69))%N
      && match t' with
         | sg :: t'' => if ((sg =? 43) || (sg =? 45))%N then is_digit_run t'' else is_digit_run t'
         | [] => false
         end
  end.

(** An integer literal followed by a fraction (a point and digits), by an
    exponent, or by both: the numbers [json] reads with [float]. *)
Definition is_float_literal (t : pystr) : bool :=
  let t1 := match t with c :: t' => if (c =? 45)%N then t' else t | [] => [] end in
  let '(int_part, t2) := span is_digit t1 in
  is_digits_literal int_part
  && match t2 with
     | c :: t3 =>
         if (c =? 46)%N
         then let '(frac, t4) := span is_digit t3 in is_digit_run frac && is_exponent true t4
         else is_exponent false t2
     | [] => false
     end.

Fixpoint uint_of_chars (t : pystr) : Decimal.uint :=
  match t with
  | [] => Decimal.Nil
  | c :: t' =>
      let d := uint_of_chars t' in
      if (c =? 48)%N then Decimal.D0 d else if (c =? 49)%N then Decimal.D1 d
      else if (c =? 50)%N then Decimal.D2 d else if (c =? 51)%N then Decimal.D3 d
      else if (c =? 52)%N then Decimal.D4 d else if (c =? 53)%N then Decimal.D5 d
      else if (c =? 54)%N then Decimal.D6 d else if (c =? 55)%N then Decimal.D7 d
      else if (c =? 56)%N then Decimal.D8 d else Decimal.D9 d
  end.

(** [int(t)] for an integer literal. *)
Definition int_of_literal (t : pystr) : Z :=
  match t with
  | c :: t' =>
      if (c =? 45)%N then - Z.of_N (N.of_uint (uint_of_chars t'))
      else Z.of_N (N.of_uint (uint_of_chars t))
  | [] => 0
  end.

(** A number at the head of [s]. *)
Definition scan_number (w : World) (s : pystr) : option (pyval * pystr) :=
  let '(t, rest) := span is_number_char s in
  if is_int_literal t then Some (PInt (int_of_literal t), rest)
  else if is_float_literal t
       then match float_of_str w t with
            | Some x => Some (PFloat x, rest)
            | None => None
            end
       else None.

(** The constants [NaN], [Infinity] and [-Infinity]. *)
Definition scan_constant (s : pystr) : option (pyval * pystr) :=
  match strip_prefix (u "NaN") s with
  | Some rest => Some (PFloat nan, rest)
  | None =>
      match strip_prefix (u "Infinity") s with
      | Some rest => Some (PFloat infinity, rest)
      | None =>
          match strip_prefix (u "-Infinity") s with
          | Some rest => Some (PFloat neg_infinity, rest)
          | None => None
          end
      end
  end.

(** [d[k] = v] on the items of a dict: the value is replaced where the key
    is, a new key goes last. *)
Fixpoint dict_set (d : list (pystr * pyval)) (k : pystr) (v : pyval) : list (pystr * pyval) :=
  match d with
  | [] => [(k, v)]
  | (k', v') :: d' => if str_eqb k k' then (k', v) :: d' else (k', v') :: dict_set d' k v
  end.

(** The items of an array after the first, [n] bounding their number, up to
    the closing bracket. *)
Fixpoint parse_items (parse : pystr -> option (pyval * pystr)) (n : nat)
    (acc : list pyval) (s : pystr) : option (pyval * pystr) :=
  match n with
  | O => None
  | S n' =>
      match skip_space s with
      | c :: rest =>
          if (c =? 93)%N then Some (PList acc, rest)
          else if (c =? 44)%N then
            match parse (skip_space rest) with
            | Some (v, rest') => parse_items parse n' (acc ++ [v]) rest'
            | None => None
            end
          else None
      | [] => None
      end
  end.

(** One ["key": value] pair. *)
Definition parse_pair (parse : pystr -> option (pyval * pystr)) (s : pystr)
    : option (pystr * pyval * pystr) :=
  match s with
  | q :: s1 =>
      if (q =? 34)%N then
        match scan_string s1 with
        | Some (k, s2) =>
            match skip_space s2 with
            | c :: s3 =>
                if (c =? 58)%N then
                  match parse (skip_space s3) with
                  | Some (v, s4) => Some (k, v, s4)
                  | None => None
                  end
                else None
            | [] => None
            end
        | None => None
        end
      else None
  | [] => None
  end.

(** The pairs of an object after the first. *)
Fixpoint parse_pairs (parse : pystr -> option (pyval * pystr)) (n : nat)
    (acc : list (pystr * pyval)) (s : pystr) : option (pyval * pystr) :=
  match n with
  | O => None
  | S n' =>
      match skip_space s with
      | c :: rest =>
          if (c =? 125)%N then Some (PDict acc, rest)
          else if (c =? 44)%N then
            match parse_pair parse (skip_space rest) with
            | Some (k, v, rest') => parse_pairs parse n' (dict_set acc k v) rest'
            | None => None
            end
          else None
      | [] => None
      end
  end.

(** One value at the head of [s]; [fuel] bounds the nesting and the number
    of items of a container. *)
Fixpoint parse_value (w : World) (fuel : nat) (s : pystr) : option (pyval * pystr) :=
  match fuel with
  | O => None
  | S fuel' =>
      match s with
      | [] => None
      | c :: rest =>
          if (c =? 34)%N then
            match scan_string rest with
            | Some (str, rest') => Some (PStr str, rest')
            | None => None
            end
          else if (c =? 123)%N then
            match skip_space rest with
            | c' :: rest' =>
                if (c' =? 125)%N then Some (PDict [], rest')
                else
                  match parse_pair (parse_value w fuel') (c' :: rest') with
                  | Some (k, v, rest'') => parse_pairs (parse_value w fuel') fuel' [(k, v)] rest''
                  | None => None
                  end
            | [] => None
            end
          else if (c =? 91)%N then
            match skip_space rest with
            | c' :: rest' =>
                if (c' =? 93)%N then Some (PList [], rest')
                else
                  match parse_value w fuel' (c' :: rest') with
                  | Some (v, rest'') => parse_items (parse_value w fuel') fuel' [v] rest''
                  | None => None
                  end
            | [] => None
            end
          else
            match strip_prefix (u "null") s with
            | Some rest' => Some (PNone, rest')
            | None =>
                match strip_prefix (u "true") s with
                | Some rest' => Some (PBool true, rest')
                | None =>
                    match strip_prefix (u "false") s with
                    | Some rest' => Some (PBool false, rest')
                    | None =>
                        match scan_number w s with
                        | Some r => Some r
                        | None => scan_constant s
                        end
                    end
                end
            end
      end
  end.

(** [json.loads(s)]: one value between optional spaces, and nothing else. *)
Definition json_loads (w : World) (s : pystr) : option pyval :=
  match parse_value w (S (length s)) (skip_space s) with
  | Some (v, rest) => match skip_space rest with [] => Some v | _ => None end
  | None => None
  end.

(** ** Output paths *)

(** The root of a POSIX path: two leading slashes are kept, one or more than
    two are one. *)
Definition path_root (p : pystr) : pystr :=
  match p with
  | a :: rest =>
      if (a =? 47)%N then
        match rest with
        | b :: rest' =>
            if (b =? 47)%N then
              match rest' with
              | c :: _ => if (c =? 47)%N then [47%N] else [47%N; 47%N]
              | [] => [47%N; 47%N]
              end
            else [47%N]
        | [] => [47%N]
        end
      else []
  | [] => []
  end.

(** [str(path)] of a parsed path. *)
Definition path_str (root : pystr) (parts : list pystr) : pystr :=
  match root, parts with
  | [], [] => u "."
  | _, _ => root ++ join [47%N] parts
  end.

(** [name.rfind(".")] *)
Fixpoint rfind_dot (name : pystr) : option nat :=
  match name with
  | [] => None
  | c :: rest =>
      match rfind_dot rest with
      | Some i => Some (S i)
      | None => if (c =? 46)%N then Some O else None
      end
  end.

(** [Path.suffix] of a name: from its last dot, when that dot is neither the
    first nor the last character. *)
Definition name_suffix (name : pystr) : pystr :=
  match rfind_dot name with
  | Some i => if (0 <? i)%nat && (i <? length name - 1)%nat then drop i name else []
  | None => []
  end.

(** [Path.stem] of a name: the name without its suffix. *)
Definition name_stem (name : pystr) : pystr :=
  take (length name - length (name_suffix name)) name.

(** [str(Path(p).with_suffix(suffix))] for a suffix that starts with a dot. *)
Definition with_suffix (p suffix : pystr) : outcome pystr :=
  match path_name p with
  | [] => Raise (Exn "ValueError" "path has an empty name")
  | name =>
      Ret (path_str (path_root p) (removelast (path_parts p) ++ [name_stem name ++ suffix]))
  end.

(** ** save_extraction_results *)

(** What can be written to a file opened with [encoding='utf-8']: code
    points, no surrogates. *)
Definition utf8_encodable (text : pystr) : bool :=
  forallb (fun c => ((c <? 55296) || (57343 <? c) && (c <=? 1114111))%N) text.

(** [with open(path, 'w', encoding='utf-8') as f: f.write(text)] on the
    files [fs]: the file holds [text] afterwards. When it raises, what the
    file is left with is not modelled. *)
Definition write_file (w : World) (fs : gmap pystr pystr) (path text : pystr)
    : outcome (gmap pystr pystr) :=
  obind (open_for_writing w path) (fun _ =>
  if utf8_encodable text then Ret (<[path := text]> fs)
  else Raise (Exn "UnicodeEncodeError" "surrogates not allowed")).

(** [o[k]] *)
Definition py_getitem (o : pyval) (k : pystr) : outcome pyval :=
  match o with
  | PDict d =>
      match dict_lookup d k with
      | Some v => Ret v
      | None => Raise (Exn "KeyError" "key")
      end
  | _ => Raise (Exn "TypeError" "object is not subscriptable")
  end.

(** The files after the call, and the two paths it returns. Each file is
    opened before what goes into it is computed: the text file is open (and
    empty) when [result['content']['raw_text']] is looked up. When the call
    raises, what the files are left with is not modelled. *)
Definition save_extraction_results (w : World) (fs : gmap pystr pystr)
    (pdf_path : pystr) (result : pyval) : outcome (gmap pystr pystr * (pystr * pystr)) :=
  obind (with_suffix pdf_path (u ".json")) (fun json_output =>
  obind (write_file w fs json_output (json_dumps w 0 result)) (fun fs1 =>
  obind (with_suffix pdf_path (u ".txt")) (fun txt_output =>
  obind (open_for_writing w txt_output) (fun _ =>
  obind (py_getitem result (u "content")) (fun content =>
  obind (py_getitem content (u "raw_text")) (fun raw_text =>
  match raw_text with
  | PStr text =>
      if utf8_encodable text
      then Ret (<[txt_output := text]> fs1, (json_output, txt_output))
      else Raise (Exn "UnicodeEncodeError" "surrogates not allowed")
  | _ => Raise (Exn "TypeError" "write() argument must be str")
  end)))))).

(** ** The command line *)

(** What a run of the script leaves: the files, what it printed (one entry
    per [print]) and its exit status. A run that ends in an uncaught
    exception is a [Raise]. *)
Record run : Type := {
  run_files : gmap pystr pystr;
  run_stdout : list pystr;
  run_exit : Z
}.

(** The [if __name__ == "__main__":] block, on [sys.argv]. *)
Definition main (w : World) (fs : gmap pystr pystr) (argv : list pystr) : M run :=
  match argv with
  | [_; pdf_file] =>
      let* result := extract_pdf w pdf_file in
      let* saved := pure (save_extraction_results w fs pdf_file result) in
      let '(fs', (json_path, txt_path)) := saved in
      ret {| run_files := fs';
             run_stdout := [ u "JSON output saved to: " ++ json_path;
                             u "Text output saved to: " ++ txt_path;
                             json_dumps w 0 result ];
             run_exit := 0 |}
  | _ =>
      ret {| run_files := fs;
             run_stdout := [u "Usage: python extractor.py <pdf_file_path>"];
             run_exit := 1 |}
  end.
(** ** Observations used in the statements *)

(** The library calls of one iteration of the sampling loop. *)
Definition page_events (i : nat) : list event := [EvText i; EvImages i].

(** [v[k]] when [v] is a dict that has the key [k]. *)
Definition py_field (v : pyval) (k : pystr) : option pyval :=
  match v with
  | PDict d => dict_lookup d k
  | _ => None
  end.

(** The decision table of the specification, row by row. *)
Definition strategy_table (has_extractable_text has_images : bool) : pystr :=
  match has_extractable_text, has_images with
  | false, true => u "ocr_heavy"
  | true, false => u "text_extraction"
  | true, true => u "hybrid"
  | false, false => u "hybrid"
  end.

(** ** Sample documents *)

Definition text_page (s : string) : Page :=
  {| page_extract_text := Ret (Some (u s));
     page_images := Ret [];
     page_extract_tables := Ret [] |}.

Definition scanned_page : Page :=
  {| page_extract_text := Ret None;
     page_images := Ret [PDict [(u "name", PStr (u "Im1"))]];
     page_extract_tables := Ret [] |}.

Definition broken_page : Page :=
  {| page_extract_text := Raise (Exn "PDFSyntaxError" "bad content stream");
     page_images := Ret [];
     page_extract_tables := Ret [] |}.

Definition prose : string :=
  "The quick brown fox jumps over the lazy dog, again and again.".

(** [repr] and [float] on the confidences the adapters report and on 1.0. *)
Definition sample_floats : list (float * string) :=
  [ (0.1%float, "0.1"); (0.3%float, "0.3"); (0.6%float, "0.6");
    (0.8%float, "0.8"); (0.9%float, "0.9"); (1%float, "1.0") ].

Definition sample_float_repr (x : float) : pystr :=
  match List.find (fun p => PrimFloat.eqb (fst p) x) sample_floats with
  | Some p => u (snd p)
  | None => u "?"
  end.

Definition sample_float_of_str (s : pystr) : option float :=
  option_map fst (List.find (fun p => str_eqb (u (snd p)) s) sample_floats).

(** Files can be created in the current directory and in [docs]. *)
Definition sample_open_for_writing (p : pystr) : outcome unit :=
  match strip_prefix (u "docs/") p with
  | Some name => if existsb (N.eqb 47) name
                 then Raise (Exn "FileNotFoundError" "No such file or directory")
                 else Ret tt
  | None => if existsb (N.eqb 47) p
            then Raise (Exn "FileNotFoundError" "No such file or directory")
            else Ret tt
  end.

(** A file system with a seven-page text document, a three-page scan, a
    document without pages and a document whose second page cannot be read;
    neither docling nor pytesseract is installed. *)
Definition sample_world : World :=
  {| DOCLING_AVAILABLE := false;
     TESSERACT_AVAILABLE := false;
     pdfplumber_open := fun p =>
       if str_eqb p (u "docs/report.pdf")
       then Ret [text_page prose; text_page "2"; text_page prose; text_page prose;
                 text_page prose; text_page " "; text_page prose]
       else if str_eqb p (u "scan.pdf") then Ret [scanned_page; scanned_page; scanned_page]
       else if str_eqb p (u "empty.pdf") then Ret []
       else if str_eqb p (u "broken.pdf") then Ret [text_page prose; broken_page]
       else Raise (Exn "FileNotFoundError" "No such file or directory");
     stat_st_size := fun p =>
       if str_eqb p (u "docs/report.pdf") then Ret 48213
       else if str_eqb p (u "scan.pdf") then Ret 907155
       else if str_eqb p (u "empty.pdf") then Ret 312
       else if str_eqb p (u "broken.pdf") then Ret 2048
       else Raise (Exn "FileNotFoundError" "No such file or directory");
     docling_export_to_text := fun _ => Raise (Exn "RuntimeError" "conversion failed");
     clock := fun n => match n with O => 1700000000.5%float | _ => 1700000001.75%float end;
     float_repr := sample_float_repr;
     float_of_str := sample_float_of_str;
     open_for_writing := sample_open_for_writing |}.

(** The same file system on a machine where pytesseract is installed. *)
Definition sample_world_ocr : World :=
  {| DOCLING_AVAILABLE := false;
     TESSERACT_AVAILABLE := true;
     pdfplumber_open := pdfplumber_open sample_world;
     stat_st_size := stat_st_size sample_world;
     docling_export_to_text := docling_export_to_text sample_world;
     clock := clock sample_world;
     float_repr := sample_float_repr;
     float_of_str := sample_float_of_str;
     open_for_writing := sample_open_for_writing |}.

(** The text "# Résumé", with its accented letters (code point 233). *)
Definition resume_text : pystr := u "# R" ++ [233%N] ++ u "sum" ++ [233%N].

(** The same file system on a machine where docling is installed and converts. *)
Definition sample_world_docling : World :=
  {| DOCLING_AVAILABLE := true;
     TESSERACT_AVAILABLE := true;
     pdfplumber_open := pdfplumber_open sample_world;
     stat_st_size := stat_st_size sample_world;
     docling_export_to_text := fun _ => Ret (PStr resume_text);
     clock := clock sample_world;
     float_repr := sample_float_repr;
     float_of_str := sample_float_of_str;
     open_for_writing := sample_open_for_writing |}.

(** [v.get(k, default)] when it does not raise. *)
Definition py_get_default (v : pyval) (k : pystr) (default : pyval) : pyval :=
  match py_field v k with
  | Some x => x
  | None => default
  end.

(** The analysis record that [extract] hands to the engines. *)
Definition analysis_of (w : World) (pdf_path : pystr) : pyval :=
  match outcome_of (analyze_body w pdf_path) with
  | Ret r => r
  | Raise _ => degraded_analysis
  end.

(** The engine returns [r], and [r] passes validation. *)
Definition engine_succeeds (extractor : engine) (pdf_path : pystr) (analysis r : pyval) : Prop :=
  outcome_of (extractor pdf_path analysis) = Ret r /\ _is_valid_result r = Ret true.

(** The engine raises, or returns something that does not pass validation. *)
Definition engine_fails (extractor : engine) (pdf_path : pystr) (analysis : pyval) : Prop :=
  match outcome_of (extractor pdf_path analysis) with
  | Ret r => _is_valid_result r <> Ret true
  | Raise _ => True
  end.

(** The engines invoked in a run, in order. *)
Definition engine_call (ev : event) : option pystr :=
  match ev with
  | EvEngine name => Some name
  | _ => None
  end.

Definition engine_calls (t : list event) : list pystr := omap engine_call t.

(** The elapsed time [extract] reports: the second clock reading minus the first. *)
Definition elapsed (w : World) : float := PrimFloat.sub (clock w 1) (clock w 0).

(** The result [extract] builds from the valid result [r] of the engine [engine_name]. *)
Definition success_record (w : World) (pdf_path engine_name : pystr) (r : pyval)
    : ExtractionResult :=
  {| extraction_info :=
       PDict [ (u "file_name", PStr (path_name pdf_path));
               (u "processing_time", PStr (format_2f (elapsed w) ++ u "s"));
               (u "engine_used", PList [PStr engine_name]);
               (u "status", PStr (u "success"));
               (u "confidence", py_get_default r (u "confidence") (PFloat 0.8)) ];
     content := py_get_default r (u "content") (PDict []);
     metadata := py_get_default r (u "metadata") (PDict []) |}.

(** The result [extract] builds when no engine gave a valid result. *)
Definition fallback_record (w : World) (pdf_path : pystr) : ExtractionResult :=
  {| extraction_info :=
       PDict [ (u "file_name", PStr (path_name pdf_path));
               (u "processing_time", PStr (format_2f (elapsed w) ++ u "s"));
               (u "engine_used", PList [PStr (u "fallback")]);
               (u "status", PStr (u "fallback"));
               (u "confidence", PFloat 0.1) ];
     content :=
       PDict [ (u "raw_text",
                 PStr (u "Failed to extract content from " ++ path_name pdf_path));
               (u "pages", PList []);
               (u "tables", PList []);
               (u "images", PList []) ];
     metadata :=
       PDict [ (u "total_pages", py_get_default (analysis_of w pdf_path) (u "pages") (PInt 0));
               (u "text_extraction_method", PStr (u "fallback")) ] |}.

(** The calls of one iteration of the engine loop, without the clock. *)
Definition engine_events (pdf_path : pystr) (analysis : pyval) (e : pystr * engine)
    : list event :=
  EvEngine (fst e) :: trace (snd e pdf_path analysis).

(** A number written with exactly two decimals: an optional minus sign, at
    least one digit, a point, two digits. *)
Definition two_decimals (s : pystr) : Prop :=
  exists sign int_part d1 d2,
    s = sign ++ int_part ++ [46%N; d1; d2]
    /\ (sign = [] \/ sign = [45%N])
    /\ int_part <> []
    /\ forallb is_digit int_part = true
    /\ is_digit d1 = true /\ is_digit d2 = true.

(** Neither NaN nor an infinity. *)
Definition float_is_finite (x : float) : bool :=
  match Prim2SF x with
  | S754_zero _ | S754_finite _ _ _ => true
  | _ => false
  end.

(** A result with every field of the three records in place. *)
Definition well_formed_result (pdf_path : pystr) (res : ExtractionResult) : Prop :=
  (exists (time engine status : pystr) (confidence : float),
     extraction_info res =
       PDict [ (u "file_name", PStr (path_name pdf_path));
               (u "processing_time", PStr time);
               (u "engine_used", PList [PStr engine]);
               (u "status", PStr status);
               (u "confidence", PFloat confidence) ]
     /\ (status = u "success" \/ status = u "fallback")
     /\ PrimFloat.leb 0 confidence = true /\ PrimFloat.leb confidence 1 = true)
  /\ (exists (text : pystr) (pages tables images : list pyval),
        content res =
          PDict [ (u "raw_text", PStr text);
                  (u "pages", PList pages);
                  (u "tables", PList tables);
                  (u "images", PList images) ])
  /\ (exists (total_pages : Z) (method : pystr),
        metadata res =
          PDict [ (u "total_pages", PInt total_pages);
                  (u "text_extraction_method", PStr method) ]
        /\ (method = u "native" \/ method = u "ocr" \/ method = u "fallback")).

(** What an adapter returns: the text, the page and table records, the page
    count, the method and the confidence. *)
Definition adapter_result (text : pyval) (pages tables : list pyval) (total_pages : pyval)
    (method : pystr) (confidence : float) : pyval :=
  PDict [ (u "content",
            PDict [ (u "raw_text", text);
                    (u "pages", PList pages);
                    (u "tables", PList tables);
                    (u "images", PList []) ]);
          (u "metadata",
            PDict [ (u "total_pages", total_pages);
                    (u "text_extraction_method", PStr method) ]);
          (u "confidence", PFloat confidence) ].

(** ** Values that JSON carries *)

(** The number of nodes of a value, each item of a container counted twice. *)
Fixpoint weight (v : pyval) : nat :=
  match v with
  | PList l => S (list_sum (List.map (fun x => S (weight x)) l))
  | PDict d => S (list_sum (List.map (fun kv => S (weight (snd kv))) d))
  | _ => 1%nat
  end.

(** [repr] prints the float [x] as a JSON number that [float] reads back as [x]. *)
Definition float_reads_back (w : World) (x : float) : Prop :=
  float_is_finite x = true
  /\ is_float_literal (float_repr w x) = true
  /\ forallb is_number_char (float_repr w x) = true
  /\ float_of_str w (float_repr w x) = Some x.

(** A value that [json.load] gives back as it was: the keys of each dict are
    distinct, and each float is finite and read back by [float] from its [repr]. *)
Fixpoint json_native (w : World) (v : pyval) : Prop :=
  match v with
  | PFloat x => float_reads_back w x
  | PList l => fold_right (fun x acc => json_native w x /\ acc) True l
  | PDict d =>
      NoDup (List.map fst d)
      /\ fold_right (fun kv acc => json_native w (snd kv) /\ acc) True d
  | _ => True
  end.

(** What may follow a value in the text [json_dumps] writes: nothing, a
    comma, or a newline. *)
Definition value_end (rest : pystr) : Prop :=
  match rest with
  | [] => True
  | c :: _ => c = 44%N \/ c = 10%N
  end.


(** [x], written at nesting level [level], is read back with fuel [fuel]. *)
Definition reads_back (w : World) (fuel level : nat) (x : pyval) : Prop :=
  forall rest, value_end rest ->
    parse_value w fuel (json_dumps w level x ++ rest) = Some (x, rest).

(** The text of the items of a block after the first. *)
Definition items_tail (level : nat) (items : list pystr) : pystr :=
  flat_map (fun y => (44%N :: newline_indent (S level)) ++ y) items.

(** The text of one pair of a dict. *)
Definition pair_text (w : World) (level : nat) (kv : pystr * pyval) : pystr :=
  json_string (fst kv) ++ u ": " ++ json_dumps w (S level) (snd kv).

(** The output paths without their suffix: the normalised source path
    without the suffix of its name. *)
Definition output_base (pdf_path : pystr) : pystr :=
  path_root pdf_path
    ++ flat_map (fun part => part ++ [47%N]) (removelast (path_parts pdf_path))
    ++ name_stem (path_name pdf_path).


(** What the pdfplumber adapter returns for the report. *)
Definition sample_pdfplumber_result : pyval :=
  match outcome_of (_pdfplumber_extract sample_world (u "docs/report.pdf")
                      (analysis_of sample_world (u "docs/report.pdf"))) with
  | Ret r => r
  | Raise _ => PNone
  end.

(** ** What the analyzer and the adapters see of a page *)

(** The page has text that is not only white space. *)
Definition page_has_text (page : Page) : bool :=
  match page_extract_text page with
  | Ret (Some s) => match py_strip s with [] => false | _ => true end
  | _ => false
  end.

(** The page has at least one image. *)
Definition page_has_images (page : Page) : bool :=
  match page_images page with
  | Ret (_ :: _) => true
  | _ => false
  end.

(** The page has no text, or fewer than 50 characters once stripped. *)
Definition page_low_text (page : Page) : bool :=
  match page_extract_text page with
  | Ret (Some s) => Z.of_nat (length (py_strip s)) <? 50
  | _ => true
  end.

(** The indices, counted from [i], of the low-text pages of a list. *)
Fixpoint low_text_from (i : nat) (pages : list Page) : list nat :=
  match pages with
  | [] => []
  | page :: rest =>
      if page_low_text page then i :: low_text_from (S i) rest
      else low_text_from (S i) rest
  end.

(** The text of a page as the pdfplumber adapter takes it: the empty string
    for [None]. *)
Definition page_text_or_empty (page : Page) : pystr :=
  match page_extract_text page with
  | Ret (Some s) => s
  | _ => []
  end.

(** The tables of a page, none when the call raises. *)
Definition page_tables (page : Page) : list pyval :=
  match page_extract_tables page with
  | Ret ts => ts
  | Raise _ => []
  end.

(** The record of page [i] (counted from 0) in [content.pages]. *)
Definition page_record (i : nat) (page : Page) : pyval :=
  PDict [ (u "page_num", PInt (Z.of_nat i + 1));
          (u "text", PStr (page_text_or_empty page));
          (u "tables", PList []);
          (u "images", PList []) ].

(** The record of table [j] of page [i] (both counted from 0). *)
Definition table_record (i j : nat) (table : pyval) : pyval :=
  PDict [ (u "page", PInt (Z.of_nat i + 1));
          (u "table_id", PInt (Z.of_nat j));
          (u "data", table) ].

(** [isinstance(v, str)] *)
Definition is_str (v : pyval) : bool :=
  match v with PStr _ => true | _ => false end.

(** A document with tables: two on its first page, none on the second, one
    on the third. *)
Definition table_page (s : string) (tables : list pyval) : Page :=
  {| page_extract_text := Ret (Some (u s));
     page_images := Ret [];
     page_extract_tables := Ret tables |}.

Definition sample_table (cell : string) : pyval :=
  PList [PList [PStr (u cell); PNone]; PList [PStr (u "1"); PStr (u "2")]].

Definition table_world : World :=
  {| DOCLING_AVAILABLE := false;
     TESSERACT_AVAILABLE := false;
     pdfplumber_open := fun p =>
       if str_eqb p (u "tables.pdf")
       then Ret [table_page "Prices" [sample_table "a"; sample_table "b"];
                 table_page "Notes" [];
                 table_page "Totals" [sample_table "c"]]
       else Raise (Exn "FileNotFoundError" "No such file or directory");
     stat_st_size := fun _ => Ret 1000;
     docling_export_to_text := fun _ => Raise (Exn "RuntimeError" "conversion failed");
     clock := fun n => match n with O => 5%float | _ => 7.5%float end;
     float_repr := sample_float_repr;
     float_of_str := sample_float_of_str;
     open_for_writing := sample_open_for_writing |}.

(** The events [extract] may produce on the path [pdf_path]: it reads the
    clock, opens and stats that path only, reads pages, invokes its three
    engines, and converts that path only where docling is installed. *)
Definition expected_event (w : World) (pdf_path : pystr) (ev : event) : Prop :=
  match ev with
  | EvTime | EvText _ | EvImages _ | EvTables _ => True
  | EvOpen q | EvStat q => q = pdf_path
  | EvConvert q => q = pdf_path /\ DOCLING_AVAILABLE w = true
  | EvEngine name => In name [u "docling"; u "pdfplumber"; u "tesseract"]
  end.

(** A world whose values can be serialised: [repr] and [float] agree on the
    confidences the program reports, and the tables pdfplumber extracts are
    JSON-native. *)
Definition world_serialisable (w : World) : Prop :=
  Forall (float_reads_back w) [0.1%float; 0.6%float; 0.8%float; 0.9%float]
  /\ forall (p : pystr) (pages : list Page) (page : Page) (ts : list pyval),
       pdfplumber_open w p = Ret pages -> In page pages ->
       page_extract_tables page = Ret ts -> Forall (json_native w) ts.


(** What [extract_pdf] returns for the report where only pdfplumber is
    installed. *)
Definition sample_main_result : pyval :=
  match outcome_of (extract_pdf sample_world (u "docs/report.pdf")) with
  | Ret r => r
  | Raise _ => PNone
  end.

(** ** Paths, numbers and documents for the statements *)

(** A component of a normalised path: not empty, not [.], no slash. *)
Definition path_component (c : pystr) : Prop :=
  c <> [] /\ c <> u "." /\ ~ In 47%N c.


(** The number of hundredths that digits, a point and two digits stand for. *)
Definition read_hundredths (body : pystr) : option Z :=
  let '(int_part, fraction) := span is_digit body in
  match int_part, fraction with
  | _ :: _, [dot; d1; d2] =>
      if (dot =? 46)%N && is_digit d1 && is_digit d2
      then Some (100 * Z.of_N (N.of_uint (uint_of_chars int_part))
                 + 10 * (Z.of_N d1 - 48) + (Z.of_N d2 - 48))
      else None
  | _, _ => None
  end.

(** What a text such as [12.34] or [-0.50] stands for: whether it has a
    minus sign, and its number of hundredths. *)
Definition read_2f (s : pystr) : option (bool * Z) :=
  match s with
  | c :: rest =>
      if (c =? 45)%N then option_map (pair true) (read_hundredths rest)
      else option_map (pair false) (read_hundredths s)
  | [] => None
  end.

(** A file system with a seven-page document whose first page cannot be
    read, and a document without pages that is gone by the time its size is
    asked for. *)
Definition damaged_world : World :=
  {| DOCLING_AVAILABLE := false;
     TESSERACT_AVAILABLE := false;
     pdfplumber_open := fun p =>
       if str_eqb p (u "damaged.pdf")
       then Ret [broken_page; text_page prose; text_page prose; text_page prose;
                 text_page prose; text_page prose; text_page prose]
       else if str_eqb p (u "vanished.pdf") then Ret []
       else Raise (Exn "FileNotFoundError" "No such file or directory");
     stat_st_size := fun p =>
       if str_eqb p (u "damaged.pdf") then Ret 65536
       else Raise (Exn "FileNotFoundError" "No such file or directory");
     docling_export_to_text := fun _ => Raise (Exn "RuntimeError" "conversion failed");
     clock := clock sample_world;
     float_repr := sample_float_repr;
     float_of_str := sample_float_of_str;
     open_for_writing := sample_open_for_writing |}.





(** * Properties *)

(** ** Strings and the monad *)

Lemma str_eqb_eq (a b : pystr) : str_eqb a b = true <-> a = b.
Proof.
  revert b. induction a as [|x a IH]; intros [|y b]; simpl; split;
    try congruence; try reflexivity.
  - rewrite andb_true_iff, N.eqb_eq, IH. intros [-> ->]. reflexivity.
  - intros [= -> ->]. rewrite N.eqb_refl. apply IH. reflexivity.
Qed.

Lemma str_eqb_refl (a : pystr) : str_eqb a a = true.
Proof. apply str_eqb_eq. reflexivity. Qed.

Lemma outcome_of_bind {A B} (m : M A) (k : A -> M B) :
  outcome_of (bind m k) =
  match outcome_of m with Ret a => outcome_of (k a) | Raise e => Raise e end.
Proof. destruct m as [t [a|e]]; simpl; [destruct (k a)|]; reflexivity. Qed.

Lemma trace_bind {A B} (m : M A) (k : A -> M B) :
  trace (bind m k) =
  trace m ++ match outcome_of m with Ret a => trace (k a) | Raise _ => [] end.
Proof.
  destruct m as [t [a|e]]; simpl; [destruct (k a); reflexivity|].
  symmetry. apply app_nil_r.
Qed.

Lemma outcome_of_try_except {A} (m : M A) (h : exn -> M A) :
  outcome_of (try_except m h) =
  match outcome_of m with Ret a => Ret a | Raise e => outcome_of (h e) end.
Proof. destruct m as [t [a|e]]; simpl; [|destruct (h e)]; reflexivity. Qed.

Lemma trace_try_except {A} (m : M A) (h : exn -> M A) :
  trace (try_except m h) =
  trace m ++ match outcome_of m with Ret _ => [] | Raise e => trace (h e) end.
Proof.
  destruct m as [t [a|e]]; simpl; [|destruct (h e); reflexivity].
  symmetry. apply app_nil_r.
Qed.

Lemma M_eta {A} (m : M A) : m = (trace m, outcome_of m).
Proof. destruct m; reflexivity. Qed.

(** ** The analyzer *)

Lemma sample_page_ret (i : nat) (page : Page) (st st' : scan) :
  outcome_of (sample_page i page st) = Ret st' ->
  trace (sample_page i page st) = page_events i /\
  exists l, estimated_scan_pages st' = estimated_scan_pages st ++ l /\
            Forall (fun j => j = i) l.
Proof.
  unfold sample_page, call.
  destruct (page_extract_text page) as [text|e]; [|discriminate].
  destruct (page_images page) as [images|e]; [|discriminate].
  simpl. intros [= <-]. split; [reflexivity|]. simpl.
  match goal with |- context [if ?c then _ else _] => destruct c end.
  - exists [i]. split; [reflexivity|]. repeat constructor.
  - exists []. split; [symmetry; apply app_nil_r|constructor].
Qed.

Lemma sample_loop_ret (pages : list Page) : forall (i : nat) (st st' : scan),
  outcome_of (sample_loop i pages st) = Ret st' ->
  trace (sample_loop i pages st) = flat_map page_events (seq i (length pages)) /\
  exists l, estimated_scan_pages st' = estimated_scan_pages st ++ l /\
            Forall (fun j => (i <= j < i + length pages)%nat) l.
Proof.
  induction pages as [|page rest IH]; intros i st st'.
  - simpl. intros [= <-]. split; [reflexivity|].
    exists []. split; [symmetry; apply app_nil_r|constructor].
  - cbn [sample_loop]. rewrite outcome_of_bind, trace_bind.
    destruct (outcome_of (sample_page i page st)) as [st1|e] eqn:E1; [|discriminate].
    intros E2.
    destruct (sample_page_ret _ _ _ _ E1) as (T1 & l1 & L1 & F1).
    destruct (IH _ _ _ E2) as (T2 & l2 & L2 & F2).
    split.
    + rewrite T1, T2. reflexivity.
    + exists (l1 ++ l2). split.
      * rewrite L2, L1. symmetry. apply app_assoc.
      * apply Forall_app. split.
        -- eapply Forall_impl; [exact F1|]. cbn [length]. intros j ->. lia.
        -- eapply Forall_impl; [exact F2|]. cbn [length]. intros j ?. lia.
Qed.

(** The equations of [analysis_record]. *)
Lemma analysis_record_pages n ht hi sp sz s :
  py_get (analysis_record n ht hi sp sz s) (u "pages") (PInt 0) = Ret (PInt n).
Proof. reflexivity. Qed.

(** What the body of the [try] returns when it returns, and the calls it made. *)
Lemma analyze_body_ret (w : World) (file_path : pystr) (r : pyval) :
  outcome_of (analyze_body w file_path) = Ret r ->
  exists pages st size,
    pdfplumber_open w file_path = Ret pages /\
    stat_st_size w file_path = Ret size /\
    outcome_of (sample_loop 0 (take (Nat.min 5 (length pages)) pages)
              {| has_text := false; has_images := false; estimated_scan_pages := [] |})
      = Ret st /\
    r = analysis_record (Z.of_nat (length pages)) (has_text st) (has_images st)
          (estimated_scan_pages st) size (strategy_of (has_text st) (has_images st)) /\
    trace (analyze_body w file_path) =
      EvOpen file_path ::
        flat_map page_events (seq 0 (Nat.min 5 (length pages))) ++ [EvStat file_path].
Proof.
  unfold analyze_body. rewrite outcome_of_bind, trace_bind.
  destruct (pdfplumber_open w file_path) as [pages|e] eqn:EO; [|discriminate].
  cbn [call outcome_of trace snd fst].
  rewrite outcome_of_bind, trace_bind.
  destruct (outcome_of (sample_loop _ _ _)) as [st|e] eqn:E; [|discriminate].
  rewrite outcome_of_bind, trace_bind.
  destruct (stat_st_size w file_path) as [size|e] eqn:ES; [|discriminate].
  cbn [call outcome_of trace snd fst ret].
  intros [= <-]. exists pages, st, size.
  repeat split; try reflexivity; try assumption.
  destruct (sample_loop_ret _ _ _ _ E) as (T & _). rewrite T.
  rewrite length_take, Nat.min_l by lia.
  rewrite app_nil_r. reflexivity.
Qed.

Lemma analyze_pdf_outcome (w : World) (file_path : pystr) :
  outcome_of (analyze_pdf w file_path) =
  Ret (match outcome_of (analyze_body w file_path) with
       | Ret r => r
       | Raise _ => degraded_analysis
       end).
Proof.
  unfold analyze_pdf. rewrite outcome_of_try_except.
  destruct (outcome_of (analyze_body w file_path)); reflexivity.
Qed.

Lemma analyze_pdf_trace (w : World) (file_path : pystr) :
  trace (analyze_pdf w file_path) = trace (analyze_body w file_path).
Proof.
  unfold analyze_pdf. rewrite trace_try_except.
  destruct (outcome_of (analyze_body w file_path)); apply app_nil_r.
Qed.

Lemma strategy_of_table (ht hi : bool) : strategy_of ht hi = strategy_table ht hi.
Proof. destruct ht, hi; reflexivity. Qed.


(** A file that does not exist, and a document with an unreadable page, both
    end in the degraded record. *)
Example analyze_pdf_missing_file :
  outcome_of (analyze_pdf sample_world (u "nowhere.pdf")) = Ret degraded_analysis
  /\ outcome_of (analyze_pdf sample_world (u "broken.pdf")) = Ret degraded_analysis.
Proof. split; reflexivity. Qed.

(** C2: when the document can be opened and read (the body of the [try]
    completes), the strategy of the returned record is the entry of the
    decision table for its two flags [has_text] and [has_images]: (false,true)
    gives ocr_heavy, (true,false) text_extraction, (true,true) and
    (false,false) hybrid; a document without pages has page count 0, both flags
    false, no low-text page and strategy hybrid. *)
Theorem strategy_derivation (w : World) (file_path : pystr) (r : pyval) :
  outcome_of (analyze_body w file_path) = Ret r ->
  outcome_of (analyze_pdf w file_path) = Ret r
  /\ (exists (n : Z) (ht hi : bool) (low : list pyval) (size : Z),
        r = PDict [ (u "pages", PInt n);
                    (u "has_text", PBool ht);
                    (u "has_images", PBool hi);
                    (u "estimated_scan_pages", PList low);
                    (u "file_size", PInt size);
                    (u "processing_strategy", PStr (strategy_table ht hi)) ]
        /\ (pdfplumber_open w file_path = Ret [] ->
            n = 0 /\ ht = false /\ hi = false /\ low = []
            /\ py_field r (u "processing_strategy") = Some (PStr (u "hybrid"))))
  /\ strategy_table false true = u "ocr_heavy"
  /\ strategy_table true false = u "text_extraction"
  /\ strategy_table true true = u "hybrid"
  /\ strategy_table false false = u "hybrid".
Proof.
  intros H. split; [|split].
  - rewrite analyze_pdf_outcome, H. reflexivity.
  - destruct (analyze_body_ret _ _ _ H) as (pages & st & size & EO & ES & EL & -> & _).
    exists (Z.of_nat (length pages)), (has_text st), (has_images st),
      (List.map (fun i => PInt (Z.of_nat i)) (estimated_scan_pages st)), size.
    split.
    + unfold analysis_record. rewrite strategy_of_table. reflexivity.
    + intros E0. rewrite EO in E0. injection E0 as ->.
      simpl in EL. injection EL as <-. simpl. repeat split; reflexivity.
  - repeat split; reflexivity.
Qed.

Lemma strategy_derivation_witness :
  outcome_of (analyze_pdf sample_world (u "scan.pdf")) =
    Ret (PDict [ (u "pages", PInt 3);
                 (u "has_text", PBool false);
                 (u "has_images", PBool true);
                 (u "estimated_scan_pages", PList [PInt 0; PInt 1; PInt 2]);
                 (u "file_size", PInt 907155);
                 (u "processing_strategy", PStr (u "ocr_heavy")) ])
  /\ outcome_of (analyze_pdf sample_world (u "docs/report.pdf")) =
    Ret (PDict [ (u "pages", PInt 7);
                 (u "has_text", PBool true);
                 (u "has_images", PBool false);
                 (u "estimated_scan_pages", PList [PInt 1]);
                 (u "file_size", PInt 48213);
                 (u "processing_strategy", PStr (u "text_extraction")) ])
  /\ outcome_of (analyze_pdf sample_world (u "empty.pdf")) =
    Ret (PDict [ (u "pages", PInt 0);
                 (u "has_text", PBool false);
                 (u "has_images", PBool false);
                 (u "estimated_scan_pages", PList []);
                 (u "file_size", PInt 312);
                 (u "processing_strategy", PStr (u "hybrid")) ]).
Proof.
  split; [|split].
  - apply (strategy_derivation sample_world (u "scan.pdf")). reflexivity.
  - apply (strategy_derivation sample_world (u "docs/report.pdf")). reflexivity.
  - apply (strategy_derivation sample_world (u "empty.pdf")). reflexivity.
Defined.


(** ** The validator *)

Lemma py_strip_nonempty_truthy (s : pystr) :
  py_truthy (PStr (py_strip s)) = true <-> py_strip s <> [].
Proof. simpl. destruct (py_strip s); split; congruence. Qed.

(** When the validator answers [True]. *)
Lemma _is_valid_result_true (result : pyval) :
  _is_valid_result result = Ret true <->
  exists d c s,
    result = PDict d
    /\ dict_lookup d (u "content") = Some (PDict c)
    /\ dict_lookup c (u "raw_text") = Some (PStr s)
    /\ py_strip s <> [].
Proof.
  split.
  - unfold _is_valid_result.
    destruct result as [| | | | |l|d]; try (simpl; discriminate);
      try (destruct b; simpl; discriminate);
      try (destruct (py_truthy _); simpl; discriminate).
    destruct d as [|kv d]; [simpl; discriminate|].
    replace (negb (py_truthy (PDict (kv :: d))) || negb (is_dict (PDict (kv :: d))))
      with false by reflexivity.
    unfold py_get at 1. unfold obind at 1.
    destruct (dict_lookup (kv :: d) (u "content")) as [content|] eqn:EC;
      [|simpl; discriminate].
    destruct content as [| | | | | |c]; try (simpl; discriminate).
    unfold py_get, obind at 1.
    destruct (dict_lookup c (u "raw_text")) as [raw|] eqn:ER; [|simpl; discriminate].
    destruct (py_truthy raw) eqn:ET; [|discriminate].
    destruct raw as [| | | |s| |]; try (simpl; discriminate).
    unfold py_strip_method, obind. intros [= H].
    exists (kv :: d), c, s. repeat split; try assumption.
    apply py_strip_nonempty_truthy. exact H.
  - intros (d & c & s & -> & EC & ER & NE).
    unfold _is_valid_result.
    destruct d as [|kv d]; [discriminate|].
    replace (negb (py_truthy (PDict (kv :: d))) || negb (is_dict (PDict (kv :: d))))
      with false by reflexivity.
    unfold py_get at 1. unfold obind at 1. rewrite EC.
    unfold py_get, obind at 1. rewrite ER.
    assert (T : py_truthy (PStr s) = true).
    { destruct s; [|reflexivity]. exfalso. apply NE. reflexivity. }
    rewrite T. unfold py_strip_method, obind.
    f_equal. apply py_strip_nonempty_truthy. exact NE.
Qed.

(** C5: the validator answers [True] exactly for a dict whose ["content"] is a
    dict whose ["raw_text"] is a str that is not empty once stripped. Nothing
    else is looked at: whatever the pages, tables, images, metadata and
    confidence of a result are, the answer is decided by its text. A text
    that is empty or three spaces is refused, the text "a" is accepted. *)
Theorem validator_checks_text_only (result : pyval) :
  (_is_valid_result result = Ret true <->
   exists d c s,
     result = PDict d
     /\ dict_lookup d (u "content") = Some (PDict c)
     /\ dict_lookup c (u "raw_text") = Some (PStr s)
     /\ py_strip s <> [])
  /\ (forall (s : pystr) (pages tables images metadata confidence : pyval),
        _is_valid_result
          (PDict [ (u "content",
                     PDict [ (u "raw_text", PStr s); (u "pages", pages);
                             (u "tables", tables); (u "images", images) ]);
                   (u "metadata", metadata);
                   (u "confidence", confidence) ])
        = Ret (match py_strip s with [] => false | _ => true end))
  /\ _is_valid_result (PDict [(u "content", PDict [(u "raw_text", PStr (u ""))])]) = Ret false
  /\ _is_valid_result (PDict [(u "content", PDict [(u "raw_text", PStr (u "   "))])]) = Ret false
  /\ _is_valid_result (PDict [(u "content", PDict [(u "raw_text", PStr (u "a"))])]) = Ret true.
Proof.
  split; [apply _is_valid_result_true|].
  split; [|repeat split; reflexivity].
  intros s pages tables images metadata confidence.
  destruct s as [|c s]; [reflexivity|].
  change (_is_valid_result _) with
    (Ret (A:=bool) (py_truthy (PStr (py_strip (c :: s))))).
  simpl. destruct (py_strip (c :: s)); reflexivity.
Qed.

(** ** The engine loop *)

Arguments u : simpl never.

Lemma attempt_succeeds (w : World) (pdf_path : pystr) (analysis : pyval)
    (name : pystr) (extractor : engine) (r : pyval) :
  engine_succeeds extractor pdf_path analysis r ->
  attempt w pdf_path analysis (clock w 0) name extractor =
    (engine_events pdf_path analysis (name, extractor) ++ [EvTime],
     Ret (Some (success_record w pdf_path name r))).
Proof.
  intros [E V].
  destruct (proj1 (_is_valid_result_true r) V) as (d & c & s & -> & _).
  unfold attempt, engine_events. cbn [fst snd].
  destruct (extractor pdf_path analysis) as [t o]. cbn in E. subst o.
  cbn [bind call try_except pure ret app]. rewrite V.
  cbn. rewrite ?app_nil_r. reflexivity.
Qed.

Lemma attempt_fails (w : World) (pdf_path : pystr) (analysis : pyval) (start_time : float)
    (name : pystr) (extractor : engine) :
  engine_fails extractor pdf_path analysis ->
  attempt w pdf_path analysis start_time name extractor =
    (engine_events pdf_path analysis (name, extractor), Ret None).
Proof.
  unfold engine_fails, attempt, engine_events. cbn [fst snd].
  destruct (extractor pdf_path analysis) as [t [r|e]]; cbn [outcome_of snd].
  - intros V. cbn [bind call try_except pure ret app].
    destruct (_is_valid_result r) as [[|]|e]; [congruence| |];
      cbn; rewrite ?app_nil_r; reflexivity.
  - intros _. cbn. rewrite ?app_nil_r. reflexivity.
Qed.

Lemma engine_loop_all_fail (w : World) (pdf_path : pystr) (analysis : pyval)
    (start_time : float) (engines : list (pystr * engine)) :
  Forall (fun e => engine_fails (snd e) pdf_path analysis) engines ->
  engine_loop w pdf_path analysis start_time engines =
    (flat_map (engine_events pdf_path analysis) engines, Ret None).
Proof.
  induction 1 as [|[name ex] rest F _ IH]; [reflexivity|].
  cbn [engine_loop flat_map]. cbn [snd] in F.
  rewrite (attempt_fails _ _ _ _ _ _ F), IH. reflexivity.
Qed.

Lemma engine_loop_first_success (w : World) (pdf_path : pystr) (analysis : pyval)
    (pre post : list (pystr * engine)) (name : pystr) (extractor : engine) (r : pyval) :
  Forall (fun e => engine_fails (snd e) pdf_path analysis) pre ->
  engine_succeeds extractor pdf_path analysis r ->
  engine_loop w pdf_path analysis (clock w 0) (pre ++ (name, extractor) :: post) =
    (flat_map (engine_events pdf_path analysis) (pre ++ [(name, extractor)]) ++ [EvTime],
     Ret (Some (success_record w pdf_path name r))).
Proof.
  intros F S. induction F as [|[n ex] rest F _ IH].
  - cbn [app engine_loop flat_map].
    rewrite (attempt_succeeds _ _ _ _ _ _ S). cbn [bind ret].
    rewrite ?app_nil_r. reflexivity.
  - cbn [app engine_loop flat_map]. cbn [snd] in F.
    rewrite (attempt_fails _ _ _ _ _ _ F), IH. cbn [bind].
    rewrite app_assoc. reflexivity.
Qed.

Lemma analyze_pdf_eta (w : World) (pdf_path : pystr) :
  analyze_pdf w pdf_path = (trace (analyze_body w pdf_path), Ret (analysis_of w pdf_path)).
Proof.
  rewrite (M_eta (analyze_pdf w pdf_path)), analyze_pdf_trace, analyze_pdf_outcome.
  reflexivity.
Qed.

Lemma analysis_of_is_record (w : World) (pdf_path : pystr) :
  exists n ht hi sp sz s, analysis_of w pdf_path = analysis_record n ht hi sp sz s.
Proof.
  unfold analysis_of.
  destruct (outcome_of (analyze_body w pdf_path)) as [r|e] eqn:E.
  - destruct (analyze_body_ret _ _ _ E) as (pages & st & size & _ & _ & _ & -> & _).
    repeat eexists.
  - repeat eexists.
Qed.

(** [extract] when every engine fails. *)
Lemma extract_with_all_fail (w : World) (engines : list (pystr * engine)) (pdf_path : pystr) :
  Forall (fun e => engine_fails (snd e) pdf_path (analysis_of w pdf_path)) engines ->
  extract_with w engines pdf_path =
    (EvTime :: trace (analyze_body w pdf_path)
       ++ flat_map (engine_events pdf_path (analysis_of w pdf_path)) engines ++ [EvTime],
     Ret (fallback_record w pdf_path)).
Proof.
  intros F. unfold extract_with. rewrite analyze_pdf_eta.
  cbn [bind call app].
  rewrite (engine_loop_all_fail _ _ _ _ _ F).
  unfold fallback_result, fallback_record, format_processing_time, elapsed.
  destruct (analysis_of_is_record w pdf_path) as (n & ht & hi & sp & sz & s & ->).
  cbn. rewrite ?app_nil_r. reflexivity.
Qed.

(** [extract] when some engine succeeds after all the earlier ones failed. *)
Lemma extract_with_first_success (w : World) (pdf_path : pystr)
    (pre post : list (pystr * engine)) (name : pystr) (extractor : engine) (r : pyval) :
  Forall (fun e => engine_fails (snd e) pdf_path (analysis_of w pdf_path)) pre ->
  engine_succeeds extractor pdf_path (analysis_of w pdf_path) r ->
  extract_with w (pre ++ (name, extractor) :: post) pdf_path =
    (EvTime :: trace (analyze_body w pdf_path)
       ++ flat_map (engine_events pdf_path (analysis_of w pdf_path))
            (pre ++ [(name, extractor)]) ++ [EvTime],
     Ret (success_record w pdf_path name r)).
Proof.
  intros F S. unfold extract_with. rewrite analyze_pdf_eta.
  cbn [bind call app].
  rewrite (engine_loop_first_success _ _ _ _ _ _ _ _ F S).
  cbn. rewrite ?app_nil_r. reflexivity.
Qed.

(** ** The calls of the analyzer and of the adapters *)

Lemma engine_calls_app (t1 t2 : list event) :
  engine_calls (t1 ++ t2) = engine_calls t1 ++ engine_calls t2.
Proof. apply omap_app. Qed.

Lemma engine_calls_bind {A B} (m : M A) (k : A -> M B) :
  engine_calls (trace m) = [] ->
  (forall a, engine_calls (trace (k a)) = []) ->
  engine_calls (trace (bind m k)) = [].
Proof.
  intros Hm Hk. rewrite trace_bind, engine_calls_app, Hm.
  destruct (outcome_of m); [apply Hk|reflexivity].
Qed.

Lemma engine_calls_sample_loop (pages : list Page) : forall (i : nat) (st : scan),
  engine_calls (trace (sample_loop i pages st)) = [].
Proof.
  induction pages as [|page rest IH]; intros i st; [reflexivity|].
  cbn [sample_loop]. apply engine_calls_bind; [|intros; apply IH].
  unfold sample_page, call.
  destruct (page_extract_text page), (page_images page); reflexivity.
Qed.

Lemma engine_calls_analyze_body (w : World) (file_path : pystr) :
  engine_calls (trace (analyze_body w file_path)) = [].
Proof.
  unfold analyze_body.
  apply engine_calls_bind; [unfold call; reflexivity|]. intros pages.
  apply engine_calls_bind; [apply engine_calls_sample_loop|]. intros st.
  unfold call. destruct (stat_st_size w file_path); reflexivity.
Qed.

Lemma engine_calls_plumb_loop (pages : list Page) : forall (i : nat) (st : plumb),
  engine_calls (trace (plumb_loop i pages st)) = [].
Proof.
  induction pages as [|page rest IH]; intros i st; [reflexivity|].
  cbn [plumb_loop]. apply engine_calls_bind; [|intros; apply IH].
  unfold plumb_page, call.
  destruct (page_extract_text page), (page_extract_tables page); reflexivity.
Qed.

Lemma engine_calls_docling (w : World) (pdf_path : pystr) (analysis : pyval) :
  engine_calls (trace (_docling_extract w pdf_path analysis)) = [].
Proof.
  unfold _docling_extract. destruct (DOCLING_AVAILABLE w); [|reflexivity].
  cbn [negb]. apply engine_calls_bind; [reflexivity|]. intros raw.
  unfold pure. destruct (py_get analysis (u "pages") (PInt 0)); reflexivity.
Qed.

Lemma engine_calls_pdfplumber (w : World) (pdf_path : pystr) (analysis : pyval) :
  engine_calls (trace (_pdfplumber_extract w pdf_path analysis)) = [].
Proof.
  unfold _pdfplumber_extract.
  apply engine_calls_bind; [reflexivity|]. intros pages.
  apply engine_calls_bind; [apply engine_calls_plumb_loop|]. reflexivity.
Qed.

Lemma engine_calls_tesseract (w : World) (pdf_path : pystr) (analysis : pyval) :
  engine_calls (trace (_tesseract_extract w pdf_path analysis)) = [].
Proof.
  unfold _tesseract_extract. destruct (TESSERACT_AVAILABLE w); [|reflexivity].
  cbn [negb]. unfold pure.
  destruct (py_get analysis (u "pages") (PInt 0)); reflexivity.
Qed.

(** The adapters call the libraries, never one another. *)
Lemma self_engines_library_only (w : World) (pdf_path : pystr) (analysis : pyval) :
  Forall (fun e => engine_calls (trace (snd e pdf_path analysis)) = []) (self_engines w).
Proof.
  unfold self_engines. repeat constructor; cbn [snd].
  - apply engine_calls_docling.
  - apply engine_calls_pdfplumber.
  - apply engine_calls_tesseract.
Qed.

Lemma engine_calls_flat_map (pdf_path : pystr) (analysis : pyval)
    (engines : list (pystr * engine)) :
  Forall (fun e => engine_calls (trace (snd e pdf_path analysis)) = []) engines ->
  engine_calls (flat_map (engine_events pdf_path analysis) engines) = List.map fst engines.
Proof.
  induction 1 as [|e rest H _ IH]; [reflexivity|].
  cbn [flat_map List.map]. rewrite engine_calls_app, IH.
  unfold engine_events.
  change (engine_calls (EvEngine (fst e) :: trace (snd e pdf_path analysis)))
    with (fst e :: engine_calls (trace (snd e pdf_path analysis))).
  rewrite H. reflexivity.
Qed.

(** Every engine either succeeds or fails. *)
Lemma engine_succeeds_or_fails (extractor : engine) (pdf_path : pystr) (analysis : pyval) :
  (exists r, engine_succeeds extractor pdf_path analysis r)
  \/ engine_fails extractor pdf_path analysis.
Proof.
  unfold engine_succeeds, engine_fails.
  destruct (outcome_of (extractor pdf_path analysis)) as [r|e]; [|right; exact I].
  destruct (_is_valid_result r) as [[|]|e] eqn:V.
  - left. exists r. split; [reflexivity|exact V].
  - right. congruence.
  - right. congruence.
Qed.

(** Either every engine of a list fails, or there is a first one that succeeds. *)
Lemma first_success_or_all_fail (pdf_path : pystr) (analysis : pyval)
    (engines : list (pystr * engine)) :
  Forall (fun e => engine_fails (snd e) pdf_path analysis) engines
  \/ exists pre name extractor post r,
       engines = pre ++ (name, extractor) :: post
       /\ Forall (fun e => engine_fails (snd e) pdf_path analysis) pre
       /\ engine_succeeds extractor pdf_path analysis r.
Proof.
  induction engines as [|[name ex] rest IH]; [left; constructor|].
  destruct (engine_succeeds_or_fails ex pdf_path analysis) as [[r S]|F].
  - right. exists [], name, ex, rest, r. repeat split; [constructor|apply S|apply S].
  - destruct IH as [A|(pre & n & e & post & r & -> & Fp & S)].
    + left. constructor; assumption.
    + right. exists ((name, ex) :: pre), n, e, post, r.
      repeat split; [constructor; assumption|apply S|apply S].
Qed.

Lemma self_engines_names (w : World) :
  List.map fst (self_engines w) = [u "docling"; u "pdfplumber"; u "tesseract"].
Proof. reflexivity. Qed.

Lemma self_engines_names_NoDup (w : World) : NoDup (List.map fst (self_engines w)).
Proof.
  rewrite self_engines_names.
  apply (bool_decide_unpack _). vm_compute. exact I.
Qed.

(** C3: the engines are tried in the order docling, pdfplumber, tesseract,
    and the first whose result passes validation ends the loop: if all the
    engines before one fail and that one returns a valid result, [extract]
    returns a result whose [engine_used] is the one-element list of that
    engine's name, the engines invoked are exactly the earlier ones and that
    one, in order, and no later engine is invoked. *)
Theorem first_valid_engine_wins (w : World) (pdf_path : pystr)
    (pre post : list (pystr * engine)) (name : pystr) (extractor : engine) (r : pyval) :
  self_engines w = pre ++ (name, extractor) :: post ->
  Forall (fun e => engine_fails (snd e) pdf_path (analysis_of w pdf_path)) pre ->
  engine_succeeds extractor pdf_path (analysis_of w pdf_path) r ->
  List.map fst (self_engines w) = [u "docling"; u "pdfplumber"; u "tesseract"]
  /\ exists res,
       outcome_of (extract w pdf_path) = Ret res
       /\ py_field (extraction_info res) (u "engine_used") = Some (PList [PStr name])
       /\ engine_calls (trace (extract w pdf_path)) = List.map fst pre ++ [name]
       /\ (forall later, In later (List.map fst post) ->
             ~ In later (engine_calls (trace (extract w pdf_path)))).
Proof.
  intros Hsplit F S. split; [reflexivity|].
  assert (T : engine_calls (trace (extract w pdf_path)) = List.map fst pre ++ [name]).
  { unfold extract. rewrite Hsplit, (extract_with_first_success _ _ _ _ _ _ _ F S).
    cbn [trace fst]. change (EvTime :: ?t) with ([EvTime] ++ t).
    rewrite !engine_calls_app, engine_calls_analyze_body, engine_calls_flat_map.
    - rewrite List.map_app. cbn. rewrite app_nil_r. reflexivity.
    - pose proof (self_engines_library_only w pdf_path (analysis_of w pdf_path)) as L.
      rewrite Hsplit in L. apply Forall_app in L as [Lpre Lrest].
      apply Forall_app. split; [exact Lpre|].
      constructor; [|constructor]. apply (Forall_inv Lrest). }
  exists (success_record w pdf_path name r). split; [|split; [reflexivity|split]].
  - unfold extract. rewrite Hsplit, (extract_with_first_success _ _ _ _ _ _ _ F S).
    reflexivity.
  - exact T.
  - intros later Hpost Hcalled. rewrite T in Hcalled.
    pose proof (self_engines_names_NoDup w) as ND.
    rewrite Hsplit, List.map_app in ND. cbn [List.map fst] in ND.
    change (List.map fst pre ++ name :: List.map fst post)
      with (List.map fst pre ++ [name] ++ List.map fst post) in ND.
    rewrite app_assoc in ND. apply NoDup_app in ND as (_ & D & _).
    apply (D later); rewrite list_elem_of_In; assumption.
Qed.

Lemma first_valid_engine_wins_witness :
  (exists r, engine_succeeds (_pdfplumber_extract sample_world_docling)
               (u "docs/report.pdf")
               (analysis_of sample_world_docling (u "docs/report.pdf")) r)
  /\ exists res,
       outcome_of (extract sample_world_docling (u "docs/report.pdf")) = Ret res
       /\ py_field (extraction_info res) (u "engine_used") = Some (PList [PStr (u "docling")])
       /\ engine_calls (trace (extract sample_world_docling (u "docs/report.pdf")))
          = [u "docling"].
Proof.
  split.
  - eexists. split; reflexivity.
  - destruct (first_valid_engine_wins sample_world_docling (u "docs/report.pdf")
                [] [(u "pdfplumber", _pdfplumber_extract sample_world_docling);
                    (u "tesseract", _tesseract_extract sample_world_docling)]
                (u "docling") (_docling_extract sample_world_docling)
                (PDict [ (u "content",
                           PDict [ (u "raw_text", PStr resume_text);
                                   (u "pages", PList []);
                                   (u "tables", PList []);
                                   (u "images", PList []) ]);
                         (u "metadata",
                           PDict [ (u "total_pages", PInt 7);
                                   (u "text_extraction_method", PStr (u "native")) ]);
                         (u "confidence", PFloat 0.9) ]))
      as (_ & res & R & U & C & _).
    + reflexivity.
    + constructor.
    + split; reflexivity.
    + exists res. repeat split; assumption.
Defined.


(** ** The reported time *)

Lemma uint_chars_digits (d : Decimal.uint) : forallb is_digit (uint_chars d) = true.
Proof. induction d; simpl; auto. Qed.

Lemma str_of_N_nonempty (n : N) : str_of_N n <> [].
Proof.
  unfold str_of_N. destruct n as [|p]; [discriminate|].
  simpl. pose proof (DecimalPos.Unsigned.to_uint_nonnil p) as H.
  destruct (Pos.to_uint p); try discriminate. congruence.
Qed.

Lemma two_digits_digits (c : Z) :
  0 <= c < 100 -> exists d1 d2, two_digits c = [d1; d2] /\ is_digit d1 = true /\ is_digit d2 = true.
Proof.
  intros H. unfold two_digits, is_digit. eexists; eexists. split; [reflexivity|].
  assert (0 <= c / 10 < 10) by (split; [apply Z.div_pos|apply Z.div_lt_upper_bound]; lia).
  assert (0 <= c mod 10 < 10) by (apply Z.mod_pos_bound; lia).
  rewrite !andb_true_iff, !N.leb_le. lia.
Qed.

Lemma format_2f_two_decimals (x : float) :
  float_is_finite x = true -> two_decimals (format_2f x).
Proof.
  unfold float_is_finite, format_2f, two_decimals.
  destruct (Prim2SF x) as [s|s| |s m e]; try discriminate; intros _.
  - exists (sign_chars s), [48%N], 48%N, 48%N.
    repeat split; try reflexivity; [destruct s; auto|discriminate].
  - destruct (two_digits_digits (hundredths m e mod 100)) as (d1 & d2 & E & D1 & D2).
    { apply Z.mod_pos_bound. lia. }
    exists (sign_chars s), (str_of_N (Z.to_N (hundredths m e / 100))), d1, d2.
    rewrite E. repeat split; try assumption.
    + destruct s; auto.
    + apply str_of_N_nonempty.
    + apply uint_chars_digits.
Qed.


(** ** What the adapters return *)

Lemma adapter_result_valid_text (text : pyval) (pages tables : list pyval)
    (total_pages : pyval) (method : pystr) (confidence : float) :
  _is_valid_result (adapter_result text pages tables total_pages method confidence) = Ret true ->
  exists s, text = PStr s /\ py_strip s <> [].
Proof.
  intros V. apply _is_valid_result_true in V as (d & c & s & E & EC & ER & NE).
  injection E as <-. cbv in EC. injection EC as <-. cbv in ER. injection ER as ->.
  exists s. split; [reflexivity|exact NE].
Qed.

Lemma docling_outcome (w : World) (pdf_path : pystr) (n : Z) (ht hi : bool)
    (sp : list nat) (sz : Z) (s : pystr) (r : pyval) :
  outcome_of (_docling_extract w pdf_path (analysis_record n ht hi sp sz s)) = Ret r ->
  exists text, r = adapter_result text [] [] (PInt n) (u "native") 0.9.
Proof.
  unfold _docling_extract. destruct (DOCLING_AVAILABLE w); [|discriminate].
  cbn [negb]. rewrite outcome_of_bind. unfold call at 1. cbn [outcome_of snd].
  destruct (docling_export_to_text w pdf_path) as [text|e]; [|discriminate].
  intros [= <-]. exists text. reflexivity.
Qed.

Lemma pdfplumber_outcome (w : World) (pdf_path : pystr) (analysis r : pyval) :
  outcome_of (_pdfplumber_extract w pdf_path analysis) = Ret r ->
  exists text pages tables n,
    r = adapter_result (PStr text) pages tables (PInt n) (u "native")
          (if py_truthy (PStr (py_strip text)) then 0.8 else 0.3)%float.
Proof.
  unfold _pdfplumber_extract. rewrite outcome_of_bind. unfold call at 1.
  cbn [outcome_of snd].
  destruct (pdfplumber_open w pdf_path) as [pdf_pages|e]; [|discriminate].
  rewrite outcome_of_bind.
  destruct (outcome_of (plumb_loop _ _ _)) as [st|e]; [|discriminate].
  intros [= <-]. repeat eexists.
Qed.

Lemma tesseract_available (w : World) (pdf_path : pystr) (n : Z) (ht hi : bool)
    (sp : list nat) (sz : Z) (s : pystr) :
  TESSERACT_AVAILABLE w = true ->
  _tesseract_extract w pdf_path (analysis_record n ht hi sp sz s) =
    ([], Ret (adapter_result (PStr ocr_placeholder) [] [] (PInt n) (u "ocr") 0.6)).
Proof. intros A. unfold _tesseract_extract. rewrite A. reflexivity. Qed.

Lemma tesseract_outcome (w : World) (pdf_path : pystr) (n : Z) (ht hi : bool)
    (sp : list nat) (sz : Z) (s : pystr) (r : pyval) :
  outcome_of (_tesseract_extract w pdf_path (analysis_record n ht hi sp sz s)) = Ret r ->
  r = adapter_result (PStr ocr_placeholder) [] [] (PInt n) (u "ocr") 0.6.
Proof.
  unfold _tesseract_extract. destruct (TESSERACT_AVAILABLE w); [|discriminate].
  intros [= <-]. reflexivity.
Qed.

Lemma ocr_placeholder_valid (total_pages : pyval) :
  _is_valid_result (adapter_result (PStr ocr_placeholder) [] [] total_pages (u "ocr") 0.6)
  = Ret true.
Proof. reflexivity. Qed.

(** A valid adapter result of one of the three engines gives a well-formed
    success record. *)
Lemma success_record_well_formed (w : World) (pdf_path name : pystr) (text : pystr)
    (pages tables : list pyval) (n : Z) (method : pystr) (confidence : float) :
  (method = u "native" \/ method = u "ocr" \/ method = u "fallback") ->
  PrimFloat.leb 0 confidence = true -> PrimFloat.leb confidence 1 = true ->
  well_formed_result pdf_path
    (success_record w pdf_path name
       (adapter_result (PStr text) pages tables (PInt n) method confidence)).
Proof.
  intros Hm H0 H1. split; [|split].
  - exists (format_2f (elapsed w) ++ u "s"), name, (u "success"), confidence.
    repeat split; auto.
  - exists text, pages, tables, []. reflexivity.
  - exists n, method. split; [reflexivity|exact Hm].
Qed.

Lemma fallback_record_well_formed (w : World) (pdf_path : pystr) :
  well_formed_result pdf_path (fallback_record w pdf_path).
Proof.
  split; [|split].
  - exists (format_2f (elapsed w) ++ u "s"), (u "fallback"), (u "fallback"), 0.1%float.
    repeat split; auto.
  - repeat eexists.
  - destruct (analysis_of_is_record w pdf_path) as (n & ht & hi & sp & sz & s & E).
    exists n, (u "fallback"). split; [|auto].
    unfold fallback_record. cbn [metadata]. rewrite E. reflexivity.
Qed.

(** The result of [extract] for each engine that can be the first to succeed. *)
Lemma self_engine_success_well_formed (w : World) (pdf_path name : pystr)
    (extractor : engine) (r : pyval) :
  In (name, extractor) (self_engines w) ->
  engine_succeeds extractor pdf_path (analysis_of w pdf_path) r ->
  well_formed_result pdf_path (success_record w pdf_path name r).
Proof.
  intros Hin [E V].
  destruct (analysis_of_is_record w pdf_path) as (n & ht & hi & sp & sz & s & A).
  rewrite A in E.
  destruct Hin as [[= <- <-]|[[= <- <-]|[[= <- <-]|[]]]].
  - apply docling_outcome in E as (text & ->).
    destruct (adapter_result_valid_text _ _ _ _ _ _ V) as (t & -> & _).
    apply success_record_well_formed; auto.
  - apply pdfplumber_outcome in E as (text & pages & tables & m & ->).
    apply success_record_well_formed; auto;
      destruct (py_truthy (PStr (py_strip text))); reflexivity.
  - apply tesseract_outcome in E as ->.
    apply success_record_well_formed; auto.
Qed.

(** [extract] returns on every list of engines. *)
Lemma extract_with_returns (w : World) (engines : list (pystr * engine)) (pdf_path : pystr) :
  exists res, outcome_of (extract_with w engines pdf_path) = Ret res.
Proof.
  destruct (first_success_or_all_fail pdf_path (analysis_of w pdf_path) engines)
    as [F|(pre & name & ex & post & r & -> & F & S)].
  - rewrite (extract_with_all_fail _ _ _ F). eexists. reflexivity.
  - rewrite (extract_with_first_success _ _ _ _ _ _ _ F S). eexists. reflexivity.
Qed.

(** C1: [extract] never raises. On every file system and every behaviour of
    the libraries (a missing, empty or unreadable file, a document with or
    without pages, docling and pytesseract installed or not, docling and
    pdfplumber raising or answering anything) it returns a result whose
    extraction_info, content and metadata have all their fields; and on any
    list of engines whatever, it returns. *)
Theorem extract_total (w : World) (pdf_path : pystr) :
  (exists res, outcome_of (extract w pdf_path) = Ret res
               /\ well_formed_result pdf_path res)
  /\ (forall engines : list (pystr * engine),
        exists res, outcome_of (extract_with w engines pdf_path) = Ret res).
Proof.
  split; [|intros engines; apply extract_with_returns].
  unfold extract.
  destruct (first_success_or_all_fail pdf_path (analysis_of w pdf_path) (self_engines w))
    as [F|(pre & name & ex & post & r & Hsplit & F & S)].
  - rewrite (extract_with_all_fail _ _ _ F).
    exists (fallback_record w pdf_path). split; [reflexivity|].
    apply fallback_record_well_formed.
  - rewrite Hsplit, (extract_with_first_success _ _ _ _ _ _ _ F S).
    exists (success_record w pdf_path name r). split; [reflexivity|].
    apply (self_engine_success_well_formed w pdf_path name ex r); [|exact S].
    rewrite Hsplit. apply in_or_app. right. left. reflexivity.
Qed.

(** C10: where pytesseract is installed, [extract] never returns the fallback
    result. The OCR adapter, the last engine, then always returns, without
    calling any library (no page is rendered, no OCR is run), the same
    placeholder text, which passes validation; so the status is always
    "success", and when docling and pdfplumber both fail the result carries
    the placeholder with confidence 0.6 and method "ocr". *)
Theorem ocr_available_never_fallback (w : World) (pdf_path : pystr) :
  TESSERACT_AVAILABLE w = true ->
  (exists total_pages,
     _tesseract_extract w pdf_path (analysis_of w pdf_path) =
       ([], Ret (PDict [ (u "content",
                          PDict [ (u "raw_text",
                                    PStr (u "OCR extraction placeholder - implementation needed"));
                                  (u "pages", PList []);
                                  (u "tables", PList []);
                                  (u "images", PList []) ]);
                        (u "metadata",
                          PDict [ (u "total_pages", total_pages);
                                  (u "text_extraction_method", PStr (u "ocr")) ]);
                        (u "confidence", PFloat 0.6) ]))
     /\ engine_succeeds (_tesseract_extract w) pdf_path (analysis_of w pdf_path)
          (adapter_result (PStr ocr_placeholder) [] [] total_pages (u "ocr") 0.6))
  /\ (exists res,
        outcome_of (extract w pdf_path) = Ret res
        /\ py_field (extraction_info res) (u "status") = Some (PStr (u "success"))
        /\ py_field (extraction_info res) (u "status") <> Some (PStr (u "fallback")))
  /\ (engine_fails (_docling_extract w) pdf_path (analysis_of w pdf_path) ->
      engine_fails (_pdfplumber_extract w) pdf_path (analysis_of w pdf_path) ->
      exists res,
        outcome_of (extract w pdf_path) = Ret res
        /\ py_field (extraction_info res) (u "engine_used") = Some (PList [PStr (u "tesseract")])
        /\ py_field (extraction_info res) (u "confidence") = Some (PFloat 0.6)
        /\ py_field (content res) (u "raw_text") = Some (PStr ocr_placeholder)
        /\ py_field (metadata res) (u "text_extraction_method") = Some (PStr (u "ocr"))).
Proof.
  intros A.
  destruct (analysis_of_is_record w pdf_path) as (n & ht & hi & sp & sz & s & E).
  assert (S : engine_succeeds (_tesseract_extract w) pdf_path (analysis_of w pdf_path)
                (adapter_result (PStr ocr_placeholder) [] [] (PInt n) (u "ocr") 0.6)).
  { rewrite E. split; [rewrite (tesseract_available _ _ _ _ _ _ _ _ A)|]; reflexivity. }
  split; [|split].
  - exists (PInt n). split; [|exact S].
    rewrite E. apply tesseract_available. exact A.
  - unfold extract.
    destruct (first_success_or_all_fail pdf_path (analysis_of w pdf_path) (self_engines w))
      as [F|(pre & name & ex & post & r & Hsplit & F & S')].
    + exfalso. unfold self_engines in F.
      apply Forall_cons in F as [_ F]. apply Forall_cons in F as [_ F].
      apply Forall_cons in F as [F _]. cbn [snd] in F.
      unfold engine_fails in F. rewrite (proj1 S) in F. apply F. exact (proj2 S).
    + rewrite Hsplit, (extract_with_first_success _ _ _ _ _ _ _ F S').
      exists (success_record w pdf_path name r).
      split; [reflexivity|]. split; [reflexivity|]. discriminate.
  - intros Fd Fp. unfold extract.
    change (self_engines w)
      with ([(u "docling", _docling_extract w); (u "pdfplumber", _pdfplumber_extract w)]
              ++ (u "tesseract", _tesseract_extract w) :: []).
    assert (F : Forall (fun e => engine_fails (snd e) pdf_path (analysis_of w pdf_path))
                  [(u "docling", _docling_extract w); (u "pdfplumber", _pdfplumber_extract w)])
      by (repeat constructor; assumption).
    rewrite (extract_with_first_success w pdf_path _ _ _ _ _ F S).
    eexists. split; [reflexivity|]. repeat split; reflexivity.
Qed.

Lemma ocr_available_never_fallback_witness :
  (exists res,
     outcome_of (extract sample_world_ocr (u "scan.pdf")) = Ret res
     /\ py_field (extraction_info res) (u "status") = Some (PStr (u "success")))
  /\ (exists res,
        outcome_of (extract sample_world_ocr (u "scan.pdf")) = Ret res
        /\ py_field (extraction_info res) (u "confidence") = Some (PFloat 0.6)
        /\ py_field (content res) (u "raw_text") = Some (PStr ocr_placeholder))
  /\ (exists res,
        outcome_of (extract sample_world (u "scan.pdf")) = Ret res
        /\ py_field (extraction_info res) (u "status") = Some (PStr (u "fallback"))).
Proof.
  destruct (ocr_available_never_fallback sample_world_ocr (u "scan.pdf") eq_refl)
    as (_ & (res1 & R1 & St & _) & H).
  split; [|split].
  - exists res1. split; assumption.
  - destruct H as (res & R & _ & C & T & _).
    + exact I.
    + vm_compute. congruence.
    + exists res. repeat split; assumption.
  - eexists. split; reflexivity.
Defined.

(** ** Reading back what [json_dumps] writes *)

(** Induction on values, with the hypothesis for every item of a container. *)
Definition pyval_ind (P : pyval -> Prop)
    (HNone : P PNone) (HBool : forall b, P (PBool b)) (HInt : forall z, P (PInt z))
    (HFloat : forall x, P (PFloat x)) (HStr : forall s, P (PStr s))
    (HList : forall l, Forall P l -> P (PList l))
    (HDict : forall d, Forall (fun kv => P (snd kv)) d -> P (PDict d)) :
  forall v, P v :=
  fix go (v : pyval) : P v :=
    match v with
    | PNone => HNone
    | PBool b => HBool b
    | PInt z => HInt z
    | PFloat x => HFloat x
    | PStr s => HStr s
    | PList l =>
        HList l ((fix items (l : list pyval) : Forall P l :=
                    match l with
                    | [] => List.Forall_nil P
                    | x :: l' => List.Forall_cons P x l' (go x) (items l')
                    end) l)
    | PDict d =>
        HDict d ((fix items (d : list (pystr * pyval)) : Forall (fun kv => P (snd kv)) d :=
                    match d with
                    | [] => List.Forall_nil _
                    | kv :: d' => List.Forall_cons _ kv d' (go (snd kv)) (items d')
                    end) d)
    end.

Lemma skip_space_head (c : codepoint) (s : pystr) :
  is_json_space c = false -> skip_space (c :: s) = c :: s.
Proof. intros H. simpl. rewrite H. reflexivity. Qed.

Lemma skip_space_spaces (n : nat) (s : pystr) :
  skip_space (repeat 32%N n ++ s) = skip_space s.
Proof. induction n as [|n IH]; [reflexivity|exact IH]. Qed.

Lemma skip_space_newline_indent (level : nat) (s : pystr) :
  skip_space (newline_indent level ++ s) = skip_space s.
Proof. unfold newline_indent. cbn [app skip_space is_json_space]. apply skip_space_spaces. Qed.

Lemma join_cons (sep x : pystr) (items : list pystr) :
  join sep (x :: items) = x ++ flat_map (fun y => sep ++ y) items.
Proof.
  revert x. induction items as [|y items IH]; intros x.
  - symmetry. apply app_nil_r.
  - change (join sep (x :: y :: items)) with (x ++ sep ++ join sep (y :: items)).
    rewrite IH. cbn [flat_map]. rewrite <- !app_assoc. reflexivity.
Qed.

(** *** Strings *)

Lemma N_below_32 (c : N) :
  (c < 32)%N -> In c (List.map N.of_nat (seq 0 32)).
Proof.
  intros H. apply in_map_iff. exists (N.to_nat c). split; [apply N2Nat.id|].
  apply in_seq. lia.
Qed.

(** A control character written as a [\u00XX] escape is read back. *)
Lemma scan_string_u_escape (c : codepoint) (rest : pystr) :
  (c < 32)%N ->
  scan_string (92 :: 117 :: 48 :: 48 :: hex_digit (c / 16) :: hex_digit (c mod 16) :: rest)%N
  = prepend c (scan_string rest).
Proof.
  intros H. apply N_below_32 in H. cbn [seq List.map] in H.
  repeat (destruct H as [<-|H];
          [destruct rest as [|b [|x [|g1 [|g2 [|g3 [|g4 rest3]]]]]]; try reflexivity;
           cbn; destruct (hex4_value g1 g2 g3 g4); reflexivity|]).
  destruct H.
Qed.

(** One character of a string, escaped, is read back as that character. *)
Lemma scan_string_escape_char (c : codepoint) (rest : pystr) :
  scan_string (json_escape_char c ++ rest) = prepend c (scan_string rest).
Proof.
  unfold json_escape_char.
  destruct (N.eqb_spec c 34) as [->|H34]; [reflexivity|].
  destruct (N.eqb_spec c 92) as [->|H92]; [reflexivity|].
  destruct (N.eqb_spec c 10) as [->|H10]; [reflexivity|].
  destruct (N.eqb_spec c 13) as [->|H13]; [reflexivity|].
  destruct (N.eqb_spec c 9) as [->|H9]; [reflexivity|].
  destruct (N.eqb_spec c 8) as [->|H8]; [reflexivity|].
  destruct (N.eqb_spec c 12) as [->|H12]; [reflexivity|].
  destruct (N.ltb_spec c 32) as [Hlt|Hge].
  - apply scan_string_u_escape. exact Hlt.
  - cbn [app scan_string].
    destruct (N.eqb_spec c 34); [contradiction|].
    destruct (N.eqb_spec c 92); [contradiction|].
    destruct (N.ltb_spec c 32); [lia|]. reflexivity.
Qed.

(** The body of a string and its closing quote are read back as the string. *)
Lemma scan_string_escaped (s rest : pystr) :
  scan_string (flat_map json_escape_char s ++ 34%N :: rest) = Some (s, rest).
Proof.
  induction s as [|c s IH]; [reflexivity|].
  cbn [flat_map]. rewrite <- app_assoc, scan_string_escape_char, IH. reflexivity.
Qed.

Lemma json_string_read (s rest : pystr) :
  exists body, json_string s ++ rest = 34%N :: body /\ scan_string body = Some (s, rest).
Proof.
  exists (flat_map json_escape_char s ++ 34%N :: rest). split.
  - unfold json_string. cbn [app]. rewrite <- app_assoc. reflexivity.
  - apply scan_string_escaped.
Qed.

(** *** Numbers *)

Lemma span_all (p : codepoint -> bool) (t rest : pystr) :
  forallb p t = true ->
  match rest with [] => True | c :: _ => p c = false end ->
  span p (t ++ rest) = (t, rest).
Proof.
  intros Ht Hr. induction t as [|c t IH].
  - destruct rest as [|c rest]; [reflexivity|]. simpl. rewrite Hr. reflexivity.
  - cbn [forallb] in Ht. apply andb_true_iff in Ht as [Hc Ht].
    cbn [app span]. rewrite Hc, (IH Ht). reflexivity.
Qed.

Lemma value_end_not_number (rest : pystr) :
  value_end rest -> match rest with [] => True | c :: _ => is_number_char c = false end.
Proof. destruct rest as [|c rest]; [trivial|]. intros [->| ->]; reflexivity. Qed.

Lemma uint_of_chars_uint_chars (d : Decimal.uint) : uint_of_chars (uint_chars d) = d.
Proof. induction d; cbn; congruence. Qed.

Lemma is_digit_number_char (t : pystr) :
  forallb is_digit t = true -> forallb is_number_char t = true.
Proof.
  induction t as [|c t IH]; [reflexivity|]. cbn [forallb].
  rewrite !andb_true_iff. intros [Hc Ht]. split; [|exact (IH Ht)].
  unfold is_number_char. rewrite Hc. reflexivity.
Qed.

Lemma is_digits_literal_digits (t : pystr) :
  is_digits_literal t = true -> forallb is_digit t = true.
Proof.
  destruct t as [|c [|c' t]]; [discriminate| |].
  - cbn. intros ->. reflexivity.
  - unfold is_digits_literal. rewrite !andb_true_iff. intros [_ H]. exact H.
Qed.

Lemma str_of_N_digits_literal (n : N) : is_digits_literal (str_of_N n) = true.
Proof.
  unfold str_of_N.
  assert (Hn : Decimal.unorm (N.to_uint n) = N.to_uint n).
  { rewrite <- (DecimalN.Unsigned.of_to n) at 2. symmetry. apply DecimalN.Unsigned.to_of. }
  pose proof (uint_chars_digits (N.to_uint n)) as Hd.
  destruct (N.to_uint n) as [|d|d|d|d|d|d|d|d|d|d] eqn:E;
    try (cbn [uint_chars] in *; destruct (uint_chars d); [reflexivity|];
         unfold is_digits_literal; rewrite Hd; reflexivity).
  - discriminate.
  - rewrite DecimalFacts.unorm_D0 in Hn. unfold Decimal.unorm in Hn.
    destruct (Decimal.nzhead d) eqn:Hz;
      try (exfalso; apply (DecimalFacts.nzhead_nonzero d d); congruence).
    injection Hn as <-. reflexivity.
Qed.

Lemma str_of_N_head (n : N) :
  exists c t, str_of_N n = c :: t /\ is_digit c = true.
Proof.
  pose proof (str_of_N_nonempty n) as Hne.
  pose proof (uint_chars_digits (N.to_uint n)) as Hd. fold (str_of_N n) in Hd.
  destruct (str_of_N n) as [|c t]; [congruence|].
  exists c, t. split; [reflexivity|].
  cbn [forallb] in Hd. apply andb_true_iff in Hd as [Hc _]. exact Hc.
Qed.

Lemma is_digit_not_minus (c : codepoint) : is_digit c = true -> (c =? 45)%N = false.
Proof.
  unfold is_digit. rewrite andb_true_iff, !N.leb_le. intros [? ?].
  apply N.eqb_neq. lia.
Qed.

Lemma str_of_int_literal (z : Z) :
  is_int_literal (str_of_int z) = true
  /\ int_of_literal (str_of_int z) = z
  /\ forallb is_number_char (str_of_int z) = true.
Proof.
  assert (Hnum : forall n, Z.of_N (N.of_uint (uint_of_chars (str_of_N n))) = Z.of_N n).
  { intros n. unfold str_of_N.
    rewrite uint_of_chars_uint_chars, DecimalN.Unsigned.of_to. reflexivity. }
  unfold str_of_int. destruct (Z.ltb_spec z 0) as [Hneg|Hpos].
  - cbn [is_int_literal int_of_literal forallb]. rewrite N.eqb_refl.
    split; [apply str_of_N_digits_literal|]. split.
    + rewrite Hnum. lia.
    + apply is_digit_number_char, uint_chars_digits.
  - destruct (str_of_N_head (Z.abs_N z)) as (c & t & E & Hc).
    pose proof (str_of_N_digits_literal (Z.abs_N z)) as Hl.
    pose proof (Hnum (Z.abs_N z)) as Hv.
    pose proof (uint_chars_digits (N.to_uint (Z.abs_N z))) as Hd.
    fold (str_of_N (Z.abs_N z)) in Hd.
    rewrite E in *. unfold is_int_literal, int_of_literal.
    rewrite (is_digit_not_minus c Hc).
    split; [exact Hl|]. split; [rewrite Hv; lia|].
    apply is_digit_number_char. exact Hd.
Qed.

Lemma is_float_not_int (t : pystr) :
  is_float_literal t = true -> is_int_literal t = false.
Proof.
  intros Hf. destruct (is_int_literal t) eqn:Hi; [|reflexivity]. exfalso.
  unfold is_float_literal, is_int_literal in *.
  destruct t as [|c t]; [discriminate|].
  assert (Hspan : forall d, is_digits_literal d = true -> span is_digit d = (d, [])).
  { intros d Hd. rewrite <- (app_nil_r d) at 1.
    apply span_all; [apply is_digits_literal_digits; exact Hd|exact I]. }
  destruct (c =? 45)%N.
  - rewrite (Hspan _ Hi) in Hf. rewrite Hi in Hf. discriminate.
  - rewrite (Hspan _ Hi) in Hf. rewrite Hi in Hf. discriminate.
Qed.

Lemma scan_number_int (w : World) (z : Z) (rest : pystr) :
  value_end rest ->
  scan_number w (str_of_int z ++ rest) = Some (PInt z, rest).
Proof.
  intros He. destruct (str_of_int_literal z) as (Hl & Hv & Hc).
  unfold scan_number.
  rewrite (span_all _ _ _ Hc (value_end_not_number _ He)), Hl, Hv. reflexivity.
Qed.

Lemma scan_number_float (w : World) (x : float) (rest : pystr) :
  float_reads_back w x -> value_end rest ->
  scan_number w (float_repr w x ++ rest) = Some (PFloat x, rest).
Proof.
  intros (_ & Hl & Hc & Hv) He. unfold scan_number.
  rewrite (span_all _ _ _ Hc (value_end_not_number _ He)).
  rewrite (is_float_not_int _ Hl), Hl, Hv. reflexivity.
Qed.

(** *** The first character of a value *)

Lemma number_head_tests (c : codepoint) :
  is_digit c = true \/ c = 45%N ->
  is_json_space c = false
  /\ (c =? 34)%N = false /\ (c =? 123)%N = false /\ (c =? 91)%N = false
  /\ (c =? 93)%N = false /\ (c =? 125)%N = false
  /\ (110 =? c)%N = false /\ (116 =? c)%N = false /\ (102 =? c)%N = false.
Proof.
  unfold is_digit, is_json_space. rewrite andb_true_iff, !N.leb_le.
  intros H. rewrite !orb_false_iff, !N.eqb_neq. lia.
Qed.

Lemma parse_value_number (w : World) (fuel : nat) (c : codepoint) (t : pystr) :
  is_digit c = true \/ c = 45%N ->
  parse_value w (S fuel) (c :: t) =
  match scan_number w (c :: t) with
  | Some r => Some r
  | None => scan_constant (c :: t)
  end.
Proof.
  intros H. destruct (number_head_tests c H) as (_ & H1 & H2 & H3 & _ & _ & H4 & H5 & H6).
  cbn [parse_value]. rewrite H1, H2, H3.
  replace (strip_prefix (u "null") (c :: t)) with (@None pystr)
    by (change (u "null") with [110; 117; 108; 108]%N; cbn [strip_prefix];
        rewrite H4; reflexivity).
  replace (strip_prefix (u "true") (c :: t)) with (@None pystr)
    by (change (u "true") with [116; 114; 117; 101]%N; cbn [strip_prefix];
        rewrite H5; reflexivity).
  replace (strip_prefix (u "false") (c :: t)) with (@None pystr)
    by (change (u "false") with [102; 97; 108; 115; 101]%N; cbn [strip_prefix];
        rewrite H6; reflexivity).
  reflexivity.
Qed.

Lemma float_literal_head (t : pystr) :
  is_float_literal t = true ->
  exists c t', t = c :: t' /\ (is_digit c = true \/ c = 45%N).
Proof.
  unfold is_float_literal. destruct t as [|c t']; [discriminate|].
  intros H. exists c, t'. split; [reflexivity|].
  destruct (N.eqb_spec c 45) as [->|Hc]; [right; reflexivity|]. left.
  cbn [span] in H. destruct (is_digit c); [reflexivity|]. discriminate.
Qed.

Lemma str_of_int_head (z : Z) :
  exists c t, str_of_int z = c :: t /\ (is_digit c = true \/ c = 45%N).
Proof.
  unfold str_of_int. destruct (z <? 0).
  - eexists; eexists. split; [reflexivity|]. right. reflexivity.
  - destruct (str_of_N_head (Z.abs_N z)) as (c & t & E & Hc).
    exists c, t. split; [exact E|]. left. exact Hc.
Qed.

Lemma json_float_finite (w : World) (x : float) :
  float_is_finite x = true -> json_float w x = float_repr w x.
Proof.
  unfold float_is_finite, json_float. destruct (Prim2SF x); try discriminate; reflexivity.
Qed.

(** A value starts with a character that is neither a space nor a closing
    bracket. *)
Lemma json_dumps_head (w : World) (level : nat) (v : pyval) :
  json_native w v ->
  exists c t, json_dumps w level v = c :: t
    /\ is_json_space c = false /\ (c =? 93)%N = false /\ (c =? 125)%N = false.
Proof.
  destruct v as [|[|]|z|x|s|l|d]; intros Hn;
    try (eexists; eexists; split; [reflexivity|]; repeat split; reflexivity).
  - destruct (str_of_int_head z) as (c & t & E & Hc).
    exists c, t. split; [exact E|].
    destruct (number_head_tests c Hc) as (? & _ & _ & _ & ? & ? & _). auto.
  - destruct Hn as (Hfin & Hl & _ & _).
    destruct (float_literal_head _ Hl) as (c & t & E & Hc).
    exists c, t. split; [cbn [json_dumps]; rewrite (json_float_finite _ _ Hfin); exact E|].
    destruct (number_head_tests c Hc) as (? & _ & _ & _ & ? & ? & _). auto.
  - cbn [json_dumps]. destruct l; eexists; eexists; (split; [reflexivity|]);
      repeat split; reflexivity.
  - cbn [json_dumps]. destruct d; eexists; eexists; (split; [reflexivity|]);
      repeat split; reflexivity.
Qed.

Lemma skip_space_json_dumps (w : World) (level : nat) (v : pyval) (rest : pystr) :
  json_native w v ->
  skip_space (json_dumps w level v ++ rest) = json_dumps w level v ++ rest.
Proof.
  intros Hn. destruct (json_dumps_head w level v Hn) as (c & t & -> & Hs & _).
  apply skip_space_head. exact Hs.
Qed.

(** *** Values *)

Lemma json_block_cons (level : nat) (open close : codepoint) (x : pystr)
    (items : list pystr) (rest : pystr) :
  json_block level open close (x :: items) ++ rest =
  open :: newline_indent (S level)
    ++ x ++ items_tail level items ++ newline_indent level ++ close :: rest.
Proof.
  unfold json_block, items_tail. rewrite join_cons.
  cbn [app]. rewrite <- !app_assoc. reflexivity.
Qed.

Lemma value_end_items_tail (level : nat) (items : list pystr) (close : codepoint)
    (rest : pystr) :
  value_end (items_tail level items ++ newline_indent level ++ close :: rest).
Proof. destruct items; [right|left]; reflexivity. Qed.

Lemma parse_atom (w : World) (fuel level : nat) (v : pyval) :
  match v with PList _ | PDict _ => False | _ => True end ->
  json_native w v ->
  reads_back w (S fuel) level v.
Proof.
  intros Hatom Hn rest He.
  destruct v as [|[|]|z|x|s|l|d]; try contradiction; try reflexivity.
  - cbn [json_dumps]. destruct (str_of_int_head z) as (c & t & E & Hc).
    pose proof (scan_number_int w z rest He) as Hs.
    rewrite E in *. cbn [app] in *. rewrite (parse_value_number _ _ _ _ Hc), Hs.
    reflexivity.
  - cbn [json_dumps]. destruct Hn as (Hfin & Hl & Hch & Hv).
    rewrite (json_float_finite _ _ Hfin).
    destruct (float_literal_head _ Hl) as (c & t & E & Hc).
    pose proof (scan_number_float w x rest (conj Hfin (conj Hl (conj Hch Hv))) He) as Hs.
    rewrite E in *. cbn [app] in *. rewrite (parse_value_number _ _ _ _ Hc), Hs.
    reflexivity.
  - cbn [json_dumps]. destruct (json_string_read s rest) as (body & -> & Hb).
    cbn [parse_value]. cbn. rewrite Hb. reflexivity.
Qed.

Lemma items_tail_cons (level : nat) (y : pystr) (ys : list pystr) :
  items_tail level (y :: ys) = 44%N :: newline_indent (S level) ++ y ++ items_tail level ys.
Proof. unfold items_tail. cbn [flat_map app]. rewrite <- app_assoc. reflexivity. Qed.

Lemma parse_items_comma (parse : pystr -> option (pyval * pystr)) (n : nat)
    (acc : list pyval) (s : pystr) :
  parse_items parse (S n) acc (44%N :: s) =
  match parse (skip_space s) with
  | Some (v, rest) => parse_items parse n (acc ++ [v]) rest
  | None => None
  end.
Proof. reflexivity. Qed.

Lemma parse_items_close (parse : pystr -> option (pyval * pystr)) (n level : nat)
    (acc : list pyval) (rest : pystr) :
  parse_items parse (S n) acc (newline_indent level ++ 93%N :: rest) = Some (PList acc, rest).
Proof. cbn [parse_items]. rewrite skip_space_newline_indent. reflexivity. Qed.

Lemma parse_items_tail (w : World) (fuel level : nat) (xs : list pyval) :
  Forall (fun x => json_native w x /\ reads_back w fuel (S level) x) xs ->
  forall (n : nat) (acc : list pyval) (rest : pystr),
    (length xs < n)%nat ->
    parse_items (parse_value w fuel) n acc
      (items_tail level (List.map (json_dumps w (S level)) xs)
         ++ newline_indent level ++ 93%N :: rest)
    = Some (PList (acc ++ xs), rest).
Proof.
  induction 1 as [|x xs [Hn Hx] _ IH]; intros n acc rest Hlen;
    (destruct n as [|n]; [cbn [length] in Hlen; lia|]).
  - cbn [List.map items_tail flat_map app].
    rewrite parse_items_close, app_nil_r. reflexivity.
  - cbn [List.map]. rewrite items_tail_cons.
    rewrite <- app_comm_cons, parse_items_comma, <- !app_assoc.
    rewrite skip_space_newline_indent, (skip_space_json_dumps _ _ _ _ Hn).
    rewrite (Hx _ (value_end_items_tail _ _ _ _)).
    rewrite IH by (cbn [length] in Hlen; lia).
    rewrite <- app_assoc. reflexivity.
Qed.

Lemma parse_pair_quoted (parse : pystr -> option (pyval * pystr)) (body k s3 : pystr) :
  scan_string body = Some (k, 58%N :: 32%N :: s3) ->
  parse_pair parse (34%N :: body) =
  match parse (skip_space s3) with
  | Some (v, s4) => Some (k, v, s4)
  | None => None
  end.
Proof. intros H. cbn [parse_pair]. cbn [N.eqb Pos.eqb]. rewrite H. reflexivity. Qed.

Lemma parse_pair_text (w : World) (fuel level : nat) (kv : pystr * pyval) (rest : pystr) :
  json_native w (snd kv) -> reads_back w fuel (S level) (snd kv) -> value_end rest ->
  parse_pair (parse_value w fuel) (pair_text w level kv ++ rest)
  = Some (fst kv, snd kv, rest).
Proof.
  intros Hn Hx He. unfold pair_text. rewrite <- !app_assoc.
  destruct (json_string_read (fst kv) (u ": " ++ json_dumps w (S level) (snd kv) ++ rest))
    as (body & -> & Hb).
  rewrite (parse_pair_quoted _ _ _ _ Hb).
  rewrite (skip_space_json_dumps _ _ _ _ Hn), (Hx _ He). reflexivity.
Qed.

Lemma parse_pairs_comma (parse : pystr -> option (pyval * pystr)) (n : nat)
    (acc : list (pystr * pyval)) (s : pystr) :
  parse_pairs parse (S n) acc (44%N :: s) =
  match parse_pair parse (skip_space s) with
  | Some (k, v, rest) => parse_pairs parse n (dict_set acc k v) rest
  | None => None
  end.
Proof. reflexivity. Qed.

Lemma parse_pairs_close (parse : pystr -> option (pyval * pystr)) (n level : nat)
    (acc : list (pystr * pyval)) (rest : pystr) :
  parse_pairs parse (S n) acc (newline_indent level ++ 125%N :: rest) = Some (PDict acc, rest).
Proof. cbn [parse_pairs]. rewrite skip_space_newline_indent. reflexivity. Qed.

Lemma dict_set_fresh (acc : list (pystr * pyval)) (k : pystr) (v : pyval) :
  ~ In k (List.map fst acc) -> dict_set acc k v = acc ++ [(k, v)].
Proof.
  induction acc as [|[k' v'] acc IH]; intros Hk; [reflexivity|].
  cbn [dict_set app]. cbn [List.map fst In] in Hk.
  destruct (str_eqb k k') eqn:E.
  - apply str_eqb_eq in E. exfalso. apply Hk. left. congruence.
  - rewrite IH; [reflexivity|]. intros Hin. apply Hk. right. exact Hin.
Qed.

Lemma skip_space_pair_text (w : World) (level : nat) (kv : pystr * pyval) (rest : pystr) :
  skip_space (pair_text w level kv ++ rest) = pair_text w level kv ++ rest.
Proof. reflexivity. Qed.

Lemma parse_pairs_tail (w : World) (fuel level : nat) (d : list (pystr * pyval)) :
  Forall (fun kv => json_native w (snd kv) /\ reads_back w fuel (S level) (snd kv)) d ->
  forall (n : nat) (acc : list (pystr * pyval)) (rest : pystr),
    (length d < n)%nat ->
    NoDup (List.map fst (acc ++ d)) ->
    parse_pairs (parse_value w fuel) n acc
      (items_tail level (List.map (pair_text w level) d)
         ++ newline_indent level ++ 125%N :: rest)
    = Some (PDict (acc ++ d), rest).
Proof.
  induction 1 as [|[k v] d [Hn Hx] _ IH]; intros n acc rest Hlen Hnd;
    (destruct n as [|n]; [cbn [length] in Hlen; lia|]).
  - cbn [List.map items_tail flat_map app].
    rewrite parse_pairs_close, app_nil_r. reflexivity.
  - cbn [List.map]. rewrite items_tail_cons.
    rewrite <- app_comm_cons, parse_pairs_comma, <- !app_assoc.
    rewrite skip_space_newline_indent, skip_space_pair_text.
    rewrite (parse_pair_text w fuel level (k, v) _ Hn Hx (value_end_items_tail _ _ _ _)).
    cbn [fst snd]. rewrite dict_set_fresh.
    + rewrite IH.
      * rewrite <- app_assoc. reflexivity.
      * cbn [length] in Hlen. lia.
      * rewrite <- app_assoc. exact Hnd.
    + rewrite List.map_app in Hnd. cbn [List.map fst] in Hnd.
      apply NoDup_app in Hnd as (_ & Hnd & _). intros Hin.
      apply (Hnd k); [apply list_elem_of_In; exact Hin|left].
Qed.

Lemma json_native_list (w : World) (l : list pyval) :
  json_native w (PList l) <-> Forall (json_native w) l.
Proof.
  cbn [json_native]. induction l as [|x l IH]; cbn [fold_right].
  - split; [constructor|trivial].
  - rewrite Forall_cons, IH. reflexivity.
Qed.

Lemma json_native_dict (w : World) (d : list (pystr * pyval)) :
  json_native w (PDict d) <->
  NoDup (List.map fst d) /\ Forall (fun kv => json_native w (snd kv)) d.
Proof.
  cbn [json_native].
  assert (H : fold_right (fun kv acc => json_native w (snd kv) /\ acc) True d
              <-> Forall (fun kv => json_native w (snd kv)) d).
  { induction d as [|kv d IH]; cbn [fold_right].
    - split; [constructor|trivial].
    - rewrite Forall_cons, IH. reflexivity. }
  rewrite H. reflexivity.
Qed.

Lemma weight_item (x : pyval) (l : list pyval) :
  In x l -> (weight x < list_sum (List.map (fun y => S (weight y)) l))%nat.
Proof.
  induction l as [|y l IH]; [intros []|]. cbn [List.map list_sum fold_right].
  intros [->|Hin]; [lia|]. specialize (IH Hin). unfold list_sum in IH. lia.
Qed.

Lemma weight_pair (kv : pystr * pyval) (d : list (pystr * pyval)) :
  In kv d -> (weight (snd kv) < list_sum (List.map (fun y => S (weight (snd y))) d))%nat.
Proof.
  induction d as [|y d IH]; [intros []|]. cbn [List.map list_sum fold_right].
  intros [->|Hin]; [lia|]. specialize (IH Hin). unfold list_sum in IH. lia.
Qed.

Lemma length_le_weights {A} (f : A -> nat) (l : list A) :
  (length l <= list_sum (List.map (fun y => S (f y)) l))%nat.
Proof.
  induction l as [|y l IH]; cbn [length List.map list_sum fold_right];
    [lia|unfold list_sum in IH; lia].
Qed.

Lemma parse_value_brace (w : World) (fuel : nat) (s pairs : pystr) :
  skip_space s = pairs ->
  (exists body, pairs = 34%N :: body) ->
  parse_value w (S fuel) (123%N :: s) =
  match parse_pair (parse_value w fuel) pairs with
  | Some (k, v, rest) => parse_pairs (parse_value w fuel) fuel [(k, v)] rest
  | None => None
  end.
Proof.
  intros H [body ->]. cbn [parse_value]. cbn [N.eqb Pos.eqb]. rewrite H. reflexivity.
Qed.

(** What [json_dumps] writes for a JSON-native value is read back as that
    value, whatever follows it, with fuel above its weight. *)
Lemma parse_value_json_dumps (w : World) (v : pyval) :
  forall (level fuel : nat) (rest : pystr),
    json_native w v -> (weight v < fuel)%nat -> value_end rest ->
    parse_value w fuel (json_dumps w level v ++ rest) = Some (v, rest).
Proof.
  induction v as [|b|z|x|s|l IH|d IH] using pyval_ind; intros level fuel rest Hn Hw He;
    (destruct fuel as [|fuel]; [cbn [weight] in Hw; lia|]);
    try (apply parse_atom; [exact I|exact Hn|exact He]).
  - (* list *)
    apply json_native_list in Hn. cbn [weight] in Hw. cbn [json_dumps].
    destruct l as [|x xs]; [reflexivity|].
    assert (Hall : Forall (fun y => json_native w y /\ reads_back w fuel (S level) y) (x :: xs)).
    { apply Forall_forall. intros y Hy. apply list_elem_of_In in Hy.
      rewrite Forall_forall in IH, Hn. split; [apply Hn, list_elem_of_In, Hy|].
      intros r Hr. apply IH; [apply list_elem_of_In, Hy|apply Hn, list_elem_of_In, Hy| |exact Hr].
      pose proof (weight_item y (x :: xs) Hy). lia. }
    apply Forall_cons in Hall as [[Hnx Hx] Hxs].
    cbn [List.map]. rewrite json_block_cons.
    destruct (json_dumps_head w (S level) x Hnx) as (c & t & E & Hs & H93 & _).
    cbn [parse_value]. cbn [N.eqb Pos.eqb]. rewrite skip_space_newline_indent.
    rewrite (skip_space_json_dumps _ _ _ _ Hnx).
    pose proof (Hx _ (value_end_items_tail level (List.map (json_dumps w (S level)) xs)
                        93%N rest)) as Hp.
    rewrite E in *. cbn [app] in *. rewrite H93, Hp.
    apply (parse_items_tail w fuel level xs Hxs fuel [x] rest).
    pose proof (length_le_weights weight (x :: xs)). cbn [length] in *. lia.
  - (* dict *)
    apply json_native_dict in Hn as [Hnd Hn]. cbn [weight] in Hw. cbn [json_dumps].
    destruct d as [|[k x] d]; [reflexivity|].
    assert (Hall : Forall (fun kv => json_native w (snd kv)
                                     /\ reads_back w fuel (S level) (snd kv)) ((k, x) :: d)).
    { apply Forall_forall. intros y Hy. apply list_elem_of_In in Hy.
      rewrite Forall_forall in IH, Hn. split; [apply Hn, list_elem_of_In, Hy|].
      intros r Hr. apply IH; [apply list_elem_of_In, Hy|apply Hn, list_elem_of_In, Hy| |exact Hr].
      pose proof (weight_pair y ((k, x) :: d) Hy). lia. }
    apply Forall_cons in Hall as [[Hnx Hx] Hxs]. cbn [snd] in Hnx, Hx.
    change (List.map (fun kv => json_string (fst kv) ++ u ": " ++ json_dumps w (S level) (snd kv))
              ((k, x) :: d))
      with (pair_text w level (k, x) :: List.map (pair_text w level) d).
    rewrite json_block_cons.
    pose proof (parse_pair_text w fuel level (k, x) _ Hnx Hx
                  (value_end_items_tail level (List.map (pair_text w level) d)
                     125%N rest)) as Hp.
    rewrite (parse_value_brace w fuel _
               (pair_text w level (k, x)
                  ++ items_tail level (List.map (pair_text w level) d)
                  ++ newline_indent level ++ 125%N :: rest));
      [|rewrite skip_space_newline_indent; reflexivity|eexists; reflexivity].
    unfold codepoint in *. rewrite Hp. cbn [fst snd].
    apply (parse_pairs_tail w fuel level d Hxs fuel [(k, x)] rest).
    + pose proof (length_le_weights (fun y => weight (snd y)) ((k, x) :: d)).
      cbn [length] in *. lia.
    + exact Hnd.
Qed.

(** *** [json.loads] after [json.dumps] *)

Lemma length_items_tail (level : nat) (items : list pystr) :
  (list_sum (List.map (fun y => S (length y)) items) <= length (items_tail level items))%nat.
Proof.
  induction items as [|y items IH]; [cbn; lia|].
  rewrite items_tail_cons. cbn [List.map list_sum fold_right length].
  rewrite !length_app. unfold list_sum in IH. lia.
Qed.

Lemma length_json_block (level : nat) (open close : codepoint) (items : list pystr) :
  (S (list_sum (List.map (fun y => S (length y)) items))
   <= length (json_block level open close items))%nat.
Proof.
  destruct items as [|x items]; [cbn; lia|].
  rewrite <- (app_nil_r (json_block _ _ _ _)), json_block_cons.
  pose proof (length_items_tail level items) as H.
  cbn [List.map list_sum fold_right length]. rewrite !length_app.
  unfold newline_indent. cbn [length]. unfold list_sum in H. lia.
Qed.

Lemma list_sum_le {A} (f g : A -> nat) (l : list A) :
  Forall (fun x => (f x <= g x)%nat) l ->
  (list_sum (List.map f l) <= list_sum (List.map g l))%nat.
Proof.
  induction 1 as [|x l H _ IH]; [cbn; lia|].
  cbn [List.map list_sum fold_right]. unfold list_sum in IH. lia.
Qed.

Lemma weight_le_length (w : World) (v : pyval) :
  forall level, json_native w v -> (weight v <= length (json_dumps w level v))%nat.
Proof.
  induction v as [|b|z|x|s|l IH|d IH] using pyval_ind; intros level Hn;
    try (destruct (json_dumps_head w level _ Hn) as (c & t & -> & _); cbn; lia).
  - apply json_native_list in Hn. cbn [weight json_dumps].
    etransitivity; [|apply length_json_block]. apply le_n_S.
    rewrite List.map_map. apply list_sum_le.
    rewrite Forall_forall in IH, Hn. apply Forall_forall. intros x Hx.
    apply le_n_S. apply IH; [exact Hx|apply Hn, Hx].
  - apply json_native_dict in Hn as [_ Hn]. cbn [weight json_dumps].
    etransitivity; [|apply length_json_block]. apply le_n_S.
    rewrite List.map_map. apply list_sum_le.
    rewrite Forall_forall in IH, Hn. apply Forall_forall. intros kv Hkv.
    apply le_n_S. rewrite !length_app.
    specialize (IH kv Hkv (S level) (Hn kv Hkv)). lia.
Qed.

(** A JSON-native value written by [json.dumps] is read back by [json.loads]. *)
Lemma json_loads_json_dumps (w : World) (v : pyval) :
  json_native w v -> json_loads w (json_dumps w 0 v) = Some v.
Proof.
  intros Hn. unfold json_loads.
  pose proof (skip_space_json_dumps w 0 v [] Hn) as Hs.
  pose proof (weight_le_length w v 0%nat Hn) as Hw.
  pose proof (parse_value_json_dumps w v 0%nat (S (length (json_dumps w 0 v))) [] Hn) as Hp.
  rewrite app_nil_r in Hs, Hp. rewrite Hs, Hp; [reflexivity|lia|exact I].
Qed.

(** *** What is written can be encoded *)










(** ** Persistence *)

Lemma join_snoc (sep : pystr) (items : list pystr) (x : pystr) :
  join sep (items ++ [x]) = flat_map (fun y => y ++ sep) items ++ x.
Proof.
  induction items as [|y items IH]; [reflexivity|].
  cbn [app flat_map]. rewrite <- app_assoc, <- IH.
  destruct (items ++ [x]) eqn:E; [destruct items; discriminate|].
  cbn [join]. rewrite <- app_assoc. reflexivity.
Qed.

Lemma path_str_snoc (root : pystr) (init : list pystr) (x : pystr) :
  path_str root (init ++ [x]) = root ++ flat_map (fun y => y ++ [47%N]) init ++ x.
Proof.
  unfold path_str. rewrite join_snoc.
  destruct root; [|reflexivity]. destruct (init ++ [x]) eqn:E; [|reflexivity].
  destruct init; discriminate.
Qed.


(** With a name, [with_suffix] gives the base and the new suffix. *)
Lemma with_suffix_base (p suffix : pystr) :
  path_name p <> [] -> with_suffix p suffix = Ret (output_base p ++ suffix).
Proof.
  intros Hn. unfold with_suffix, output_base.
  destruct (path_name p) as [|c name] eqn:E; [congruence|].
  rewrite path_str_snoc, <- !app_assoc. reflexivity.
Qed.

Lemma with_suffix_no_name (p suffix : pystr) :
  path_name p = [] -> exists e, with_suffix p suffix = Raise e.
Proof. intros E. unfold with_suffix. rewrite E. eexists. reflexivity. Qed.






(** A source path without a name (the current directory, the root, the
    empty string) has no output path: [with_suffix] raises and nothing is
    written. *)
Example save_extraction_results_no_name :
  forall (w : World) (fs : gmap pystr pystr) (result : pyval),
    save_extraction_results w fs (u ".") result
    = Raise (Exn "ValueError" "path has an empty name")
    /\ save_extraction_results w fs (u "/") result
      = Raise (Exn "ValueError" "path has an empty name")
    /\ save_extraction_results w fs (u "") result
      = Raise (Exn "ValueError" "path has an empty name").
Proof. intros w fs result. repeat split; reflexivity. Qed.

(** * Further properties of the code *)

(** ** The analyzer, page by page *)

Lemma py_strip_nil : py_strip [] = [].
Proof. reflexivity. Qed.

Lemma sample_page_state (i : nat) (page : Page) (st st' : scan) :
  outcome_of (sample_page i page st) = Ret st' ->
  has_text st' = has_text st || page_has_text page
  /\ has_images st' = has_images st || page_has_images page
  /\ estimated_scan_pages st' =
       estimated_scan_pages st ++ (if page_low_text page then [i] else []).
Proof.
  unfold sample_page, call, page_has_text, page_has_images, page_low_text.
  destruct (page_extract_text page) as [text|e]; [|discriminate].
  destruct (page_images page) as [images|e]; [|discriminate].
  cbn -[py_strip]. intros [= <-]. cbn -[py_strip Z.ltb Z.of_nat].
  destruct text as [[|c s]|]; [cbn| |]; cbn -[py_strip Z.ltb Z.of_nat];
    repeat split;
    repeat (match goal with
            | |- context [match ?l with [] => _ | _ :: _ => _ end] => destruct l
            | |- context [if ?b then _ else _] => destruct b
            end; cbn -[py_strip Z.ltb Z.of_nat]);
    rewrite ?orb_false_r, ?orb_true_r, ?app_nil_r; reflexivity.
Qed.

Lemma sample_loop_state (pages : list Page) : forall (i : nat) (st st' : scan),
  outcome_of (sample_loop i pages st) = Ret st' ->
  has_text st' = has_text st || existsb page_has_text pages
  /\ has_images st' = has_images st || existsb page_has_images pages
  /\ estimated_scan_pages st' = estimated_scan_pages st ++ low_text_from i pages.
Proof.
  induction pages as [|page rest IH]; intros i st st'.
  - cbn. intros [= <-]. rewrite !orb_false_r, app_nil_r. auto.
  - cbn [sample_loop]. rewrite outcome_of_bind.
    destruct (outcome_of (sample_page i page st)) as [st1|e] eqn:E1; [|discriminate].
    intros E2. destruct (sample_page_state _ _ _ _ E1) as (T1 & I1 & L1).
    destruct (IH _ _ _ E2) as (T2 & I2 & L2).
    cbn [existsb low_text_from]. rewrite T2, I2, L2, T1, I1, L1, !orb_assoc, <- app_assoc.
    repeat split. destruct (page_low_text page); reflexivity.
Qed.

Lemma low_text_from_spec (pages : list Page) : forall (i j : nat),
  In j (low_text_from i pages) <->
  exists page, pages !! (j - i)%nat = Some page /\ (i <= j)%nat /\ page_low_text page = true.
Proof.
  induction pages as [|page rest IH]; intros i j; cbn [low_text_from].
  - split; [intros []|intros (page & H & _)]. discriminate.
  - assert (Hrest : In j (low_text_from (S i) rest) <->
                    exists q, (page :: rest) !! (j - i)%nat = Some q
                              /\ (S i <= j)%nat /\ page_low_text q = true).
    { rewrite IH. split; intros (q & Hq & Hle & Hl); exists q; repeat split; try lia; auto.
      - replace (j - i)%nat with (S (j - S i)) by lia. exact Hq.
      - replace (j - i)%nat with (S (j - S i)) in Hq by lia. exact Hq. }
    destruct (page_low_text page) eqn:El.
    + cbn [In]. rewrite Hrest. split.
      * intros [<-|(q & Hq & Hle & Hl)].
        -- exists page. rewrite Nat.sub_diag. auto.
        -- exists q. repeat split; auto. lia.
      * intros (q & Hq & Hle & Hl). destruct (Nat.eq_dec i j) as [->|Hne]; [left; reflexivity|].
        right. exists q. repeat split; auto. lia.
    + rewrite Hrest. split; intros (q & Hq & Hle & Hl).
      * exists q. repeat split; auto. lia.
      * exists q. repeat split; auto.
        destruct (Nat.eq_dec i j) as [->|Hne]; [|lia].
        rewrite Nat.sub_diag in Hq. injection Hq as <-. congruence.
Qed.

Lemma low_text_from_sorted (pages : list Page) : forall i : nat,
  StronglySorted lt (low_text_from i pages)
  /\ Forall (fun j => (i <= j)%nat) (low_text_from i pages).
Proof.
  induction pages as [|page rest IH]; intros i; cbn [low_text_from].
  - split; constructor.
  - destruct (IH (S i)) as [S1 F1].
    assert (F2 : Forall (fun j => (i <= j)%nat) (low_text_from (S i) rest))
      by (eapply Forall_impl; [exact F1|]; cbn; intros; lia).
    destruct (page_low_text page); [|split; assumption].
    split.
    + constructor; [exact S1|]. eapply Forall_impl; [exact F1|]. cbn. intros. lia.
    + constructor; [lia|exact F2].
Qed.

Lemma take_min_length {A} (n : nat) (l : list A) : take (Nat.min n (length l)) l = take n l.
Proof.
  destruct (Nat.le_ge_cases n (length l)) as [H|H].
  - rewrite Nat.min_l by exact H. reflexivity.
  - rewrite Nat.min_r by exact H. rewrite !firstn_all2 by lia. reflexivity.
Qed.

(** X1: when the document can be opened and read, [has_text] says whether
    one of the first five pages has text that is not only white space,
    [has_images] whether one of them has an image, and
    [estimated_scan_pages] lists, in increasing order, exactly the indices
    of those of the first five pages that have no text or fewer than 50
    characters once stripped; [file_size] is the size the file system
    reports. Pages after the fifth play no part. *)
Theorem analyzer_flags (w : World) (file_path : pystr) (r : pyval) :
  outcome_of (analyze_body w file_path) = Ret r ->
  exists (pages : list Page) (low : list nat) (size : Z),
    pdfplumber_open w file_path = Ret pages
    /\ stat_st_size w file_path = Ret size
    /\ py_field r (u "has_text") = Some (PBool (existsb page_has_text (take 5 pages)))
    /\ py_field r (u "has_images") = Some (PBool (existsb page_has_images (take 5 pages)))
    /\ py_field r (u "estimated_scan_pages") =
         Some (PList (List.map (fun i => PInt (Z.of_nat i)) low))
    /\ (forall j, In j low <->
          exists page, take 5 pages !! j = Some page /\ page_low_text page = true)
    /\ StronglySorted lt low
    /\ py_field r (u "file_size") = Some (PInt size).
Proof.
  intros H.
  destruct (analyze_body_ret _ _ _ H) as (pages & st & size & EO & ES & EL & -> & _).
  rewrite take_min_length in EL.
  destruct (sample_loop_state _ _ _ _ EL) as (T & I & L). cbn in T, I, L.
  exists pages, (low_text_from 0 (take 5 pages)), size.
  split; [exact EO|]. split; [exact ES|].
  split; [rewrite T; reflexivity|]. split; [rewrite I; reflexivity|].
  split; [rewrite L; reflexivity|]. split; [|split; [|reflexivity]].
  - intros j. rewrite low_text_from_spec, Nat.sub_0_r.
    split; intros (page & Hp & Hl); exists page; repeat split; try tauto; lia.
  - apply low_text_from_sorted.
Qed.

Lemma analyzer_flags_witness :
  exists (pages : list Page) (low : list nat) (size : Z),
    pdfplumber_open sample_world (u "docs/report.pdf") = Ret pages
    /\ stat_st_size sample_world (u "docs/report.pdf") = Ret size
    /\ py_field (analysis_of sample_world (u "docs/report.pdf")) (u "has_text")
       = Some (PBool (existsb page_has_text (take 5 pages)))
    /\ py_field (analysis_of sample_world (u "docs/report.pdf")) (u "has_images")
       = Some (PBool (existsb page_has_images (take 5 pages)))
    /\ py_field (analysis_of sample_world (u "docs/report.pdf")) (u "estimated_scan_pages")
       = Some (PList (List.map (fun i => PInt (Z.of_nat i)) low))
    /\ (forall j, In j low <->
          exists page, take 5 pages !! j = Some page /\ page_low_text page = true)
    /\ StronglySorted lt low
    /\ py_field (analysis_of sample_world (u "docs/report.pdf")) (u "file_size")
       = Some (PInt size).
Proof.
  apply (analyzer_flags sample_world (u "docs/report.pdf")). reflexivity.
Defined.

(** X2: the strategy of the record [analyze_pdf] returns is always one of
    text_extraction, ocr_heavy, hybrid and fallback, and it is fallback
    exactly when the analysis failed (the body of the [try] raised). *)
Theorem strategy_is_enumerated (w : World) (file_path : pystr) :
  exists (a : pyval) (s : pystr),
    outcome_of (analyze_pdf w file_path) = Ret a
    /\ py_field a (u "processing_strategy") = Some (PStr s)
    /\ In s [u "text_extraction"; u "ocr_heavy"; u "hybrid"; u "fallback"]
    /\ (s = u "fallback" <-> exists e, outcome_of (analyze_body w file_path) = Raise e).
Proof.
  rewrite analyze_pdf_outcome.
  destruct (outcome_of (analyze_body w file_path)) as [r|e] eqn:E.
  - destruct (analyze_body_ret _ _ _ E) as (pages & st & size & _ & _ & _ & -> & _).
    exists (analysis_record (Z.of_nat (length pages)) (has_text st) (has_images st)
              (estimated_scan_pages st) size (strategy_of (has_text st) (has_images st))),
      (strategy_of (has_text st) (has_images st)).
    split; [reflexivity|]. split; [reflexivity|].
    destruct (has_text st), (has_images st); cbn [strategy_of negb andb];
      (split; [cbn; tauto|]); (split; [intros H; vm_compute in H; discriminate|]);
      intros [e He]; discriminate.
  - exists degraded_analysis, (u "fallback").
    split; [reflexivity|]. split; [reflexivity|]. split; [cbn; tauto|].
    split; [intros _; exists e; reflexivity|reflexivity].
Qed.

(** ** The validator on malformed results *)

(** The validator, case by case. *)
Lemma _is_valid_result_cases (result : pyval) :
  _is_valid_result result =
  match py_field result (u "content") with
  | None => Ret false
  | Some (PDict c) =>
      match dict_lookup c (u "raw_text") with
      | None => Ret false
      | Some raw =>
          if py_truthy raw
          then match raw with
               | PStr s => Ret (match py_strip s with [] => false | _ => true end)
               | _ => Raise (Exn "AttributeError" "object has no attribute 'strip'")
               end
          else Ret false
      end
  | Some _ => Raise (Exn "AttributeError" "object has no attribute 'get'")
  end.
Proof.
  unfold _is_valid_result.
  destruct result as [|b|z|x|s|l|d]; cbn [py_field is_dict negb];
    rewrite ?orb_true_r; try reflexivity.
  destruct d as [|kv d]; [reflexivity|].
  replace (negb (py_truthy (PDict (kv :: d))) || false) with false by reflexivity.
  unfold py_get at 1. unfold obind at 1.
  destruct (dict_lookup (kv :: d) (u "content")) as [content|]; [|reflexivity].
  destruct content as [| | | | | |c]; try reflexivity.
  unfold py_get, obind at 1.
  destruct (dict_lookup c (u "raw_text")) as [raw|]; [|reflexivity].
  destruct (py_truthy raw) eqn:ET; [|reflexivity].
  destruct raw; try reflexivity.
Qed.

(** X3: the validator on malformed results. It raises exactly when
    ["content"] is there and is not a dict, or ["raw_text"] is there, truthy
    and not a str. It answers [False], without raising, for anything without
    a ["content"] (None, a list, the empty dict, a dict without that key),
    for a content without ["raw_text"], and for a falsy ["raw_text"] of any
    type (None, 0, the empty string, an empty list). *)
Theorem validator_raises (result : pyval) :
  ((exists e, _is_valid_result result = Raise e) <->
     (exists c, py_field result (u "content") = Some c /\ is_dict c = false)
     \/ (exists c raw, py_field result (u "content") = Some (PDict c)
           /\ dict_lookup c (u "raw_text") = Some raw
           /\ py_truthy raw = true /\ is_str raw = false))
  /\ (py_field result (u "content") = None -> _is_valid_result result = Ret false)
  /\ (forall c, py_field result (u "content") = Some (PDict c) ->
        dict_lookup c (u "raw_text") = None -> _is_valid_result result = Ret false)
  /\ (forall c raw, py_field result (u "content") = Some (PDict c) ->
        dict_lookup c (u "raw_text") = Some raw -> py_truthy raw = false ->
        _is_valid_result result = Ret false).
Proof.
  rewrite _is_valid_result_cases.
  split; [|split; [|split]].
  - destruct (py_field result (u "content")) as [content|] eqn:EC.
    2:{ split; [intros [e H]; discriminate|].
        intros [(c & H & _)|(c & raw & H & _)]; discriminate. }
    destruct content as [| | | | | |c];
      try (split; [intros _; left; eexists; split; reflexivity|intros _; eexists; reflexivity]).
    destruct (dict_lookup c (u "raw_text")) as [raw|] eqn:ER.
    2:{ split; [intros [e H]; discriminate|].
        intros [(c' & [= <-] & H)|(c' & raw & [= <-] & H & _)]; [discriminate|congruence]. }
    destruct (py_truthy raw) eqn:ET.
    2:{ split; [intros [e H]; discriminate|].
        intros [(c' & [= <-] & H)|(c' & raw' & [= <-] & Hr & H & _)];
          [discriminate|congruence]. }
    destruct raw;
      try (split; [intros _; right; eexists; eexists; repeat split;
                              [exact ER|exact ET|reflexivity]
                  |intros _; eexists; reflexivity]).
    split; [intros [e H]; discriminate|].
    intros [(c' & [= <-] & H)|(c' & raw' & [= <-] & Hr & _ & H)]; [discriminate|].
    rewrite ER in Hr. injection Hr as <-. discriminate.
  - intros ->. reflexivity.
  - intros c -> ->. reflexivity.
  - intros c raw -> -> ->. reflexivity.
Qed.

(** ** The pdfplumber adapter, page by page *)

Lemma table_records_imap (page_no : nat) (ts : list pyval) : forall j : nat,
  table_records (Z.of_nat page_no + 1) j ts
  = imap (fun k t => table_record page_no (j + k) t) ts.
Proof.
  induction ts as [|t ts IH]; intros j; [reflexivity|].
  cbn [table_records imap]. rewrite Nat.add_0_r, IH. f_equal.
  apply imap_ext. intros k x _. cbn. rewrite Nat.add_succ_r. reflexivity.
Qed.

Lemma plumb_page_state (i : nat) (page : Page) (st st' : plumb) :
  outcome_of (plumb_page i page st) = Ret st' ->
  st' = {| raw_text := raw_text st ++ page_text_or_empty page ++ [10%N];
           pages_content := pages_content st ++ [page_record i page];
           tables := tables st ++ imap (table_record i) (page_tables page) |}
  /\ trace (plumb_page i page st) = [EvText i; EvTables i].
Proof.
  unfold plumb_page, call, page_record, page_text_or_empty, page_tables.
  destruct (page_extract_text page) as [text|e]; [|discriminate].
  destruct (page_extract_tables page) as [ts|e]; [|discriminate].
  cbn [bind ret app outcome_of trace fst snd]. intros [= <-].
  rewrite table_records_imap. split; [|reflexivity].
  destruct text as [[|c s]|]; reflexivity.
Qed.

Lemma plumb_loop_state (pages : list Page) : forall (i : nat) (st st' : plumb),
  outcome_of (plumb_loop i pages st) = Ret st' ->
  raw_text st' = raw_text st ++ flat_map (fun p => page_text_or_empty p ++ [10%N]) pages
  /\ pages_content st' = pages_content st ++ imap (fun j p => page_record (i + j) p) pages
  /\ tables st' =
       tables st ++ concat (imap (fun j p => imap (table_record (i + j)) (page_tables p)) pages)
  /\ trace (plumb_loop i pages st) =
       flat_map (fun j => [EvText j; EvTables j]) (seq i (length pages)).
Proof.
  induction pages as [|page rest IH]; intros i st st'.
  - cbn. intros [= <-]. rewrite !app_nil_r. auto.
  - cbn [plumb_loop]. rewrite outcome_of_bind, trace_bind.
    destruct (outcome_of (plumb_page i page st)) as [st1|e] eqn:E1; [|discriminate].
    destruct (plumb_page_state _ _ _ _ E1) as (-> & Tr1). intros E.
    destruct (IH _ _ _ E) as (R & P & T & Tr).
    cbn [raw_text pages_content tables] in R, P, T.
    rewrite R, P, T, Tr, Tr1. cbn [flat_map imap concat length seq].
    rewrite <- !app_assoc, !Nat.add_0_r. repeat split.
    + cbn [app]. do 2 f_equal. apply imap_ext. intros j x _. cbn.
      rewrite Nat.add_succ_r. reflexivity.
    + do 3 f_equal. apply imap_ext. intros j x _. cbn. rewrite Nat.add_succ_r. reflexivity.
Qed.

(** X4: when the pdfplumber adapter returns, it has read the text and the
    tables of every page of the document, in order (there is no sampling
    limit); [raw_text] is the text of each page followed by a newline, a
    page without text counting as the empty string; [pages] has one record
    per page, numbered from 1; [total_pages] is the number of pages; and the
    analysis record is not used. *)
Theorem pdfplumber_reads_every_page (w : World) (pdf_path : pystr) (analysis r : pyval) :
  outcome_of (_pdfplumber_extract w pdf_path analysis) = Ret r ->
  exists (pages : list Page) (content : list (pystr * pyval)),
    pdfplumber_open w pdf_path = Ret pages
    /\ trace (_pdfplumber_extract w pdf_path analysis) =
         EvOpen pdf_path :: flat_map (fun i => [EvText i; EvTables i]) (seq 0 (length pages))
    /\ py_field r (u "content") = Some (PDict content)
    /\ dict_lookup content (u "raw_text") =
         Some (PStr (flat_map (fun page => page_text_or_empty page ++ [10%N]) pages))
    /\ dict_lookup content (u "pages") =
         Some (PList (imap (fun i page =>
                              PDict [ (u "page_num", PInt (Z.of_nat i + 1));
                                      (u "text", PStr (page_text_or_empty page));
                                      (u "tables", PList []);
                                      (u "images", PList []) ]) pages))
    /\ dict_lookup content (u "images") = Some (PList [])
    /\ py_field r (u "metadata") =
         Some (PDict [ (u "total_pages", PInt (Z.of_nat (length pages)));
                       (u "text_extraction_method", PStr (u "native")) ]).
Proof.
  unfold _pdfplumber_extract. rewrite outcome_of_bind, trace_bind. unfold call at 1 2 3.
  cbn [outcome_of trace fst snd].
  destruct (pdfplumber_open w pdf_path) as [pages|e]; [|discriminate].
  rewrite outcome_of_bind, trace_bind.
  destruct (outcome_of (plumb_loop 0 pages _)) as [st|e] eqn:E; [|discriminate].
  destruct (plumb_loop_state _ _ _ _ E) as (R & P & T & Tr).
  cbn [raw_text pages_content tables app] in R, P, T.
  intros [= <-]. eexists pages, _. split; [reflexivity|].
  split; [rewrite Tr; cbn [trace ret fst]; rewrite app_nil_r; reflexivity|].
  split; [reflexivity|]. split; [rewrite R; reflexivity|].
  split; [rewrite P; reflexivity|]. split; reflexivity.
Qed.

Lemma pdfplumber_reads_every_page_witness :
  exists (pages : list Page) (content : list (pystr * pyval)),
    pdfplumber_open sample_world (u "scan.pdf") = Ret pages
    /\ trace (_pdfplumber_extract sample_world (u "scan.pdf") PNone) =
         EvOpen (u "scan.pdf") :: flat_map (fun i => [EvText i; EvTables i]) (seq 0 (length pages))
    /\ dict_lookup content (u "raw_text") = Some (PStr [10%N; 10%N; 10%N]).
Proof.
  edestruct (pdfplumber_reads_every_page sample_world (u "scan.pdf") PNone)
    as (pages & content & Ho & Ht & _ & Hr & _).
  - reflexivity.
  - exists pages, content. split; [exact Ho|]. split; [exact Ht|].
    rewrite Hr. vm_compute in Ho. injection Ho as <-. reflexivity.
Defined.

(** X5: the tables of the pdfplumber adapter are the tables of the pages in
    page order and, within a page, in the order pdfplumber gives them; each
    is tagged with its page, numbered from 1, and with its index in that
    page, numbered from 0. *)
Theorem pdfplumber_tables_tagged (w : World) (pdf_path : pystr) (analysis r : pyval) :
  outcome_of (_pdfplumber_extract w pdf_path analysis) = Ret r ->
  exists (pages : list Page) (content : list (pystr * pyval)),
    pdfplumber_open w pdf_path = Ret pages
    /\ Forall (fun page => page_extract_tables page = Ret (page_tables page)) pages
    /\ py_field r (u "content") = Some (PDict content)
    /\ dict_lookup content (u "tables") =
         Some (PList (concat (imap (fun i page =>
                 imap (fun j table =>
                         PDict [ (u "page", PInt (Z.of_nat i + 1));
                                 (u "table_id", PInt (Z.of_nat j));
                                 (u "data", table) ]) (page_tables page)) pages))).
Proof.
  intros H.
  assert (Hall : forall pages i st st',
             outcome_of (plumb_loop i pages st) = Ret st' ->
             Forall (fun page => page_extract_tables page = Ret (page_tables page)) pages).
  { clear. induction pages as [|page rest IH]; intros i st st'; [constructor|].
    cbn [plumb_loop]. rewrite outcome_of_bind. unfold plumb_page at 1, call.
    destruct (page_extract_text page) as [text|e]; [|discriminate].
    destruct (page_extract_tables page) as [ts|e] eqn:Ets; [|discriminate].
    cbn [bind ret app outcome_of snd]. intros E.
    constructor; [unfold page_tables; rewrite Ets; reflexivity|].
    exact (IH _ _ _ E). }
  revert H. unfold _pdfplumber_extract. rewrite outcome_of_bind. unfold call at 1.
  cbn [outcome_of snd].
  destruct (pdfplumber_open w pdf_path) as [pages|e]; [|discriminate].
  rewrite outcome_of_bind.
  destruct (outcome_of (plumb_loop 0 pages _)) as [st|e] eqn:E; [|discriminate].
  destruct (plumb_loop_state _ _ _ _ E) as (_ & _ & T & _).
  cbn [tables app] in T.
  intros [= <-]. eexists pages, _. split; [reflexivity|].
  split; [exact (Hall _ _ _ _ E)|]. split; [reflexivity|]. rewrite T. reflexivity.
Qed.

Lemma pdfplumber_tables_tagged_witness :
  exists content : list (pystr * pyval),
    py_field (match outcome_of (_pdfplumber_extract table_world (u "tables.pdf") PNone) with
              | Ret r => r
              | Raise _ => PNone
              end) (u "content") = Some (PDict content)
    /\ dict_lookup content (u "tables") =
         Some (PList [ PDict [ (u "page", PInt 1); (u "table_id", PInt 0);
                               (u "data", sample_table "a") ];
                       PDict [ (u "page", PInt 1); (u "table_id", PInt 1);
                               (u "data", sample_table "b") ];
                       PDict [ (u "page", PInt 3); (u "table_id", PInt 0);
                               (u "data", sample_table "c") ] ]).
Proof.
  edestruct (pdfplumber_tables_tagged table_world (u "tables.pdf") PNone)
    as (pages & content & Ho & _ & Hc & Ht).
  - reflexivity.
  - exists content. split; [exact Hc|]. rewrite Ht.
    vm_compute in Ho. injection Ho as <-. reflexivity.
Defined.

(** ** The run of [extract] *)

Lemma Forall_trace_bind {A B} (P : event -> Prop) (m : M A) (k : A -> M B) :
  Forall P (trace m) -> (forall a, Forall P (trace (k a))) -> Forall P (trace (bind m k)).
Proof.
  intros Hm Hk. rewrite trace_bind. apply Forall_app. split; [exact Hm|].
  destruct (outcome_of m); [apply Hk|constructor].
Qed.

Lemma Forall_trace_call {A} (P : event -> Prop) (ev : event) (o : outcome A) :
  P ev -> Forall P (trace (call ev o)).
Proof. intros H. repeat constructor. exact H. Qed.

Lemma Forall_trace_pure {A} (P : event -> Prop) (o : outcome A) : Forall P (trace (pure o)).
Proof. constructor. Qed.

Lemma Forall_trace_ret {A} (P : event -> Prop) (a : A) : Forall P (trace (ret a)).
Proof. constructor. Qed.

Section TraceEvents.
Variable P : event -> Prop.
Hypothesis Ptext : forall i, P (EvText i).
Hypothesis Pimages : forall i, P (EvImages i).
Hypothesis Ptables : forall i, P (EvTables i).

Lemma Forall_trace_sample_loop (pages : list Page) : forall (i : nat) (st : scan),
  Forall P (trace (sample_loop i pages st)).
Proof.
  induction pages as [|page rest IH]; intros i st; [constructor|].
  cbn [sample_loop]. apply Forall_trace_bind; [|intros; apply IH].
  unfold sample_page. apply Forall_trace_bind; [apply Forall_trace_call, Ptext|].
  intros text. apply Forall_trace_bind; [apply Forall_trace_call, Pimages|].
  intros. apply Forall_trace_ret.
Qed.

Lemma Forall_trace_analyze_body (w : World) (file_path : pystr) :
  P (EvOpen file_path) -> P (EvStat file_path) ->
  Forall P (trace (analyze_body w file_path)).
Proof.
  intros Ho Hs. unfold analyze_body.
  apply Forall_trace_bind; [apply Forall_trace_call, Ho|]. intros pages.
  apply Forall_trace_bind; [apply Forall_trace_sample_loop|]. intros st.
  apply Forall_trace_bind; [apply Forall_trace_call, Hs|]. intros.
  apply Forall_trace_ret.
Qed.

Lemma Forall_trace_plumb_loop (pages : list Page) : forall (i : nat) (st : plumb),
  Forall P (trace (plumb_loop i pages st)).
Proof.
  induction pages as [|page rest IH]; intros i st; [constructor|].
  cbn [plumb_loop]. apply Forall_trace_bind; [|intros; apply IH].
  unfold plumb_page. apply Forall_trace_bind; [apply Forall_trace_call, Ptext|].
  intros text. apply Forall_trace_bind; [apply Forall_trace_call, Ptables|].
  intros. apply Forall_trace_ret.
Qed.

Lemma Forall_trace_pdfplumber (w : World) (pdf_path : pystr) (analysis : pyval) :
  P (EvOpen pdf_path) -> Forall P (trace (_pdfplumber_extract w pdf_path analysis)).
Proof.
  intros Ho. unfold _pdfplumber_extract.
  apply Forall_trace_bind; [apply Forall_trace_call, Ho|]. intros pages.
  apply Forall_trace_bind; [apply Forall_trace_plumb_loop|]. intros.
  apply Forall_trace_ret.
Qed.

Lemma Forall_trace_docling (w : World) (pdf_path : pystr) (analysis : pyval) :
  (DOCLING_AVAILABLE w = true -> P (EvConvert pdf_path)) ->
  Forall P (trace (_docling_extract w pdf_path analysis)).
Proof.
  intros Hc. unfold _docling_extract.
  destruct (DOCLING_AVAILABLE w); [|constructor]. cbn [negb].
  apply Forall_trace_bind; [apply Forall_trace_call, Hc; reflexivity|]. intros raw.
  apply Forall_trace_bind; [apply Forall_trace_pure|]. intros. apply Forall_trace_ret.
Qed.

Lemma Forall_trace_tesseract (w : World) (pdf_path : pystr) (analysis : pyval) :
  Forall P (trace (_tesseract_extract w pdf_path analysis)).
Proof.
  unfold _tesseract_extract. destruct (TESSERACT_AVAILABLE w); [|constructor].
  cbn [negb]. apply Forall_trace_bind; [apply Forall_trace_pure|]. intros.
  apply Forall_trace_ret.
Qed.
End TraceEvents.

(** The trace of [extract]: the clock, the analysis, the engines tried (a
    non-empty prefix of the list of engines), the clock. *)
Lemma extract_trace_shape (w : World) (pdf_path : pystr) :
  exists tried rest : list (pystr * engine),
    self_engines w = tried ++ rest /\ tried <> []
    /\ trace (extract w pdf_path) =
         EvTime :: trace (analyze_body w pdf_path)
           ++ flat_map (engine_events pdf_path (analysis_of w pdf_path)) tried ++ [EvTime]
    /\ (Forall (fun e => engine_fails (snd e) pdf_path (analysis_of w pdf_path)) tried
        \/ exists pre name extractor r,
             tried = pre ++ [(name, extractor)]
             /\ Forall (fun e => engine_fails (snd e) pdf_path (analysis_of w pdf_path)) pre
             /\ engine_succeeds extractor pdf_path (analysis_of w pdf_path) r).
Proof.
  unfold extract.
  destruct (first_success_or_all_fail pdf_path (analysis_of w pdf_path) (self_engines w))
    as [F|(pre & name & ex & post & r & Hsplit & F & S)].
  - exists (self_engines w), []. rewrite app_nil_r.
    split; [reflexivity|]. split; [discriminate|].
    split; [rewrite (extract_with_all_fail _ _ _ F); reflexivity|left; exact F].
  - exists (pre ++ [(name, ex)]), post.
    split; [rewrite <- app_assoc; exact Hsplit|].
    split; [destruct pre; discriminate|].
    split; [rewrite Hsplit, (extract_with_first_success _ _ _ _ _ _ _ F S); reflexivity|].
    right. exists pre, name, ex, r. auto.
Qed.

Lemma Forall_flat_map {A B} (P : B -> Prop) (f : A -> list B) (l : list A) :
  Forall (fun x => Forall P (f x)) l -> Forall P (flat_map f l).
Proof.
  induction 1 as [|x l H _ IH]; [constructor|].
  cbn [flat_map]. apply Forall_app. split; assumption.
Qed.

Lemma Forall_prefix {A} (P : A -> Prop) (l1 l2 : list A) :
  Forall P (l1 ++ l2) -> Forall P l1.
Proof. intros H. apply Forall_app in H. tauto. Qed.

(** X6: during [extract] on a path, nothing else is touched: the only file
    opened or measured is that path, the only engines invoked are docling,
    pdfplumber and tesseract, and the docling converter is called only where
    docling is installed, and only on that path. *)
Theorem extract_touches_only_its_path (w : World) (pdf_path : pystr) :
  Forall (expected_event w pdf_path) (trace (extract w pdf_path)).
Proof.
  destruct (extract_trace_shape w pdf_path) as (tried & rest & Hsplit & _ & -> & _).
  constructor; [exact I|]. apply Forall_app. split; [|apply Forall_app; split].
  - apply Forall_trace_analyze_body; cbn; auto.
  - apply Forall_flat_map.
    assert (Hall : Forall (fun e => Forall (expected_event w pdf_path)
                                      (engine_events pdf_path (analysis_of w pdf_path) e))
                     (self_engines w)).
    { unfold self_engines.
      apply Forall_cons; split; [|apply Forall_cons; split; [|apply Forall_cons; split;
                                                                [|constructor]]];
        unfold engine_events; cbn [fst snd]; (apply Forall_cons; split; [cbn; auto 6|]).
      - apply Forall_trace_docling; cbn; auto.
      - apply Forall_trace_pdfplumber; cbn; auto.
      - apply Forall_trace_tesseract; cbn; auto. }
    rewrite Hsplit in Hall. exact (Forall_prefix _ _ _ Hall).
  - repeat constructor.
Qed.

(** X7: the clock is read exactly twice in [extract], before anything else
    and after everything else, so the reported time spans the analysis and
    every engine attempt. *)
Theorem extract_reads_clock_twice (w : World) (pdf_path : pystr) :
  exists middle : list event,
    trace (extract w pdf_path) = EvTime :: middle ++ [EvTime]
    /\ Forall (fun ev => ev <> EvTime) middle
    /\ exists prefix, middle = trace (analyze_pdf w pdf_path) ++ prefix.
Proof.
  destruct (extract_trace_shape w pdf_path) as (tried & rest & Hsplit & _ & -> & _).
  exists (trace (analyze_body w pdf_path)
            ++ flat_map (engine_events pdf_path (analysis_of w pdf_path)) tried).
  split; [rewrite <- app_assoc; reflexivity|]. split.
  - apply Forall_app. split.
    + apply Forall_trace_analyze_body; discriminate.
    + apply Forall_flat_map.
      assert (Hall : Forall (fun e => Forall (fun ev => ev <> EvTime)
                                        (engine_events pdf_path (analysis_of w pdf_path) e))
                       (self_engines w)).
      { unfold self_engines.
        apply Forall_cons; split; [|apply Forall_cons; split; [|apply Forall_cons; split;
                                                                  [|constructor]]];
          unfold engine_events; cbn [fst snd]; (apply Forall_cons; split; [discriminate|]).
        - apply Forall_trace_docling; discriminate.
        - apply Forall_trace_pdfplumber; discriminate.
        - apply Forall_trace_tesseract; discriminate. }
      rewrite Hsplit in Hall. exact (Forall_prefix _ _ _ Hall).
  - rewrite analyze_pdf_trace. eexists. reflexivity.
Qed.

(** X8: whatever the analysis says (the strategy is never consulted), the
    engines invoked by [extract] are a non-empty prefix of docling,
    pdfplumber, tesseract: docling is always invoked first, and an engine is
    invoked only after all the earlier ones. *)
Theorem engines_invoked_in_fixed_order (w : World) (pdf_path : pystr) :
  exists k : nat,
    (1 <= k <= 3)%nat
    /\ engine_calls (trace (extract w pdf_path))
       = take k [u "docling"; u "pdfplumber"; u "tesseract"].
Proof.
  destruct (extract_trace_shape w pdf_path) as (tried & rest & Hsplit & Hne & -> & _).
  exists (length tried).
  assert (Hlen : (length tried + length rest = 3)%nat).
  { rewrite <- length_app, <- Hsplit. reflexivity. }
  split; [destruct tried; [congruence|cbn [length] in *; lia]|].
  change (EvTime :: ?t) with ([EvTime] ++ t).
  rewrite !engine_calls_app, engine_calls_analyze_body, engine_calls_flat_map.
  - cbn [engine_calls omap app engine_call]. rewrite app_nil_r.
    rewrite <- (self_engines_names w), Hsplit, List.map_app.
    rewrite <- (length_map fst tried), take_app_length. reflexivity.
  - pose proof (self_engines_library_only w pdf_path (analysis_of w pdf_path)) as L.
    rewrite Hsplit in L. exact (Forall_prefix _ _ _ L).
Qed.

Lemma engine_succeeds_not_fails (extractor : engine) (pdf_path : pystr) (analysis r : pyval) :
  engine_succeeds extractor pdf_path analysis r ->
  ~ engine_fails extractor pdf_path analysis.
Proof. unfold engine_succeeds, engine_fails. intros [-> V] F. exact (F V). Qed.

(** X9: the result of [extract] is the fallback result exactly when each of
    the three engines raises or returns an invalid result; otherwise its
    status is "success". *)
Theorem fallback_iff_all_engines_fail (w : World) (pdf_path : pystr) :
  exists res : ExtractionResult,
    outcome_of (extract w pdf_path) = Ret res
    /\ (py_field (extraction_info res) (u "status") = Some (PStr (u "fallback"))
        \/ py_field (extraction_info res) (u "status") = Some (PStr (u "success")))
    /\ (py_field (extraction_info res) (u "status") = Some (PStr (u "fallback")) <->
        Forall (fun e => engine_fails (snd e) pdf_path (analysis_of w pdf_path))
               (self_engines w)).
Proof.
  unfold extract.
  destruct (first_success_or_all_fail pdf_path (analysis_of w pdf_path) (self_engines w))
    as [F|(pre & name & ex & post & r & Hsplit & F & S)].
  - rewrite (extract_with_all_fail _ _ _ F). exists (fallback_record w pdf_path).
    split; [reflexivity|]. split; [left; reflexivity|]. split; [intros _; exact F|reflexivity].
  - rewrite Hsplit, (extract_with_first_success _ _ _ _ _ _ _ F S).
    exists (success_record w pdf_path name r).
    split; [reflexivity|]. split; [right; reflexivity|]. split; [discriminate|].
    intros Fall. exfalso. apply Forall_app in Fall as [_ Fall].
    apply Forall_cons in Fall as [Fx _].
    exact (engine_succeeds_not_fails _ _ _ _ S Fx).
Qed.

(** ** What the result says about the engine *)

(** X10: the confidence of the result of [extract] is decided by the engine
    it names: 0.9 for docling, 0.8 for pdfplumber, 0.6 for tesseract, 0.1 for
    the fallback. The 0.3 that the pdfplumber adapter reports for a document
    without text never reaches the caller: such a result fails validation. *)
Theorem confidence_by_engine (w : World) (pdf_path : pystr) :
  exists (res : ExtractionResult) (engine : pystr) (confidence : float),
    outcome_of (extract w pdf_path) = Ret res
    /\ py_field (extraction_info res) (u "engine_used") = Some (PList [PStr engine])
    /\ py_field (extraction_info res) (u "confidence") = Some (PFloat confidence)
    /\ In (engine, confidence)
          [ (u "docling", 0.9%float); (u "pdfplumber", 0.8%float);
            (u "tesseract", 0.6%float); (u "fallback", 0.1%float) ].
Proof.
  unfold extract.
  destruct (first_success_or_all_fail pdf_path (analysis_of w pdf_path) (self_engines w))
    as [F|(pre & name & ex & post & r & Hsplit & F & [E V])].
  - rewrite (extract_with_all_fail _ _ _ F).
    exists (fallback_record w pdf_path), (u "fallback"), 0.1%float.
    repeat split; try reflexivity. cbn [In]. auto 6.
  - rewrite Hsplit, (extract_with_first_success _ _ _ _ _ _ _ F (conj E V)).
    assert (Hin : In (name, ex) (self_engines w))
      by (rewrite Hsplit; apply in_or_app; right; left; reflexivity).
    destruct (analysis_of_is_record w pdf_path) as (n & ht & hi & sp & sz & s & A).
    rewrite A in E.
    destruct Hin as [[= <- <-]|[[= <- <-]|[[= <- <-]|[]]]].
    + apply docling_outcome in E as (text & ->).
      eexists _, (u "docling"), 0.9%float. repeat split; try reflexivity. cbn [In]. auto 6.
    + apply pdfplumber_outcome in E as (text & pages & tables & m & ->).
      destruct (adapter_result_valid_text _ _ _ _ _ _ V) as (t & [= <-] & Hne).
      apply py_strip_nonempty_truthy in Hne.
      eexists _, (u "pdfplumber"), 0.8%float. repeat split; try reflexivity.
      * unfold success_record, adapter_result. cbn [extraction_info].
        rewrite Hne. reflexivity.
      * cbn [In]. auto 6.
    + apply tesseract_outcome in E as ->.
      eexists _, (u "tesseract"), 0.6%float. repeat split; try reflexivity. cbn [In]. auto 6.
Qed.

(** X11: the page count that docling and OCR results carry is the analyzer's,
    not the converter's. When the analysis failed (it then says one page) and
    docling converts the document, the result says [total_pages] 1, whatever
    the document holds; the same when the analysis failed and the OCR
    placeholder is returned. *)
Theorem total_pages_after_failed_analysis (w : World) (pdf_path : pystr) (e : exn) :
  outcome_of (analyze_body w pdf_path) = Raise e ->
  (forall r, engine_succeeds (_docling_extract w) pdf_path (analysis_of w pdf_path) r ->
     exists res,
       outcome_of (extract w pdf_path) = Ret res
       /\ py_field (extraction_info res) (u "engine_used") = Some (PList [PStr (u "docling")])
       /\ py_field (metadata res) (u "total_pages") = Some (PInt 1))
  /\ (engine_fails (_docling_extract w) pdf_path (analysis_of w pdf_path) ->
      engine_fails (_pdfplumber_extract w) pdf_path (analysis_of w pdf_path) ->
      TESSERACT_AVAILABLE w = true ->
      exists res,
        outcome_of (extract w pdf_path) = Ret res
        /\ py_field (extraction_info res) (u "engine_used") = Some (PList [PStr (u "tesseract")])
        /\ py_field (metadata res) (u "total_pages") = Some (PInt 1)).
Proof.
  intros Hfail.
  assert (A : analysis_of w pdf_path = degraded_analysis)
    by (unfold analysis_of; rewrite Hfail; reflexivity).
  split.
  - intros r S. unfold extract.
    change (self_engines w)
      with ([] ++ (u "docling", _docling_extract w)
               :: [(u "pdfplumber", _pdfplumber_extract w);
                   (u "tesseract", _tesseract_extract w)]).
    rewrite (extract_with_first_success w pdf_path [] _ _ _ r (Forall_nil_2 _) S).
    destruct S as [E V]. rewrite A in E. apply docling_outcome in E as (text & ->).
    eexists. repeat split; reflexivity.
  - intros Fd Fp Ht. unfold extract.
    assert (F : Forall (fun e => engine_fails (snd e) pdf_path (analysis_of w pdf_path))
                  [(u "docling", _docling_extract w); (u "pdfplumber", _pdfplumber_extract w)])
      by (repeat constructor; assumption).
    assert (S : engine_succeeds (_tesseract_extract w) pdf_path (analysis_of w pdf_path)
                  (adapter_result (PStr ocr_placeholder) [] [] (PInt 1) (u "ocr") 0.6)).
    { rewrite A. unfold degraded_analysis.
      split; [rewrite (tesseract_available _ _ _ _ _ _ _ _ Ht)|]; reflexivity. }
    change (self_engines w)
      with ([(u "docling", _docling_extract w); (u "pdfplumber", _pdfplumber_extract w)]
              ++ (u "tesseract", _tesseract_extract w) :: []).
    rewrite (extract_with_first_success w pdf_path _ _ _ _ _ F S).
    eexists. repeat split; reflexivity.
Qed.

Lemma total_pages_after_failed_analysis_witness :
  (exists pages, pdfplumber_open sample_world_docling (u "broken.pdf") = Ret pages
                 /\ length pages = 2%nat)
  /\ exists res,
       outcome_of (extract sample_world_docling (u "broken.pdf")) = Ret res
       /\ py_field (extraction_info res) (u "engine_used") = Some (PList [PStr (u "docling")])
       /\ py_field (metadata res) (u "total_pages") = Some (PInt 1).
Proof.
  split; [eexists; split; reflexivity|].
  destruct (total_pages_after_failed_analysis sample_world_docling (u "broken.pdf")
              (Exn "PDFSyntaxError" "bad content stream") eq_refl) as [H _].
  eapply H. split; reflexivity.
Defined.

(** ** The result of [extract_pdf] can be saved and read back *)

Lemma Forall_imap_intro {A B} (P : B -> Prop) (l : list A) : forall f : nat -> A -> B,
  (forall i x, In x l -> P (f i x)) -> Forall P (imap f l).
Proof.
  induction l as [|x l IH]; intros f H; [constructor|].
  cbn [imap]. constructor; [apply H; left; reflexivity|].
  apply IH. intros i y Hy. apply H. right. exact Hy.
Qed.

Lemma json_native_record (w : World) (d : list (pystr * pyval)) :
  NoDup (List.map fst d) -> Forall (fun kv => json_native w (snd kv)) d ->
  json_native w (PDict d).
Proof. intros H1 H2. apply json_native_dict. split; assumption. Qed.

Ltac keys_distinct := apply (bool_decide_unpack _); vm_compute; exact I.

(** A record with distinct keys whose values are JSON-native on sight. *)
Ltac native_record :=
  apply json_native_record; [keys_distinct|];
  repeat (apply Forall_cons; split; [cbn [snd]|]); [..|apply Forall_nil_2];
  first [ exact I | assumption | apply json_native_list; assumption
        | (apply json_native_list; repeat constructor) | idtac ].

Lemma pdfplumber_outcome_closed (w : World) (pdf_path : pystr) (analysis r : pyval) :
  outcome_of (_pdfplumber_extract w pdf_path analysis) = Ret r ->
  exists pages : list Page,
    pdfplumber_open w pdf_path = Ret pages
    /\ Forall (fun page => page_extract_tables page = Ret (page_tables page)) pages
    /\ r = adapter_result
             (PStr (flat_map (fun page => page_text_or_empty page ++ [10%N]) pages))
             (imap page_record pages)
             (concat (imap (fun i page => imap (table_record i) (page_tables page)) pages))
             (PInt (Z.of_nat (length pages))) (u "native")
             (if py_truthy (PStr (py_strip
                    (flat_map (fun page => page_text_or_empty page ++ [10%N]) pages)))
              then 0.8 else 0.3)%float.
Proof.
  assert (Hall : forall pages i st st',
             outcome_of (plumb_loop i pages st) = Ret st' ->
             Forall (fun page => page_extract_tables page = Ret (page_tables page)) pages).
  { clear. induction pages as [|page rest IH]; intros i st st'; [constructor|].
    cbn [plumb_loop]. rewrite outcome_of_bind. unfold plumb_page at 1, call.
    destruct (page_extract_text page) as [text|e]; [|discriminate].
    destruct (page_extract_tables page) as [ts|e] eqn:Ets; [|discriminate].
    cbn [bind ret app outcome_of snd]. intros E.
    constructor; [unfold page_tables; rewrite Ets; reflexivity|].
    exact (IH _ _ _ E). }
  unfold _pdfplumber_extract. rewrite outcome_of_bind. unfold call at 1.
  cbn [outcome_of snd].
  destruct (pdfplumber_open w pdf_path) as [pages|e]; [|discriminate].
  rewrite outcome_of_bind.
  destruct (outcome_of (plumb_loop 0 pages _)) as [st|e] eqn:E; [|discriminate].
  destruct (plumb_loop_state _ _ _ _ E) as (R & P & T & _).
  cbn [raw_text pages_content tables app] in R, P, T.
  intros [= <-]. exists pages. split; [reflexivity|]. split; [exact (Hall _ _ _ _ E)|].
  rewrite R, P, T. reflexivity.
Qed.

Lemma success_record_native (w : World) (pdf_path name : pystr) (text : pystr)
    (pages tables : list pyval) (n : Z) (method : pystr) (confidence : float) :
  float_reads_back w confidence ->
  Forall (json_native w) pages -> Forall (json_native w) tables ->
  let res := success_record w pdf_path name
               (adapter_result (PStr text) pages tables (PInt n) method confidence) in
  json_native w (extraction_info res) /\ json_native w (content res)
  /\ json_native w (metadata res).
Proof.
  intros Hf Hp Ht. cbn zeta. split; [|split]; native_record.
Qed.

Lemma fallback_record_native (w : World) (pdf_path : pystr) :
  float_reads_back w 0.1%float ->
  json_native w (extraction_info (fallback_record w pdf_path))
  /\ json_native w (content (fallback_record w pdf_path))
  /\ json_native w (metadata (fallback_record w pdf_path)).
Proof.
  intros Hf. split; [|split]; [native_record|native_record|].
  destruct (analysis_of_is_record w pdf_path) as (n & ht & hi & sp & sz & s & E).
  unfold fallback_record. cbn [metadata]. rewrite E. native_record.
Qed.

Lemma extract_record_native (w : World) (pdf_path : pystr) (res : ExtractionResult) :
  world_serialisable w ->
  outcome_of (extract w pdf_path) = Ret res ->
  json_native w (extraction_info res) /\ json_native w (content res)
  /\ json_native w (metadata res).
Proof.
  intros [Hfl Htab].
  apply Forall_cons in Hfl as [F1 Hfl]. apply Forall_cons in Hfl as [F6 Hfl].
  apply Forall_cons in Hfl as [F8 Hfl]. apply Forall_cons in Hfl as [F9 _].
  unfold extract.
  destruct (first_success_or_all_fail pdf_path (analysis_of w pdf_path) (self_engines w))
    as [F|(pre & name & ex & post & r & Hsplit & F & [E V])].
  - rewrite (extract_with_all_fail _ _ _ F). intros [= <-].
    apply fallback_record_native. exact F1.
  - rewrite Hsplit, (extract_with_first_success _ _ _ _ _ _ _ F (conj E V)). intros [= <-].
    assert (Hin : In (name, ex) (self_engines w))
      by (rewrite Hsplit; apply in_or_app; right; left; reflexivity).
    destruct (analysis_of_is_record w pdf_path) as (n & ht & hi & sp & sz & s & A).
    rewrite A in E.
    destruct Hin as [[= <- <-]|[[= <- <-]|[[= <- <-]|[]]]].
    + apply docling_outcome in E as (text & ->).
      destruct (adapter_result_valid_text _ _ _ _ _ _ V) as (t & -> & _).
      apply success_record_native; [exact F9|constructor|constructor].
    + apply pdfplumber_outcome_closed in E as (pages & Ho & Hts & ->).
      destruct (adapter_result_valid_text _ _ _ _ _ _ V) as (t & [= <-] & Hne).
      apply py_strip_nonempty_truthy in Hne.
      rewrite Hne.
      apply success_record_native; [exact F8| |].
      * apply Forall_imap_intro. intros i page _. native_record.
      * apply Forall_concat. apply Forall_imap_intro. intros i page Hpage.
        rewrite Forall_forall in Hts.
        pose proof (Htab _ _ _ _ Ho Hpage (Hts page (proj2 (list_elem_of_In _ _) Hpage))) as Hn.
        apply Forall_imap_intro. intros j t Ht.
        rewrite Forall_forall in Hn. pose proof (Hn t (proj2 (list_elem_of_In _ _) Ht)).
        native_record.
    + apply tesseract_outcome in E as ->.
      apply success_record_native; [exact F6|constructor|constructor].
Qed.

Lemma extract_well_formed (w : World) (pdf_path : pystr) :
  exists res, outcome_of (extract w pdf_path) = Ret res /\ well_formed_result pdf_path res.
Proof.
  unfold extract.
  destruct (first_success_or_all_fail pdf_path (analysis_of w pdf_path) (self_engines w))
    as [F|(pre & name & ex & post & r & Hsplit & F & S)].
  - rewrite (extract_with_all_fail _ _ _ F).
    exists (fallback_record w pdf_path). split; [reflexivity|].
    apply fallback_record_well_formed.
  - rewrite Hsplit, (extract_with_first_success _ _ _ _ _ _ _ F S).
    exists (success_record w pdf_path name r). split; [reflexivity|].
    apply (self_engine_success_well_formed w pdf_path name ex r); [|exact S].
    rewrite Hsplit. apply in_or_app. right. left. reflexivity.
Qed.

Lemma extract_pdf_outcome (w : World) (pdf_path : pystr) (res : ExtractionResult) :
  outcome_of (extract w pdf_path) = Ret res ->
  outcome_of (extract_pdf w pdf_path) =
    Ret (PDict [ (u "extraction_info", extraction_info res);
                 (u "content", content res);
                 (u "metadata", metadata res) ]).
Proof. intros H. unfold extract_pdf. rewrite outcome_of_bind, H. reflexivity. Qed.

(** X12: [extract_pdf] always returns a dict with the three keys
    extraction_info, content and metadata, whose [content] is a dict with a
    str [raw_text], so the two lookups of [save_extraction_results] never
    raise on it; and where the values of the libraries can be serialised
    ([repr] and [float] agree on the confidences, the extracted tables are
    JSON-native), the text that [json.dumps] writes for it is read back by
    [json.loads] as the same dict. *)
Theorem extract_pdf_can_be_saved (w : World) (pdf_path : pystr) :
  world_serialisable w ->
  exists (r info metadata : pyval) (content : list (pystr * pyval)) (text : pystr),
    outcome_of (extract_pdf w pdf_path) = Ret r
    /\ r = PDict [ (u "extraction_info", info);
                   (u "content", PDict content);
                   (u "metadata", metadata) ]
    /\ py_getitem r (u "content") = Ret (PDict content)
    /\ py_getitem (PDict content) (u "raw_text") = Ret (PStr text)
    /\ json_native w r
    /\ json_loads w (json_dumps w 0 r) = Some r.
Proof.
  intros Hw.
  destruct (extract_well_formed w pdf_path) as (res & Hres & _ & Hc & _).
  destruct Hc as (text & pages & tables & images & Hc).
  destruct (extract_record_native w pdf_path res Hw Hres) as (N1 & N2 & N3).
  assert (Hn : json_native w (PDict [ (u "extraction_info", extraction_info res);
                                      (u "content", content res);
                                      (u "metadata", metadata res) ]))
    by native_record.
  eexists _, (extraction_info res), (metadata res), _, text.
  split; [exact (extract_pdf_outcome _ _ _ Hres)|].
  rewrite Hc in *.
  split; [reflexivity|]. split; [reflexivity|]. split; [reflexivity|].
  split; [exact Hn|]. apply json_loads_json_dumps. exact Hn.
Qed.

Lemma sample_world_serialisable : world_serialisable sample_world.
Proof.
  split.
  - repeat (apply Forall_cons; split); [..|apply Forall_nil_2];
      (split; [|split; [|split]]; vm_compute; reflexivity).
  - intros p pages page ts. unfold sample_world. cbn [pdfplumber_open].
    repeat (match goal with |- context [str_eqb ?a ?b] => destruct (str_eqb a b) end);
      try discriminate; intros [= <-] Hin;
      repeat (destruct Hin as [<-|Hin]; [intros [= <-]; constructor|]);
      try (destruct Hin); try discriminate.
Qed.

Lemma extract_pdf_can_be_saved_witness :
  exists r : pyval,
    outcome_of (extract_pdf sample_world (u "docs/report.pdf")) = Ret r
    /\ json_loads sample_world (json_dumps sample_world 0 r) = Some r.
Proof.
  destruct (extract_pdf_can_be_saved sample_world (u "docs/report.pdf")
              sample_world_serialisable)
    as (r & info & metadata & content & text & H & _ & _ & _ & _ & Hl).
  exists r. split; assumption.
Defined.

(** ** The command line *)



Lemma extract_returns (w : World) (pdf_path : pystr) :
  exists res, extract w pdf_path = (trace (extract w pdf_path), Ret res).
Proof.
  destruct (extract_well_formed w pdf_path) as (res & H & _).
  exists res. rewrite (M_eta (extract w pdf_path)) at 1. rewrite H. reflexivity.
Qed.

(** X13: the script with anything but one argument prints the usage line
    and exits with status 1, having called no library and written no file.
    With a path that has no name (the current directory, the root, the
    empty string) it runs the whole extraction and then ends in an uncaught
    ValueError: the result is neither saved nor printed. *)
Theorem main_usage_and_nameless_path (w : World) (fs : gmap pystr pystr) :
  (forall argv : list pystr,
     length argv <> 2%nat ->
     main w fs argv =
       ([], Ret {| run_files := fs;
                   run_stdout := [u "Usage: python extractor.py <pdf_file_path>"];
                   run_exit := 1 |}))
  /\ (forall prog pdf_file : pystr,
        path_name pdf_file = [] ->
        main w fs [prog; pdf_file] =
          (trace (extract w pdf_file), Raise (Exn "ValueError" "path has an empty name")))
  /\ path_name (u ".") = [] /\ path_name (u "/") = [] /\ path_name (u "") = []
  /\ path_name (u "dir/") = u "dir".
Proof.
  split; [|split; [|repeat split; reflexivity]].
  - intros [|a [|b [|c argv]]] H; try reflexivity. cbn [length] in H. congruence.
  - intros prog pdf_file Hname. unfold main, extract_pdf.
    destruct (extract_returns w pdf_file) as (res & ->).
    unfold save_extraction_results, with_suffix. rewrite Hname.
    cbn [bind ret pure obind]. rewrite ?app_nil_r. reflexivity.
Qed.



(** X15: [save_extraction_results] returns only when everything went well:
    the path has a name, the two paths it returns are the source path with
    the suffix of its name replaced by ".json" and ".txt", both files could
    be opened and encoded, the result is a dict whose [content] is a dict
    with a string [raw_text], and the files afterwards are the files before
    with exactly these two written, the text file last. In every other case
    it raises. *)
Theorem save_extraction_results_only_if (w : World) (fs fs' : gmap pystr pystr)
    (pdf_path json_path txt_path : pystr) (result : pyval) :
  save_extraction_results w fs pdf_path result = Ret (fs', (json_path, txt_path)) ->
  path_name pdf_path <> []
  /\ json_path = output_base pdf_path ++ u ".json"
  /\ txt_path = output_base pdf_path ++ u ".txt"
  /\ open_for_writing w json_path = Ret tt
  /\ open_for_writing w txt_path = Ret tt
  /\ utf8_encodable (json_dumps w 0 result) = true
  /\ exists (content : list (pystr * pyval)) (text : pystr),
       py_field result (u "content") = Some (PDict content)
       /\ dict_lookup content (u "raw_text") = Some (PStr text)
       /\ utf8_encodable text = true
       /\ fs' = <[txt_path := text]> (<[json_path := json_dumps w 0 result]> fs).
Proof.
  intros H.
  assert (Hname : path_name pdf_path <> []).
  { intros E. unfold save_extraction_results, with_suffix in H. rewrite E in H.
    discriminate. }
  split; [exact Hname|].
  unfold save_extraction_results in H. rewrite !(with_suffix_base _ _ Hname) in H.
  cbn [obind] in H. unfold write_file in H.
  destruct (open_for_writing w (output_base pdf_path ++ u ".json")) as [[]|] eqn:Hoj;
    [|discriminate].
  cbn [obind] in H.
  destruct (utf8_encodable (json_dumps w 0 result)) eqn:Hej; [|discriminate].
  cbn [obind] in H.
  destruct (open_for_writing w (output_base pdf_path ++ u ".txt")) as [[]|] eqn:Hot;
    [|discriminate].
  cbn [obind] in H.
  destruct result as [| | | | | |d]; try discriminate. cbn [py_getitem] in H.
  destruct (dict_lookup d (u "content")) as [c|] eqn:Hc; [|discriminate].
  cbn [obind] in H.
  destruct c as [| | | | | |content]; try discriminate. cbn [py_getitem] in H.
  destruct (dict_lookup content (u "raw_text")) as [t|] eqn:Ht; [|discriminate].
  cbn [obind] in H.
  destruct t as [| | | |text| |]; try discriminate.
  destruct (utf8_encodable text) eqn:Het; [|discriminate].
  injection H as <- <- <-.
  repeat (split; [first [reflexivity|assumption]|]).
  exists content, text. cbn [py_field]. rewrite Hc. repeat split; assumption.
Qed.

Lemma save_extraction_results_only_if_witness :
  path_name (u "docs/report.pdf") <> []
  /\ open_for_writing sample_world (u "docs/report.txt") = Ret tt
  /\ exists fs' : gmap pystr pystr,
       save_extraction_results sample_world ∅ (u "docs/report.pdf") sample_main_result
       = Ret (fs', (u "docs/report.json", u "docs/report.txt")).
Proof.
  assert (H : exists fs' : gmap pystr pystr,
             save_extraction_results sample_world ∅ (u "docs/report.pdf") sample_main_result
             = Ret (fs', (u "docs/report.json", u "docs/report.txt"))).
  { eexists. vm_compute. reflexivity. }
  destruct H as (fs' & H).
  destruct (save_extraction_results_only_if _ _ _ _ _ _ _ H)
    as (Hn & _ & Ht & _ & Hot & _).
  split; [exact Hn|]. split; [rewrite Ht in Hot; exact Hot|].
  exists fs'. exact H.
Defined.
(** * Paths, component by component *)


Lemma split_slash_no_slash (c : pystr) : forall cur : pystr,
  ~ In 47%N c -> split_slash c cur = [rev cur ++ c].
Proof.
  induction c as [|x c IH]; intros cur Hc.
  - cbn. rewrite app_nil_r. reflexivity.
  - cbn [split_slash].
    destruct (N.eqb_spec x 47) as [->|Hx]; [exfalso; apply Hc; left; reflexivity|].
    rewrite IH by (intros H; apply Hc; right; exact H).
    cbn [rev]. rewrite <- app_assoc. reflexivity.
Qed.


(** Whatever the directory part looks like, the last component is what
    follows the last slash. *)
Lemma split_slash_after_slash (d rest : pystr) : forall cur : pystr,
  exists init, split_slash (d ++ 47%N :: rest) cur = init ++ split_slash rest [].
Proof.
  induction d as [|x d IH]; intros cur.
  - exists [rev cur]. cbn. reflexivity.
  - cbn [app split_slash]. destruct (x =? 47)%N.
    + destruct (IH []) as (init & ->). exists (rev cur :: init). reflexivity.
    + apply IH.
Qed.

Lemma component_kept (c : pystr) :
  path_component c -> negb (str_eqb c [] || str_eqb c (u ".")) = true.
Proof.
  intros (H1 & H2 & _).
  destruct (str_eqb c []) eqn:E1; [apply str_eqb_eq in E1; congruence|].
  destruct (str_eqb c (u ".")) eqn:E2; [apply str_eqb_eq in E2; congruence|].
  reflexivity.
Qed.


Lemma path_name_after_slash (dir name : pystr) :
  dir = [] \/ (exists d, dir = d ++ [47%N]) ->
  path_component name ->
  path_name (dir ++ name) = name.
Proof.
  intros Hdir Hn. unfold path_name, path_parts.
  assert (Hs : exists init, split_slash (dir ++ name) [] = init ++ [name]).
  { destruct Hdir as [->|(d & ->)].
    - exists []. apply (split_slash_no_slash name []). apply Hn.
    - destruct (split_slash_after_slash d name []) as (init & E).
      exists init. rewrite <- app_assoc. cbn [app].
      etransitivity; [exact E|]. f_equal.
      apply (split_slash_no_slash name []). apply Hn. }
  destruct Hs as (init & ->).
  rewrite List.filter_app. cbn [List.filter]. rewrite (component_kept name Hn).
  apply List.last_last.
Qed.






(** ** The suffix of a name *)





(** * The claims on results, names and times *)

(** C4: when every engine raises or returns a result that fails validation,
    [extract] returns the fallback result: status "fallback", engine_used
    ["fallback"], confidence 0.1, a raw_text that is "Failed to extract
    content from " followed by the name of the source file, empty pages,
    tables and images, the page count of the analysis record as total_pages,
    and "fallback" as text_extraction_method. The name of the file is the
    last component of the path: what follows its last slash, or the whole
    path when it has none. *)
Theorem fallback_on_total_failure (w : World) (engines : list (pystr * engine))
    (pdf_path : pystr) :
  Forall (fun e => engine_fails (snd e) pdf_path (analysis_of w pdf_path)) engines ->
  exists (res : ExtractionResult) (time : pystr) (total_pages : pyval),
    outcome_of (extract_with w engines pdf_path) = Ret res
    /\ extraction_info res =
         PDict [ (u "file_name", PStr (path_name pdf_path));
                 (u "processing_time", PStr time);
                 (u "engine_used", PList [PStr (u "fallback")]);
                 (u "status", PStr (u "fallback"));
                 (u "confidence", PFloat 0.1) ]
    /\ content res =
         PDict [ (u "raw_text",
                   PStr (u "Failed to extract content from " ++ path_name pdf_path));
                 (u "pages", PList []);
                 (u "tables", PList []);
                 (u "images", PList []) ]
    /\ metadata res =
         PDict [ (u "total_pages", total_pages);
                 (u "text_extraction_method", PStr (u "fallback")) ]
    /\ py_field (analysis_of w pdf_path) (u "pages") = Some total_pages
    /\ outcome_of (analyze_pdf w pdf_path) = Ret (analysis_of w pdf_path)
    /\ (forall dir name : pystr,
          pdf_path = dir ++ name ->
          dir = [] \/ (exists d, dir = d ++ [47%N]) ->
          name <> [] -> name <> u "." -> ~ In 47%N name ->
          py_field (extraction_info res) (u "file_name") = Some (PStr name)
          /\ py_field (content res) (u "raw_text")
             = Some (PStr (u "Failed to extract content from " ++ name))).
Proof.
  intros F. rewrite (extract_with_all_fail _ _ _ F).
  exists (fallback_record w pdf_path), (format_2f (elapsed w) ++ u "s"),
    (py_get_default (analysis_of w pdf_path) (u "pages") (PInt 0)).
  split; [reflexivity|]. split; [reflexivity|]. split; [reflexivity|].
  split; [reflexivity|]. split; [|split].
  - destruct (analysis_of_is_record w pdf_path) as (n & ht & hi & sp & sz & s & ->).
    reflexivity.
  - apply analyze_pdf_outcome.
  - intros dir name -> Hdir H1 H2 H3.
    unfold fallback_record. cbn [extraction_info content py_field dict_lookup].
    rewrite (path_name_after_slash dir name Hdir (conj H1 (conj H2 H3))).
    split; reflexivity.
Qed.

Lemma fallback_on_total_failure_witness :
  exists res : ExtractionResult,
    outcome_of (extract sample_world (u "archive/2019/missing.pdf")) = Ret res
    /\ extraction_info res =
         PDict [ (u "file_name", PStr (u "missing.pdf"));
                 (u "processing_time", PStr (u "1.25s"));
                 (u "engine_used", PList [PStr (u "fallback")]);
                 (u "status", PStr (u "fallback"));
                 (u "confidence", PFloat 0.1) ]
    /\ content res =
         PDict [ (u "raw_text", PStr (u "Failed to extract content from missing.pdf"));
                 (u "pages", PList []);
                 (u "tables", PList []);
                 (u "images", PList []) ]
    /\ metadata res =
         PDict [ (u "total_pages", PInt 1);
                 (u "text_extraction_method", PStr (u "fallback")) ].
Proof.
  destruct (fallback_on_total_failure sample_world (self_engines sample_world)
              (u "archive/2019/missing.pdf"))
    as (res & time & total_pages & R & I & C & Md & Hp & _ & Hn).
  - repeat constructor; vm_compute; congruence.
  - exists res. split; [exact R|].
    destruct (Hn (u "archive/2019/") (u "missing.pdf")) as [_ Hraw];
      [reflexivity|right; exists (u "archive/2019"); reflexivity
      |discriminate|discriminate|vm_compute; intuition discriminate|].
    vm_compute in R. injection R as <-. repeat split; reflexivity.
Defined.

(** ** Two decimals *)

Lemma round_half_even_nearest (n d : Z) :
  0 <= n -> 0 < d ->
  0 <= round_half_even n d
  /\ Z.abs (2 * (round_half_even n d * d - n)) <= d
  /\ (Z.abs (2 * (round_half_even n d * d - n)) = d -> Z.even (round_half_even n d) = true).
Proof.
  intros Hn Hd. unfold round_half_even.
  pose proof (Z.div_mod n d ltac:(lia)) as E.
  pose proof (Z.mod_pos_bound n d Hd) as B.
  pose proof (Z.div_pos n d Hn Hd) as Q.
  set (q := n / d) in *. set (r := n mod d) in *.
  destruct (Z.compare_spec (2 * r) d) as [H|H|H].
  - destruct (Z.even q) eqn:Ev.
    + split; [lia|]. split; [nia|]. intros _. exact Ev.
    + split; [lia|]. split; [nia|]. intros _.
      rewrite Z.even_add, Ev. reflexivity.
  - split; [lia|]. split; [nia|]. intros H'. exfalso. nia.
  - split; [lia|]. split; [nia|]. intros H'. exfalso. nia.
Qed.

Lemma hundredths_nearest (m : positive) (e : Z) :
  0 <= hundredths m e
  /\ (0 <= e -> hundredths m e = 100 * (Z.pos m * 2 ^ e))
  /\ (e < 0 ->
      Z.abs (2 * (hundredths m e * 2 ^ (- e) - 100 * Z.pos m)) <= 2 ^ (- e)
      /\ (Z.abs (2 * (hundredths m e * 2 ^ (- e) - 100 * Z.pos m)) = 2 ^ (- e) ->
          Z.even (hundredths m e) = true)).
Proof.
  unfold hundredths. destruct (Z.leb_spec 0 e) as [H|H].
  - assert (0 < 2 ^ e) by (apply Z.pow_pos_nonneg; lia).
    split; [nia|]. split; [intros _; ring|lia].
  - assert (Hd : 0 < 2 ^ (- e)) by (apply Z.pow_pos_nonneg; lia).
    destruct (round_half_even_nearest (Z.pos m * 100) (2 ^ (- e)) ltac:(lia) Hd)
      as (H0 & H1 & H2).
    split; [exact H0|]. split; [lia|]. intros _.
    replace (100 * Z.pos m) with (Z.pos m * 100) by ring. split; assumption.
Qed.

Lemma read_2f_digits (s : bool) (c : Z) :
  0 <= c ->
  read_2f (sign_chars s ++ str_of_N (Z.to_N (c / 100)) ++ u "." ++ two_digits (c mod 100))
  = Some (s, c).
Proof.
  intros Hc.
  assert (Hm : 0 <= c mod 100 < 100) by (apply Z.mod_pos_bound; lia).
  assert (Hq : 0 <= c / 100) by (apply Z.div_pos; lia).
  destruct (two_digits_digits (c mod 100) Hm) as (d1 & d2 & E2 & D1 & D2).
  pose proof (uint_chars_digits (N.to_uint (Z.to_N (c / 100)))) as Hd.
  fold (str_of_N (Z.to_N (c / 100))) in Hd.
  assert (Hspan : span is_digit (str_of_N (Z.to_N (c / 100)) ++ u "." ++ two_digits (c mod 100))
                  = (str_of_N (Z.to_N (c / 100)), u "." ++ two_digits (c mod 100)))
    by (apply span_all; [exact Hd|reflexivity]).
  assert (Hv : Z.of_N (N.of_uint (uint_of_chars (str_of_N (Z.to_N (c / 100))))) = c / 100).
  { unfold str_of_N. rewrite uint_of_chars_uint_chars, DecimalN.Unsigned.of_to. lia. }
  assert (Hbody : read_hundredths
                    (str_of_N (Z.to_N (c / 100)) ++ u "." ++ two_digits (c mod 100))
                  = Some c).
  { unfold read_hundredths. rewrite Hspan.
    pose proof (str_of_N_nonempty (Z.to_N (c / 100))) as Hne.
    destruct (str_of_N (Z.to_N (c / 100))) as [|x t] eqn:Es; [congruence|].
    rewrite E2. change (u ".") with [46%N].
    cbn [app]. rewrite D1, D2. cbn [N.eqb Pos.eqb andb]. rewrite Hv.
    unfold two_digits in E2. injection E2 as <- <-.
    assert (0 <= c mod 100 / 10 < 10)
      by (split; [apply Z.div_pos|apply Z.div_lt_upper_bound]; lia).
    assert (0 <= c mod 100 mod 10 < 10) by (apply Z.mod_pos_bound; lia).
    f_equal.
    pose proof (Z.div_mod c 100 ltac:(lia)). pose proof (Z.div_mod (c mod 100) 10 ltac:(lia)).
    lia. }
  unfold read_2f. destruct s; cbn [sign_chars app].
  - cbn [N.eqb Pos.eqb]. rewrite Hbody. reflexivity.
  - destruct (str_of_N_head (Z.to_N (c / 100))) as (x & t & Es & Hx).
    rewrite Es in *. cbn [app] in *.
    replace (x =? 45)%N with false; [rewrite Hbody; reflexivity|].
    symmetry. apply N.eqb_neq. intros ->. discriminate.
Qed.

Lemma read_2f_format_2f (x : float) (s : bool) (m : positive) (e : Z) :
  Prim2SF x = S754_finite s m e ->
  read_2f (format_2f x) = Some (s, hundredths m e).
Proof.
  intros E. unfold format_2f. rewrite E. cbv zeta.
  apply read_2f_digits. apply hundredths_nearest.
Qed.

(** C7: when an engine returns a valid result after all the earlier ones
    failed, the [extraction_info] of the result of [extract] holds the file
    name (the last component of the path), the elapsed time (second clock
    reading minus the first) printed with two decimals and followed by "s",
    the one-element list of the engine's name, the status "success", and the
    confidence the adapter reported, 0.8 when it reported none; [content] is
    the adapter's content and [metadata] the adapter's metadata. The two
    decimals are those of the elapsed time: for an elapsed time of exact
    value [m * 2^e], the text reads as the number of hundredths nearest to
    it, the even one of two that are equally near, with a minus sign exactly
    when the elapsed time has one. *)
Theorem success_result_fields (w : World) (engines : list (pystr * engine))
    (pdf_path : pystr) (pre post : list (pystr * engine)) (name : pystr)
    (extractor : engine) (r : pyval) :
  engines = pre ++ (name, extractor) :: post ->
  Forall (fun e => engine_fails (snd e) pdf_path (analysis_of w pdf_path)) pre ->
  engine_succeeds extractor pdf_path (analysis_of w pdf_path) r ->
  exists res : ExtractionResult,
    outcome_of (extract_with w engines pdf_path) = Ret res
    /\ extraction_info res =
         PDict [ (u "file_name", PStr (path_name pdf_path));
                 (u "processing_time",
                   PStr (format_2f (PrimFloat.sub (clock w 1) (clock w 0)) ++ u "s"));
                 (u "engine_used", PList [PStr name]);
                 (u "status", PStr (u "success"));
                 (u "confidence",
                   match py_field r (u "confidence") with
                   | Some confidence => confidence
                   | None => PFloat 0.8
                   end) ]
    /\ (float_is_finite (PrimFloat.sub (clock w 1) (clock w 0)) = true ->
        two_decimals (format_2f (PrimFloat.sub (clock w 1) (clock w 0))))
    /\ py_field r (u "content") = Some (content res)
    /\ metadata res =
         match py_field r (u "metadata") with
         | Some metadata => metadata
         | None => PDict []
         end
    /\ (forall (s : bool) (m : positive) (e : Z),
          Prim2SF (PrimFloat.sub (clock w 1) (clock w 0)) = S754_finite s m e ->
          exists h : Z,
            read_2f (format_2f (PrimFloat.sub (clock w 1) (clock w 0))) = Some (s, h)
            /\ 0 <= h
            /\ (0 <= e -> h = 100 * (Z.pos m * 2 ^ e))
            /\ (e < 0 ->
                Z.abs (2 * (h * 2 ^ (- e) - 100 * Z.pos m)) <= 2 ^ (- e)
                /\ (Z.abs (2 * (h * 2 ^ (- e) - 100 * Z.pos m)) = 2 ^ (- e) ->
                    Z.even h = true)))
    /\ (forall s : bool,
          Prim2SF (PrimFloat.sub (clock w 1) (clock w 0)) = S754_zero s ->
          format_2f (PrimFloat.sub (clock w 1) (clock w 0))
          = if s then u "-0.00" else u "0.00")
    /\ (forall dir file : pystr,
          pdf_path = dir ++ file ->
          dir = [] \/ (exists d, dir = d ++ [47%N]) ->
          file <> [] -> file <> u "." -> ~ In 47%N file ->
          py_field (extraction_info res) (u "file_name") = Some (PStr file)).
Proof.
  intros -> F S. rewrite (extract_with_first_success _ _ _ _ _ _ _ F S).
  exists (success_record w pdf_path name r).
  split; [reflexivity|]. split; [reflexivity|].
  split; [apply format_2f_two_decimals|].
  split; [|split; [reflexivity|split; [|split]]].
  - destruct S as [_ V].
    destruct (proj1 (_is_valid_result_true r) V) as (d & c & s & -> & EC & _).
    unfold success_record, py_get_default, py_field. cbn [content].
    rewrite EC. reflexivity.
  - intros s m e E. exists (hundredths m e).
    split; [exact (read_2f_format_2f _ s m e E)|]. apply hundredths_nearest.
  - intros s E. unfold format_2f. rewrite E. destruct s; reflexivity.
  - intros dir file -> Hdir H1 H2 H3.
    unfold success_record. cbn [extraction_info py_field dict_lookup].
    rewrite (path_name_after_slash dir file Hdir (conj H1 (conj H2 H3))).
    reflexivity.
Qed.

Lemma success_result_fields_witness :
  exists res : ExtractionResult,
    outcome_of (extract sample_world (u "docs/report.pdf")) = Ret res
    /\ extraction_info res =
         PDict [ (u "file_name", PStr (u "report.pdf"));
                 (u "processing_time", PStr (u "1.25s"));
                 (u "engine_used", PList [PStr (u "pdfplumber")]);
                 (u "status", PStr (u "success"));
                 (u "confidence", PFloat 0.8) ]
    /\ metadata res =
         PDict [ (u "total_pages", PInt 7);
                 (u "text_extraction_method", PStr (u "native")) ]
    /\ Prim2SF (PrimFloat.sub (clock sample_world 1) (clock sample_world 0))
       = S754_finite false 5629499534213120 (-52)
    /\ read_2f (u "1.25") = Some (false, 125).
Proof.
  destruct (success_result_fields sample_world (self_engines sample_world)
              (u "docs/report.pdf")
              [(u "docling", _docling_extract sample_world)]
              [(u "tesseract", _tesseract_extract sample_world)]
              (u "pdfplumber") (_pdfplumber_extract sample_world)
              sample_pdfplumber_result)
    as (res & R & I & _ & _ & Md & _).
  - reflexivity.
  - repeat constructor.
  - split; vm_compute; reflexivity.
  - exists res. split; [exact R|].
    split; [rewrite I; vm_compute; reflexivity|].
    split; [rewrite Md; vm_compute; reflexivity|].
    split; vm_compute; reflexivity.
Defined.

(** * The analyzer's sample *)

Lemma sample_loop_reads (pages : list Page) : forall (i : nat) (st st' : scan),
  outcome_of (sample_loop i pages st) = Ret st' ->
  Forall (fun page => exists text images,
            page_extract_text page = Ret text /\ page_images page = Ret images) pages.
Proof.
  induction pages as [|page rest IH]; intros i st st'; [constructor|].
  cbn [sample_loop]. rewrite outcome_of_bind.
  destruct (outcome_of (sample_page i page st)) as [st1|e] eqn:E1; [|discriminate].
  intros E2. apply List.Forall_cons; [|exact (IH _ _ _ E2)].
  unfold sample_page, call in E1.
  destruct (page_extract_text page) as [text|e]; [|discriminate].
  destruct (page_images page) as [images|e]; [|discriminate].
  exists text, images. split; reflexivity.
Qed.

Lemma existsb_first_pages (f : Page -> bool) (n : nat) (pages : list Page) :
  existsb f (take n pages) = true <->
  exists j page, (j < n)%nat /\ pages !! j = Some page /\ f page = true.
Proof.
  rewrite existsb_exists. split.
  - intros (page & Hin & Hf). apply list_elem_of_In, elem_of_take in Hin.
    destruct Hin as (j & Hj & Hlt). exists j, page. auto.
  - intros (j & page & Hlt & Hj & Hf). exists page. split; [|exact Hf].
    apply list_elem_of_In, elem_of_take. exists j. auto.
Qed.

(** C8: when the document can be opened and read (the text and the images
    of each sampled page, and the size of the file), the analyzer reads the
    text and the images of exactly the first [min 5 N] of its [N] pages, in
    order, and nothing else of the document: 5 pages when [N > 5], all [N]
    when [N <= 5]. What it reports is about these pages and no other: index
    [j] is in [estimated_scan_pages] exactly when [j < 5] and page [j] of the
    document has little text, and [has_text] and [has_images] hold exactly
    when one of the pages of index below 5 has text, or an image. *)
Theorem analyzer_samples_first_pages (w : World) (file_path : pystr) (r : pyval) :
  outcome_of (analyze_body w file_path) = Ret r ->
  exists (pages : list Page) (low : list nat) (ht hi : bool),
    pdfplumber_open w file_path = Ret pages
    /\ outcome_of (analyze_pdf w file_path) = Ret r
    /\ trace (analyze_pdf w file_path) =
         EvOpen file_path ::
           flat_map (fun i => [EvText i; EvImages i])
                    (seq 0 (Nat.min 5 (length pages)))
           ++ [EvStat file_path]
    /\ ((5 < length pages)%nat -> Nat.min 5 (length pages) = 5%nat)
    /\ ((length pages <= 5)%nat -> Nat.min 5 (length pages) = length pages)
    /\ py_field r (u "pages") = Some (PInt (Z.of_nat (length pages)))
    /\ py_field r (u "estimated_scan_pages") =
         Some (PList (List.map (fun i => PInt (Z.of_nat i)) low))
    /\ Forall (fun i => (i < Nat.min 5 (length pages))%nat) low
    /\ (forall j : nat,
          In j low <->
          (j < 5)%nat /\ exists page, pages !! j = Some page /\ page_low_text page = true)
    /\ py_field r (u "has_text") = Some (PBool ht)
    /\ (ht = true <->
        exists j page, (j < 5)%nat /\ pages !! j = Some page /\ page_has_text page = true)
    /\ py_field r (u "has_images") = Some (PBool hi)
    /\ (hi = true <->
        exists j page, (j < 5)%nat /\ pages !! j = Some page /\ page_has_images page = true)
    /\ (forall (j : nat) (page : Page),
          (j < 5)%nat -> pages !! j = Some page ->
          exists text images,
            page_extract_text page = Ret text /\ page_images page = Ret images).
Proof.
  intros H.
  destruct (analyze_body_ret _ _ _ H) as (pages & st & size & EO & ES & EL & -> & T).
  pose proof EL as EL'. rewrite take_min_length in EL'.
  destruct (sample_loop_state _ _ _ _ EL') as (Ht & Hi & Hl). cbn in Ht, Hi, Hl.
  exists pages, (estimated_scan_pages st), (has_text st), (has_images st).
  split; [exact EO|]. split; [rewrite analyze_pdf_outcome, H; reflexivity|].
  split; [rewrite analyze_pdf_trace; exact T|].
  split; [intros; apply Nat.min_l; lia|]. split; [intros; apply Nat.min_r; lia|].
  split; [reflexivity|]. split; [reflexivity|].
  split; [|split; [|split; [reflexivity|split; [|split; [reflexivity|split]]]]].
  - destruct (sample_loop_ret _ _ _ _ EL) as (_ & l & L & F).
    rewrite L. cbn [estimated_scan_pages app]. eapply Forall_impl; [exact F|].
    intros i. rewrite length_take. lia.
  - intros j. rewrite Hl, low_text_from_spec, Nat.sub_0_r. split.
    + intros (page & Hp & _ & Hlow). apply lookup_take_Some in Hp as [Hp Hlt].
      split; [exact Hlt|]. exists page. auto.
    + intros (Hlt & page & Hp & Hlow). exists page.
      split; [rewrite lookup_take_lt by exact Hlt; exact Hp|]. split; [lia|exact Hlow].
  - rewrite Ht. apply existsb_first_pages.
  - rewrite Hi. apply existsb_first_pages.
  - intros j page Hlt Hp.
    pose proof (sample_loop_reads _ _ _ _ EL') as Hr.
    rewrite Forall_forall in Hr. apply Hr.
    apply elem_of_take. exists j. auto.
Qed.

Lemma analyzer_samples_first_pages_witness :
  outcome_of (analyze_pdf sample_world (u "docs/report.pdf")) =
    Ret (PDict [ (u "pages", PInt 7);
                 (u "has_text", PBool true);
                 (u "has_images", PBool false);
                 (u "estimated_scan_pages", PList [PInt 1]);
                 (u "file_size", PInt 48213);
                 (u "processing_strategy", PStr (u "text_extraction")) ])
  /\ trace (analyze_pdf sample_world (u "docs/report.pdf")) =
       [ EvOpen (u "docs/report.pdf");
         EvText 0; EvImages 0; EvText 1; EvImages 1; EvText 2; EvImages 2;
         EvText 3; EvImages 3; EvText 4; EvImages 4;
         EvStat (u "docs/report.pdf") ]
  /\ (forall j : nat,
        In j [1%nat] <->
        (j < 5)%nat
        /\ exists page,
             [text_page prose; text_page "2"; text_page prose; text_page prose;
              text_page prose; text_page " "; text_page prose] !! j = Some page
             /\ page_low_text page = true).
Proof.
  destruct (analyzer_samples_first_pages sample_world (u "docs/report.pdf")
              (PDict [ (u "pages", PInt 7);
                       (u "has_text", PBool true);
                       (u "has_images", PBool false);
                       (u "estimated_scan_pages", PList [PInt 1]);
                       (u "file_size", PInt 48213);
                       (u "processing_strategy", PStr (u "text_extraction")) ]))
    as (pages & low & ht & hi & EO & ER & T & _ & _ & _ & EL & _ & Hlow & _).
  - vm_compute. reflexivity.
  - cbn in EO. injection EO as <-.
    split; [exact ER|]. split; [exact T|].
    assert (El : low = [1%nat]).
    { cbn in EL. injection EL as EL. destruct low as [|a [|b low]]; try discriminate.
      injection EL as EL. f_equal. lia. }
    rewrite <- El. exact Hlow.
Defined.

(** C8 does not extend to every document that opens. Of the seven pages of
    [damaged.pdf] one is inspected, not five, since reading the first page
    raises; and for the document without pages whose size cannot be read,
    [estimated_scan_pages] is [0] though no page was sampled. So neither
    "exactly [min 5 N] pages are inspected" nor "[estimated_scan_pages] holds
    only indices of sampled pages" holds of every document that opens. *)
Lemma analyzer_samples_first_pages_counterexample :
  pdfplumber_open damaged_world (u "damaged.pdf")
  = Ret [broken_page; text_page prose; text_page prose; text_page prose;
         text_page prose; text_page prose; text_page prose]
  /\ trace (analyze_pdf damaged_world (u "damaged.pdf"))
     = [EvOpen (u "damaged.pdf"); EvText 0]
  /\ Nat.min 5 7 = 5%nat
  /\ pdfplumber_open damaged_world (u "vanished.pdf") = Ret []
  /\ trace (analyze_pdf damaged_world (u "vanished.pdf"))
     = [EvOpen (u "vanished.pdf"); EvStat (u "vanished.pdf")]
  /\ outcome_of (analyze_pdf damaged_world (u "vanished.pdf"))
     = Ret (PDict [ (u "pages", PInt 1);
                    (u "has_text", PBool false);
                    (u "has_images", PBool false);
                    (u "estimated_scan_pages", PList [PInt 0]);
                    (u "file_size", PInt 0);
                    (u "processing_strategy", PStr (u "fallback")) ])
  /\ ~ (forall (w : World) (file_path : pystr) (pages : list Page),
          pdfplumber_open w file_path = Ret pages ->
          List.filter (fun ev => match ev with EvText _ => true | _ => false end)
                      (trace (analyze_pdf w file_path))
          = List.map EvText (seq 0 (Nat.min 5 (length pages))))
  /\ ~ (forall (w : World) (file_path : pystr) (pages : list Page),
          pdfplumber_open w file_path = Ret pages ->
          exists (a : pyval) (low : list nat),
            outcome_of (analyze_pdf w file_path) = Ret a
            /\ py_field a (u "estimated_scan_pages")
               = Some (PList (List.map (fun i => PInt (Z.of_nat i)) low))
            /\ Forall (fun i => (i < Nat.min 5 (length pages))%nat) low).
Proof.
  split; [reflexivity|]. split; [reflexivity|]. split; [reflexivity|].
  split; [reflexivity|]. split; [reflexivity|]. split; [reflexivity|]. split.
  - intros H. pose proof (H damaged_world (u "damaged.pdf") _ eq_refl) as H'.
    cbn in H'. discriminate H'.
  - intros H.
    destruct (H damaged_world (u "vanished.pdf") _ eq_refl) as (a & low & Ha & Hl & F).
    cbn in Ha. injection Ha as <-. cbn in Hl. injection Hl as Hl.
    destruct low as [|i low]; [discriminate Hl|].
    apply Forall_inv in F. cbn in F. lia.
Qed.

(** C2 does not extend to every document that opens. [broken.pdf] opens with
    two pages, reading the second raises, and the record has both flags
    false with strategy "fallback" where the table says "hybrid"; the
    document without pages whose size cannot be read gets page count 1, not
    0. So neither "the strategy is the table's entry for the two flags" nor
    "a document without pages has page count 0" holds of every document that
    opens. *)
Lemma strategy_derivation_counterexample :
  pdfplumber_open sample_world (u "broken.pdf") = Ret [text_page prose; broken_page]
  /\ outcome_of (analyze_pdf sample_world (u "broken.pdf"))
     = Ret (PDict [ (u "pages", PInt 1);
                    (u "has_text", PBool false);
                    (u "has_images", PBool false);
                    (u "estimated_scan_pages", PList [PInt 0]);
                    (u "file_size", PInt 0);
                    (u "processing_strategy", PStr (u "fallback")) ])
  /\ strategy_table false false = u "hybrid"
  /\ pdfplumber_open damaged_world (u "vanished.pdf") = Ret []
  /\ outcome_of (analyze_pdf damaged_world (u "vanished.pdf"))
     = Ret (PDict [ (u "pages", PInt 1);
                    (u "has_text", PBool false);
                    (u "has_images", PBool false);
                    (u "estimated_scan_pages", PList [PInt 0]);
                    (u "file_size", PInt 0);
                    (u "processing_strategy", PStr (u "fallback")) ])
  /\ ~ (forall (w : World) (file_path : pystr) (pages : list Page),
          pdfplumber_open w file_path = Ret pages ->
          exists (a : pyval) (ht hi : bool),
            outcome_of (analyze_pdf w file_path) = Ret a
            /\ py_field a (u "has_text") = Some (PBool ht)
            /\ py_field a (u "has_images") = Some (PBool hi)
            /\ py_field a (u "processing_strategy") = Some (PStr (strategy_table ht hi)))
  /\ ~ (forall (w : World) (file_path : pystr),
          pdfplumber_open w file_path = Ret [] ->
          exists a : pyval,
            outcome_of (analyze_pdf w file_path) = Ret a
            /\ py_field a (u "pages") = Some (PInt 0)).
Proof.
  split; [reflexivity|]. split; [reflexivity|]. split; [reflexivity|].
  split; [reflexivity|]. split; [reflexivity|]. split.
  - intros H.
    destruct (H sample_world (u "broken.pdf") _ eq_refl) as (a & ht & hi & Ha & Ht & Hi & Hs).
    cbn in Ha. injection Ha as <-.
    cbn in Ht, Hi, Hs. injection Ht as <-. injection Hi as <-. discriminate Hs.
  - intros H.
    destruct (H damaged_world (u "vanished.pdf") eq_refl) as (a & Ha & Hp).
    cbn in Ha. injection Ha as <-. discriminate Hp.
Qed.

(** * When the analysis completes *)

Lemma sample_loop_returns (pages : list Page) : forall (i : nat) (st : scan),
  Forall (fun page => exists text images,
            page_extract_text page = Ret text /\ page_images page = Ret images) pages ->
  exists st', outcome_of (sample_loop i pages st) = Ret st'.
Proof.
  induction pages as [|page rest IH]; intros i st F.
  - exists st. reflexivity.
  - apply Forall_cons in F as [(text & images & Et & Ei) F].
    cbn [sample_loop]. rewrite outcome_of_bind.
    assert (E1 : exists st1, outcome_of (sample_page i page st) = Ret st1).
    { unfold sample_page, call. rewrite Et, Ei. eexists. reflexivity. }
    destruct E1 as (st1 & ->). apply IH. exact F.
Qed.

(** X16: the body of the [try] of [analyze_pdf] completes exactly when the
    document opens, each of its pages of index below 5 gives its text and
    its images, and the size of the file can be read. In every other case
    the analyzer returns the degraded record. What a page of index 5 or more
    does, and what [extract_tables] does on any page, plays no part. *)
Theorem analysis_completes_iff (w : World) (file_path : pystr) :
  ((exists r, outcome_of (analyze_body w file_path) = Ret r) <->
   exists (pages : list Page) (size : Z),
     pdfplumber_open w file_path = Ret pages
     /\ stat_st_size w file_path = Ret size
     /\ forall (j : nat) (page : Page),
          (j < 5)%nat -> pages !! j = Some page ->
          exists text images,
            page_extract_text page = Ret text /\ page_images page = Ret images)
  /\ ((forall r, outcome_of (analyze_body w file_path) <> Ret r) ->
      outcome_of (analyze_pdf w file_path) =
        Ret (PDict [ (u "pages", PInt 1);
                     (u "has_text", PBool false);
                     (u "has_images", PBool false);
                     (u "estimated_scan_pages", PList [PInt 0]);
                     (u "file_size", PInt 0);
                     (u "processing_strategy", PStr (u "fallback")) ])).
Proof.
  split; [split|].
  - intros (r & H).
    destruct (analyze_body_ret _ _ _ H) as (pages & st & size & EO & ES & EL & _ & _).
    exists pages, size. split; [exact EO|]. split; [exact ES|].
    intros j page Hlt Hp. rewrite take_min_length in EL.
    pose proof (sample_loop_reads _ _ _ _ EL) as Hr.
    rewrite Forall_forall in Hr. apply Hr. apply elem_of_take. exists j. auto.
  - intros (pages & size & EO & ES & Hr).
    assert (F : Forall (fun page => exists text images,
                          page_extract_text page = Ret text /\ page_images page = Ret images)
                       (take (Nat.min 5 (length pages)) pages)).
    { rewrite take_min_length, Forall_forall. intros page Hin.
      apply elem_of_take in Hin as (j & Hj & Hlt). exact (Hr j page Hlt Hj). }
    destruct (sample_loop_returns _ 0%nat
                {| has_text := false; has_images := false; estimated_scan_pages := [] |} F)
      as (st & EL).
    unfold analyze_body. rewrite outcome_of_bind. rewrite EO.
    cbn [call outcome_of snd]. rewrite outcome_of_bind, EL, outcome_of_bind, ES.
    cbn [call outcome_of snd ret]. eexists. reflexivity.
  - intros H. rewrite analyze_pdf_outcome.
    destruct (outcome_of (analyze_body w file_path)) as [r|e] eqn:E;
      [exfalso; exact (H r eq_refl)|reflexivity].
Qed.

(** * Saving *)




